(** * Bloom filter of keyhunt (bloom/bloom.cpp): a shallow embedding

    The C functions of [bloom.cpp] are embedded as functions of a small
    state monad over an explicit machine state: the heap blocks that hold
    bit buffers, the file system, and a trace of the byte accesses made on
    heap blocks.  Unsigned C integers are [Z] with the wrap-around written
    out.  Undefined behaviour of the C program (division by zero, access
    outside a live block, a conversion whose value does not fit) is the
    outcome [Undef].  What the functions print is left out, and so are
    [bloom_print] and [bloom_version], which only print or return text. *)

From Stdlib Require Import ZArith Lia List Bool Reals Lra.
From stdpp Require Import base gmap strings list.

Local Open Scope Z_scope.

(** ** Machine integers *)

Definition wrap (width : Z) (z : Z) : Z := z mod 2 ^ width.
Definition u8 : Z -> Z := wrap 8.
Definition u16 : Z -> Z := wrap 16.
Definition u64 : Z -> Z := wrap 64.

(** ** Machine state *)

(** Accesses to heap blocks, in program order. *)
Inductive event : Type :=
| EvLoad (p off : Z)             (* one byte read at p[off] *)
| EvStore (p off v : Z)          (* one byte written at p[off] *)
| EvFill (p len : Z)             (* len bytes written at p[0..len) in bulk *)
| EvDump (p len : Z).            (* len bytes read at p[0..len) in bulk *)

Record world : Type := World {
  w_heap : gmap Z (list Z);        (* live heap blocks, by address *)
  w_brk : positive;                (* the address the allocator hands out next *)
  w_memfree : Z;                   (* bytes the allocator can still serve *)
  w_files : gmap string (list Z);  (* the files, by path *)
  w_denied : gset string;          (* paths that cannot be opened for writing *)
  w_diskfree : Z;                  (* bytes the device still accepts *)
  w_trace : list event             (* heap accesses so far *)
}.

Definition set_heap (h : gmap Z (list Z)) (w : world) : world :=
  World h (w_brk w) (w_memfree w) (w_files w) (w_denied w) (w_diskfree w) (w_trace w).

Definition log (e : event) (w : world) : world :=
  World (w_heap w) (w_brk w) (w_memfree w) (w_files w) (w_denied w) (w_diskfree w)
        (w_trace w ++ [e]).

(** ** Outcomes and the monad *)

Inductive outcome (A : Type) : Type :=
| Done (a : A) (w : world)        (* the call returned a *)
| Exit (status : Z) (w : world)   (* the process called exit *)
| Undef.                          (* undefined behaviour *)
Arguments Done {A} a w.
Arguments Exit {A} status w.
Arguments Undef {A}.

Definition M (A : Type) : Type := world -> outcome A.

Definition ret {A} (a : A) : M A := fun w => Done a w.

Definition bind {A B} (m : M A) (k : A -> M B) : M B :=
  fun w => match m w with
           | Done a w' => k a w'
           | Exit s w' => Exit s w'
           | Undef => Undef
           end.

Definition undef {A} : M A := fun _ => Undef.

Notation "'let!' x ':=' m 'in' k" := (bind m (fun x => k))
  (at level 10, x name, m at level 100, k at level 200).

(** ** Heap primitives *)

(** [buf[off]] as an rvalue. *)
Definition load (p off : Z) : M Z := fun w =>
  match w_heap w !! p with
  | Some blk =>
      if decide (0 <= off) then
        match blk !! Z.to_nat off with
        | Some c => Done c (log (EvLoad p off) w)
        | None => Undef
        end
      else Undef
  | None => Undef
  end.

(** [buf[off] = v]. *)
Definition store (p off v : Z) : M unit := fun w =>
  match w_heap w !! p with
  | Some blk =>
      if decide (0 <= off < Z.of_nat (length blk)) then
        Done tt (log (EvStore p off v)
                   (set_heap (<[p := <[Z.to_nat off := v]> blk]> (w_heap w)) w))
      else Undef
  | None => Undef
  end.

(** [memset(p, 0, len)] on a heap block. *)
Definition memset0 (p len : Z) : M unit := fun w =>
  match w_heap w !! p with
  | Some blk =>
      if decide (0 <= len <= Z.of_nat (length blk)) then
        Done tt (log (EvFill p len)
                   (set_heap (<[p := replicate (Z.to_nat len) 0
                                     ++ drop (Z.to_nat len) blk]> (w_heap w)) w))
      else Undef
  | None => Undef
  end.

(** ** struct bloom

    [bloom.h] is not part of the sources at hand; the fields are the ones
    [bloom.cpp] uses.  [F] is the type of the two floating-point fields
    ([long double error], [bpe]).  The mutex field only serialises
    concurrent calls of [bloom_add] and carries no data. *)

Record bloom {F : Type} : Type := Bloom {
  entries : Z;     (* uint64_t *)
  error : F;
  bits : Z;        (* uint64_t *)
  bytes : Z;       (* uint64_t *)
  hashes : Z;      (* uint8_t *)
  bpe : F;
  bf : Z;          (* uint8_t*, 0 is NULL *)
  ready : Z;
  major : Z;
  minor : Z
}.
Arguments bloom : clear implicits.
Arguments Bloom {F}.

(** ** The hash primitive

    [XXH64(buffer, len, seed)] of xxhash.h, an external collaborator: the
    buffer and its length are the list of bytes hashed. *)
Class Hash64 : Type := XXH64 : list Z -> Z -> Z.

(** ** Bit test and set, membership test and insertion *)

Definition test_bit_set_bit (buf : Z) (bit : Z) (set_bit : Z) : M Z :=
  let byte := Z.shiftr bit 3 in
  let! c := load buf byte in
  let mask := u8 (Z.shiftl 1 (bit mod 8)) in
  if negb (Z.land c mask =? 0) then ret 1
  else
    let! _ := (if negb (set_bit =? 0) then store buf byte (Z.lor c mask) else ret tt) in
    ret 0.

Section CheckAdd.
Context {hash : Hash64} {F : Type}.

(** [x = (a + b * i) % bloom->bits] on [uint64_t]; a zero divisor is
    undefined behaviour. *)
Definition bit_index (b : bloom F) (a bb i : Z) : Z :=
  u64 (a + u64 (bb * i)) mod bits b.

(** The body of the [for] loop, [n] rounds from counter [i] on.  The
    counter is a [uint8_t] below [bloom->hashes], itself a [uint8_t], so
    it never wraps. *)
Fixpoint bloom_rounds (b : bloom F) (a bb : Z) (add : Z)
         (n : nat) (i hits : Z) : M Z :=
  match n with
  | O => ret (if hits =? hashes b then 1 else 0)
  | S n' =>
      if bits b =? 0 then undef
      else
        let x := bit_index b a bb i in
        let! t := test_bit_set_bit (bf b) x add in
        if negb (t =? 0) then bloom_rounds b a bb add n' (i + 1) (u8 (hits + 1))
        else if add =? 0 then ret 0
        else bloom_rounds b a bb add n' (i + 1) hits
  end.

Definition hash_seed : Z := 0x59f2815b16f81798.

(** [buffer] stands for the pointer and the length.  On an unready
    structure a message is printed and -1 returned. *)
Definition bloom_check_add (b : bloom F) (buffer : list Z) (add : Z) : M Z :=
  if ready b =? 0 then ret (-1)
  else
    let a := XXH64 buffer hash_seed in
    let bb := XXH64 buffer a in
    bloom_rounds b a bb add (Z.to_nat (hashes b)) 0 0.

Definition bloom_check (b : bloom F) (buffer : list Z) : M Z :=
  bloom_check_add b buffer 0.

(** The mutex is taken before the call of [bloom_check_add] and released
    after it; calls are taken one at a time here. *)
Definition bloom_add (b : bloom F) (buffer : list Z) : M Z :=
  bloom_check_add b buffer 1.

(** [if (!bloom->ready) return 1; memset(bloom->bf, 0, bloom->bytes);] *)
Definition bloom_reset (b : bloom F) : M Z :=
  if ready b =? 0 then ret 1
  else
    let! _ := memset0 (bf b) (bytes b) in
    ret 0.

End CheckAdd.

(** ** Allocation *)

Definition alloc_block (n : Z) (w : world) : world :=
  World (<[Z.pos (w_brk w) := replicate (Z.to_nat n) 0]> (w_heap w))
        (Pos.succ (w_brk w)) (w_memfree w - n)
        (w_files w) (w_denied w) (w_diskfree w) (w_trace w).

(** [calloc(n, 1)]: a fresh zeroed block, or NULL when the allocator
    cannot serve [n] bytes. *)
Definition calloc (n : Z) : M Z := fun w =>
  if decide (n <= w_memfree w) then Done (Z.pos (w_brk w)) (alloc_block n w)
  else Done 0 w.

(** [malloc(n)].  C leaves the contents of the block indeterminate; every
    caller below overwrites the whole block or frees it before any read, so
    the block is shown zero-filled. *)
Definition malloc (n : Z) : M Z := calloc n.

(** [free(p)]: [free(NULL)] does nothing, freeing what is not a live block
    is undefined. *)
Definition free (p : Z) : M unit := fun w =>
  if decide (p = 0) then Done tt w
  else
    match w_heap w !! p with
    | Some blk =>
        Done tt (World (delete p (w_heap w)) (w_brk w)
                       (w_memfree w + Z.of_nat (length blk))
                       (w_files w) (w_denied w) (w_diskfree w) (w_trace w))
    | None => Undef
    end.

(** ** Files *)

(** An open stream or descriptor: the path it was opened on and the
    current offset. *)
Record FILE : Type := File { f_path : string; f_pos : Z }.

Definition set_files (fs : gmap string (list Z)) (dfree : Z) (w : world) : world :=
  World (w_heap w) (w_brk w) (w_memfree w) fs (w_denied w) dfree (w_trace w).

(** [fopen(path, "rb")] and [open(path, O_RDONLY)]. *)
Definition open_read (path : string) : M (option FILE) := fun w =>
  match w_files w !! path with
  | Some _ => Done (Some (File path 0)) w
  | None => Done None w
  end.

(** [fopen(path, "wb")]: creates the file or truncates it. *)
Definition fopen_wb (path : string) : M (option FILE) := fun w =>
  if decide (path ∈ w_denied w) then Done None w
  else Done (Some (File path 0)) (set_files (<[path := []]> (w_files w)) (w_diskfree w) w).

(** [open(path, O_WRONLY | O_CREAT, 0644)]: creates the file when it is
    missing and keeps its contents when it exists. *)
Definition open_wronly_creat (path : string) : M (option FILE) := fun w =>
  if decide (path ∈ w_denied w) then Done None w
  else
    match w_files w !! path with
    | Some _ => Done (Some (File path 0)) w
    | None => Done (Some (File path 0))
                   (set_files (<[path := []]> (w_files w)) (w_diskfree w) w)
    end.

(** The contents of a file after [data] is written at offset [pos]. *)
Definition overwrite (pos : Z) (data old : list Z) : list Z :=
  take (Z.to_nat pos) old ++ data ++ drop (Z.to_nat pos + length data) old.

(** [fwrite(data, 1, len, f)] and [write(fd, data, len)]: the device takes
    as many of the bytes as it still accepts; the count transferred is
    returned. *)
Definition file_write (data : list Z) (f : FILE) : M (Z * FILE) := fun w =>
  match w_files w !! f_path f with
  | Some old =>
      let sent := take (Z.to_nat (w_diskfree w)) data in
      let k := Z.of_nat (length sent) in
      Done (k, File (f_path f) (f_pos f + k))
           (set_files (<[f_path f := overwrite (f_pos f) sent old]> (w_files w))
                      (w_diskfree w - k) w)
  | None => Undef
  end.

(** [fread(buf, 1, n, f)] and [read(fd, buf, n)]: the bytes transferred,
    at most [n] and at most what is left of the file. *)
Definition file_read (n : Z) (f : FILE) : M (list Z * FILE) := fun w =>
  match w_files w !! f_path f with
  | Some content =>
      let got := take (Z.to_nat n) (drop (Z.to_nat (f_pos f)) content) in
      Done (got, File (f_path f) (f_pos f + Z.of_nat (length got))) w
  | None => Undef
  end.

(** Reading from a file into the heap block at [p]: the count read. *)
Definition file_read_heap (p n : Z) (f : FILE) : M (Z * FILE) :=
  let! r := file_read n f in
  let got := r.1 in
  fun w =>
    match w_heap w !! p with
    | Some blk =>
        if decide (0 <= n <= Z.of_nat (length blk)) then
          Done (Z.of_nat (length got), r.2)
               (log (EvFill p (Z.of_nat (length got)))
                  (set_heap (<[p := got ++ drop (length got) blk]> (w_heap w)) w))
        else Undef
    | None => Undef
    end.

(** Writing the first [n] bytes of the heap block at [p] to a file: the
    count written. *)
Definition file_write_heap (p n : Z) (f : FILE) : M (Z * FILE) := fun w =>
  match w_heap w !! p with
  | Some blk =>
      if decide (0 <= n <= Z.of_nat (length blk)) then
        file_write (take (Z.to_nat n) blk) f (log (EvDump p n) w)
      else Undef
  | None => Undef
  end.

Definition exit {A} (status : Z) : M A := fun w => Exit status w.

(** ** Floating point

    The values of [long double] and the operations [bloom.cpp] applies to
    them.  [ld_zero] is the value whose object representation is all zero
    bytes (what [memset] leaves in a floating-point field). *)
Class FloatZero (F : Type) : Type := ld_zero : F.

Class LongDouble (F : Type) : Type := {
  ld_of_Z : Z -> F;            (* conversion of an integer *)
  ld_lit : Z -> nat -> F;      (* the decimal literal m * 10^-k *)
  ld_neg : F -> F;
  ld_log : F -> F;
  ld_div : F -> F -> F;
  ld_mul : F -> F -> F;
  ld_ceil : F -> F;
  ld_leb : F -> F -> bool;     (* x <= y *)
  ld_trunc : F -> option Z     (* the integral part, toward zero, of a finite value *)
}.

(** A conversion to an unsigned integer type of [width] bits: undefined
    when the integral part is not a value of the type. *)
Definition cast_unsigned {F} `{LongDouble F} (width : Z) (x : F) : M Z :=
  match ld_trunc x with
  | Some z => if decide (0 <= z < 2 ^ width) then ret z else undef
  | None => undef
  end.

Definition BLOOM_VERSION_MAJOR : Z := 2.
Definition BLOOM_VERSION_MINOR : Z := 1.

Section Construction.
Context {F : Type} `{FloatZero F} `{LongDouble F}.

(** [memset(bloom, 0, sizeof(struct bloom))]. *)
Definition bloom_zero : bloom F := Bloom 0 ld_zero 0 0 0 ld_zero 0 0 0 0.

(** The part [bloom_init2] and [bloom_dummy] share: the parameters
    derived from [entries] and [error], stored in the structure. *)
Definition derive (n : Z) (err : F) : M (bloom F) :=
  let num := ld_neg (ld_log err) in
  let denom := ld_lit 480453013918201 15 in           (* ln(2)^2 *)
  let bpe := ld_div num denom in
  let dentries := ld_of_Z n in
  let allbits := ld_mul dentries bpe in
  let! bits := cast_unsigned 64 allbits in
  let bytes := u64 (bits / 8) in
  let bytes := if negb (bits mod 8 =? 0) then u64 (bytes + 1) else bytes in
  let! hashes := cast_unsigned 8 (ld_ceil (ld_mul (ld_lit 693147180559945 15) bpe)) in
  ret (Bloom n err bits bytes hashes bpe 0 0 0 0).

Definition bloom_init2 (n : Z) (err : F) : M (Z * bloom F) :=
  if (n <? 1000) || ld_leb err (ld_of_Z 0) || ld_leb (ld_of_Z 1) err
  then ret (1, bloom_zero)
  else
    let! b := derive n err in
    let! p := calloc (bytes b) in
    let b := Bloom (entries b) (error b) (bits b) (bytes b) (hashes b)
                   (bpe b) p 0 0 0 in
    if p =? 0 then ret (1, b)
    else
      ret (0, Bloom (entries b) (error b) (bits b) (bytes b) (hashes b)
                    (bpe b) p 1 BLOOM_VERSION_MAJOR BLOOM_VERSION_MINOR).

(** DEPRECATED - Please migrate to bloom_init2. *)
Definition bloom_init (n : Z) (err : F) : M (Z * bloom F) :=
  bloom_init2 n err.

(** As [bloom_init2], the allocation and what follows it commented out. *)
Definition bloom_dummy (n : Z) (err : F) : M (Z * bloom F) :=
  if (n <? 1000) || ld_leb err (ld_of_Z 0) || ld_leb (ld_of_Z 1) err
  then ret (1, bloom_zero)
  else
    let! b := derive n err in
    ret (0, b).

Definition set_ready (r : Z) (b : bloom F) : bloom F :=
  Bloom (entries b) (error b) (bits b) (bytes b) (hashes b) (bpe b) (bf b)
        r (major b) (minor b).

Definition set_bf (p : Z) (b : bloom F) : bloom F :=
  Bloom (entries b) (error b) (bits b) (bytes b) (hashes b) (bpe b) p
        (ready b) (major b) (minor b).

Definition bloom_free (b : bloom F) : M (bloom F) :=
  let! _ := (if negb (ready b =? 0) then free (bf b) else ret tt) in
  ret (set_ready 0 b).

End Construction.

(** ** Object representation of struct bloom

    [bloom_save] and [bloom_load] copy the bytes of the structure to and
    from files.  The layout comes from [bloom.h] and the compiler, so it is
    a parameter: the size of the structure, the bytes of a value, and the
    value a sequence of [sizeof_bloom] bytes stands for. *)
Class BloomLayout (F : Type) : Type := {
  sizeof_bloom : Z;
  bloom_bytes : bloom F -> list Z;
  bloom_of_bytes : list Z -> bloom F
}.

(** The structure after [data] has been copied over its first bytes. *)
Definition bloom_store {F} `{BloomLayout F} (data : list Z) (b : bloom F) : bloom F :=
  bloom_of_bytes (data ++ drop (length data) (bloom_bytes b)).

Definition bytes_of_string (s : string) : list Z :=
  map (fun c => Z.of_nat (Ascii.nat_of_ascii c)) (String.list_ascii_of_string s).

Definition BLOOM_MAGIC : string := "libbloom2".

(** [strlen(BLOOM_MAGIC)] and [sizeof(BLOOM_MAGIC)], which counts the
    terminating zero. *)
Definition strlen_magic : Z := Z.of_nat (String.length BLOOM_MAGIC).
Definition sizeof_magic : Z := strlen_magic + 1.

(** A [uint16_t] in memory, least significant byte first. *)
Definition u16_bytes (z : Z) : list Z := [z mod 256; (z / 256) mod 256].
Definition u16_of_bytes (l : list Z) : Z :=
  match l with
  | [lo; hi] => lo + 256 * hi
  | _ => 0
  end.

(** [filename == NULL || filename[0] == 0]. *)
Definition no_filename (filename : option string) : bool :=
  match filename with
  | None => true
  | Some s => bool_decide (s = EmptyString)
  end.

Definition the_filename (filename : option string) : string :=
  match filename with
  | Some s => s
  | None => EmptyString
  end.

(** [snprintf(buf, 68, "%s.ext", filename)]: at most 67 characters are
    stored. *)
Definition snprintf68 (filename ext : string) : string :=
  String.substring 0 67 (filename +:+ ext).

Section Serialization.
Context {F : Type} `{FloatZero F} `{BloomLayout F}.

Definition bloom_loadcustom (b : bloom F) (filename : option string)
  : M (Z * bloom F) :=
  if no_filename filename then ret (1, b)
  else
    let filename_str := snprintf68 (the_filename filename) ".blm" in
    let filename_dat := snprintf68 (the_filename filename) ".dat" in
    let! fd_str := open_read filename_str in
    let! fd_dat := open_read filename_dat in
    match fd_str, fd_dat with
    | Some fd_str, Some fd_dat =>
        let! r := file_read sizeof_bloom fd_str in
        let b := bloom_store r.1 b in
        if negb (Z.of_nat (length r.1) =? sizeof_bloom) then ret (1, b)
        else
          let! p := malloc (bytes b) in
          let b := set_bf p b in
          if p =? 0 then ret (1, bloom_zero)
          else
            let! r := file_read_heap p (bytes b) fd_dat in
            if negb (r.1 =? bytes b) then
              let! _ := free p in
              ret (1, bloom_zero)
            else ret (0, b)
    | _, _ => ret (1, b)
    end.

Definition bloom_savecustom (b : bloom F) (filename : option string) : M Z :=
  if no_filename filename then ret 1
  else
    let filename_str := snprintf68 (the_filename filename) ".blm" in
    let filename_dat := snprintf68 (the_filename filename) ".dat" in
    let! fd_str := fopen_wb filename_str in
    let! fd_dat := fopen_wb filename_dat in
    match fd_str, fd_dat with
    | Some fd_str, Some fd_dat =>
        let! r := file_write (bloom_bytes b) fd_str in
        if negb (r.1 =? sizeof_bloom) then exit 0
        else
          let! r := file_write_heap (bf b) (bytes b) fd_dat in
          if negb (r.1 =? bytes b) then exit 0
          else ret 0
    | _, _ => ret 1
    end.

(** [win64] tells which of the two branches of [#ifdef WIN64] is
    compiled. *)
Definition bloom_save (win64 : bool) (b : bloom F) (filename : option string) : M Z :=
  if no_filename filename then ret 1
  else if win64 then
    let! fd := fopen_wb (the_filename filename) in
    match fd with
    | None => ret 1
    | Some fd =>
        let size := u16 sizeof_bloom in
        let! r := file_write (take (Z.to_nat sizeof_magic)
                                   (bytes_of_string BLOOM_MAGIC ++ [0])) fd in
        if negb (r.1 =? strlen_magic) then ret 1
        else
          let! r := file_write (u16_bytes size) r.2 in
          if negb (r.1 =? 2) then ret 1
          else
            let! r := file_write (bloom_bytes b) r.2 in
            if negb (r.1 =? sizeof_bloom) then ret 1
            else
              let! r := file_write_heap (bf b) (bytes b) r.2 in
              if negb (r.1 =? bytes b) then ret 1
              else ret 0
    end
  else
    let! fd := open_wronly_creat (the_filename filename) in
    match fd with
    | None => ret 1
    | Some fd =>
        let! r := file_write (take (Z.to_nat strlen_magic)
                                   (bytes_of_string BLOOM_MAGIC)) fd in
        if negb (r.1 =? strlen_magic) then ret 1
        else
          let size := u16 sizeof_bloom in
          let! r := file_write (u16_bytes size) r.2 in
          if negb (r.1 =? 2) then ret 1
          else
            let! r := file_write (bloom_bytes b) r.2 in
            if negb (r.1 =? sizeof_bloom) then ret 1
            else
              let! r := file_write_heap (bf b) (bytes b) r.2 in
              if negb (r.1 =? bytes b) then ret 1
              else ret 0
    end.

(** [load_error:] closes the file, clears [ready] and returns [rv]. *)
Definition load_error (rv : Z) (b : bloom F) : M (Z * option (bloom F)) :=
  ret (rv, Some (set_ready 0 b)).

(** The two branches of [#ifdef WIN64] differ in the calls that open and
    read the file ([fopen]/[fread], or [open]/[read]), which transfer the
    same bytes.  [dest] is what the pointer argument [bloom] points to,
    [None] when it is NULL. *)
Definition bloom_load (dest : option (bloom F)) (filename : option string)
  : M (Z * option (bloom F)) :=
  if no_filename filename then ret (1, dest)
  else
    match dest with
    | None => ret (2, None)
    | Some _ =>
        let b := bloom_zero in
        let! fd := open_read (the_filename filename) in
        match fd with
        | None => ret (3, Some b)
        | Some fd =>
            let! r := file_read strlen_magic fd in
            if negb (Z.of_nat (length r.1) =? strlen_magic) then load_error 4 b
            else if negb (bool_decide (r.1 = bytes_of_string BLOOM_MAGIC))
            then load_error 5 b
            else
              let! r := file_read 2 r.2 in
              if negb (Z.of_nat (length r.1) =? 2) then load_error 6 b
              else if negb (u16_of_bytes r.1 =? sizeof_bloom) then load_error 7 b
              else
                let! r := file_read sizeof_bloom r.2 in
                let b := bloom_store r.1 b in
                if negb (Z.of_nat (length r.1) =? sizeof_bloom) then load_error 8 b
                else
                  let b := set_bf 0 b in
                  if negb (major b =? BLOOM_VERSION_MAJOR) then load_error 9 b
                  else
                    let! p := malloc (bytes b) in
                    let b := set_bf p b in
                    if p =? 0 then load_error 10 b
                    else
                      let! r := file_read_heap p (bytes b) r.2 in
                      if negb (r.1 =? bytes b) then
                        let! _ := free p in
                        load_error 11 (set_bf 0 b)
                      else ret (0, Some b)
        end
    end.

End Serialization.

(** ** Instances used to run the model *)

(** Exact real arithmetic for [long double]: rounding is not modelled. *)
Definition Rceil (x : R) : Z := - Int_part (- x).
Definition Rtrunc (x : R) : Z :=
  if Rle_dec 0 x then Int_part x else - Int_part (- x).

#[export] Instance ideal_zero : FloatZero R := 0%R.

#[export] Instance ideal_arith : LongDouble R := {|
  ld_of_Z := IZR;
  ld_lit := fun m k => (IZR m / 10 ^ k)%R;
  ld_neg := Ropp;
  ld_log := ln;
  ld_div := Rdiv;
  ld_mul := Rmult;
  ld_ceil := fun x => IZR (Rceil x);
  ld_leb := fun x y => if Rle_dec x y then true else false;
  ld_trunc := fun x => Some (Rtrunc x)
|}.

(** ** What a call reads and writes, as pure functions of the block *)

(** Bit [x] of a buffer: bit [x mod 8], counted from the least
    significant one, of byte [x / 8]. *)
Definition bit_is_set (blk : list Z) (x : Z) : bool :=
  match blk !! Z.to_nat (x / 8) with
  | Some c => Z.testbit c (x mod 8)
  | None => false
  end.

Definition set_bit (blk : list Z) (x : Z) : list Z :=
  match blk !! Z.to_nat (x / 8) with
  | Some c => <[Z.to_nat (x / 8) := Z.lor c (2 ^ (x mod 8))]> blk
  | None => blk
  end.

Definition byte_at (blk : list Z) (x : Z) : Z :=
  default 0 (blk !! Z.to_nat (x / 8)).

(** The rounds over the bit indices [xs] on the block [blk] at address
    [p]: whether every round found its bit set, the block afterwards, and
    the accesses made. *)
Fixpoint sweep (p add : Z) (xs : list Z) (blk : list Z) : bool * list Z * list event :=
  match xs with
  | [] => (true, blk, [])
  | x :: xs' =>
      if bit_is_set blk x then
        let r := sweep p add xs' blk in
        (r.1.1, r.1.2, EvLoad p (x / 8) :: r.2)
      else if add =? 0 then (false, blk, [EvLoad p (x / 8)])
      else
        let r := sweep p add xs' (set_bit blk x) in
        (false, r.1.2,
         EvLoad p (x / 8)
           :: EvStore p (x / 8) (Z.lor (byte_at blk x) (2 ^ (x mod 8))) :: r.2)
  end.

(** The state after a call changed the block at [p] into [blk] and made
    the accesses [evs]. *)
Definition effect (p : Z) (blk : list Z) (evs : list event) (w : world) : world :=
  World (<[p := blk]> (w_heap w)) (w_brk w) (w_memfree w) (w_files w)
        (w_denied w) (w_diskfree w) (w_trace w ++ evs).

Definition in_block (blk : list Z) (x : Z) : Prop :=
  0 <= x < 8 * Z.of_nat (length blk).

Section Indices.
Context {hash : Hash64} {F : Type}.

(** The bit indices of a byte sequence, in the order of the rounds. *)
Definition indices (b : bloom F) (buffer : list Z) : list Z :=
  let a := XXH64 buffer hash_seed in
  let bb := XXH64 buffer a in
  map (bit_index b a bb) (seqZ 0 (hashes b)).

(** A Filter in the state the constructor and the loaders establish:
    the flag is set, the sizes are positive and consistent, and the
    buffer is a live block of [bytes] bytes. *)
Definition ready_filter (b : bloom F) (w : world) : Prop :=
  ready b <> 0 /\ 0 < bits b /\ bits b <= 8 * bytes b /\
  1 <= hashes b <= 255 /\
  exists blk, w_heap w !! bf b = Some blk /\ Z.of_nat (length blk) = bytes b.

(** The bit buffer of a Filter. *)
Definition buffer_of (b : bloom F) (w : world) : list Z :=
  default [] (w_heap w !! bf b).

(** Bits only get set: the relation between the buffer before and after
    calls of [bloom_add] and [bloom_check]. *)
Definition grows (b : bloom F) (w w' : world) : Prop :=
  ready_filter b w' /\
  forall y, 0 <= y -> bit_is_set (buffer_of b w) y = true ->
            bit_is_set (buffer_of b w') y = true.

(** Calls on a Filter, one after the other. *)
Inductive call : Type :=
| CallAdd (buffer : list Z)
| CallCheck (buffer : list Z).

Fixpoint run_calls (b : bloom F) (cs : list call) : M (list Z) :=
  match cs with
  | [] => ret []
  | c :: cs' =>
      let! r := match c with
                | CallAdd x => bloom_add b x
                | CallCheck x => bloom_check b x
                end in
      let! rs := run_calls b cs' in
      ret (r :: rs)
  end.
End Indices.

(** The events of one round on bit [x]. *)
Definition round_events (p add : Z) (blk : list Z) (x : Z) : list event :=
  EvLoad p (x / 8)
    :: (if bit_is_set blk x || (add =? 0) then []
        else [EvStore p (x / 8) (Z.lor (byte_at blk x) (2 ^ (x mod 8)))]).

Definition round_block (add : Z) (blk : list Z) (x : Z) : list Z :=
  if bit_is_set blk x || (add =? 0) then blk else set_bit blk x.

(** The indices a query tests: up to the first one whose bit is unset,
    that one included. *)
Fixpoint tested (blk : list Z) (xs : list Z) : list Z :=
  match xs with
  | [] => []
  | x :: xs' => x :: (if bit_is_set blk x then tested blk xs' else [])
  end.

(** The byte offsets read, in order. *)
Fixpoint loaded (evs : list event) : list Z :=
  match evs with
  | [] => []
  | EvLoad _ off :: evs' => off :: loaded evs'
  | _ :: evs' => loaded evs'
  end.


(** ** A concrete hash, Filter and state *)

(** A 64-bit multiplicative hash standing for XXH64 when the model is
    run. *)
Definition demo_hash : Hash64 := fun buffer seed =>
  fold_left (fun h c => u64 (Z.lxor h c * 1099511628211)) buffer
            (u64 (seed + 14695981039346656037)).

(** A Filter of 29 bits in 4 bytes with 3 rounds, its buffer at address
    100, and an unready structure.  The floating-point fields are shown by
    their bit patterns (binary64). *)
Definition demo_filter : bloom Z :=
  Bloom 1000 0x3FE0000000000000 29 4 3 0x3FF0000000000000 100 1 2 1.
Definition demo_unready : bloom Z := Bloom 0 0 0 0 0 0 0 0 0 0.

Definition demo_world : world :=
  World {[ 100 := [0; 0; 0; 0] ]} 101 4096 ∅ ∅ 65536 [].


(** The bytes of the string "hello". *)
Definition hello : list Z := [104; 101; 108; 108; 111].

(** The index of round [i] with the sum and the product taken over the
    integers, as the indexing scheme is usually written. *)
Definition ideal_index {F} (b : bloom F) (a bb i : Z) : Z := (a + bb * i) mod bits b.



(** A state with an empty heap in which every allocation succeeds. *)
Definition roomy_world : world := World ∅ 1 (2 ^ 64) ∅ ∅ (2 ^ 64) [].


(** ** The checks of the loaders, as conditions on the arguments and the state *)

(** The number of the first check that does not hold, counting from [n];
    0 when all hold. *)
Fixpoint first_failure (n : Z) (checks : list bool) : Z :=
  match checks with
  | [] => 0
  | c :: cs => if c then first_failure (n + 1) cs else n
  end.

Section Checks.
Context {F : Type} `{FloatZero F} `{BloomLayout F}.

(** The metadata record a single file holds after its magic and size
    field. *)
Definition file_meta (content : list Z) : bloom F :=
  bloom_store (take (Z.to_nat sizeof_bloom) (drop 11 content)) bloom_zero.

(** The eleven checks of [bloom_load], in order. *)
Definition load_checks (dest : option (bloom F)) (filename : option string)
           (w : world) : list bool :=
  let content := default [] (w_files w !! the_filename filename) in
  [ negb (no_filename filename);
    bool_decide (is_Some dest);
    bool_decide (is_Some (w_files w !! the_filename filename));
    bool_decide (9 <= Z.of_nat (length content));
    bool_decide (take 9 content = bytes_of_string BLOOM_MAGIC);
    bool_decide (11 <= Z.of_nat (length content));
    u16_of_bytes (take 2 (drop 9 content)) =? sizeof_bloom;
    bool_decide (11 + sizeof_bloom <= Z.of_nat (length content));
    major (file_meta content) =? BLOOM_VERSION_MAJOR;
    bool_decide (bytes (file_meta content) <= w_memfree w);
    bool_decide (11 + sizeof_bloom + bytes (file_meta content)
                 <= Z.of_nat (length content)) ].

(** The contents of the two files of the two-file form, and the metadata
    record read over the structure [b]. *)
Definition blm_content (filename : option string) (w : world) : option (list Z) :=
  w_files w !! snprintf68 (the_filename filename) ".blm".
Definition dat_content (filename : option string) (w : world) : option (list Z) :=
  w_files w !! snprintf68 (the_filename filename) ".dat".
Definition custom_meta (b : bloom F) (filename : option string) (w : world) : bloom F :=
  bloom_store (take (Z.to_nat sizeof_bloom) (default [] (blm_content filename w))) b.

(** The causes of failure of [bloom_loadcustom], in order: empty file
    name, missing file, short metadata read, failed allocation, short
    buffer read. *)
Definition loadcustom_checks (b : bloom F) (filename : option string)
           (w : world) : list bool :=
  [ negb (no_filename filename);
    bool_decide (is_Some (blm_content filename w) /\ is_Some (dat_content filename w));
    bool_decide (sizeof_bloom <= Z.of_nat (length (default [] (blm_content filename w))));
    bool_decide (bytes (custom_meta b filename w) <= w_memfree w);
    bool_decide (bytes (custom_meta b filename w)
                 <= Z.of_nat (length (default [] (dat_content filename w)))) ].

End Checks.

(** The allocator hands out an address that is not in use. *)
Definition heap_fresh (w : world) : Prop := w_heap w !! Z.pos (w_brk w) = None.

(** ** An example layout

    The fields in the order of the record, without padding, integers least
    significant byte first, floating-point fields as the 8 bytes of their
    bit pattern. *)
Fixpoint le_bytes (n : nat) (z : Z) : list Z :=
  match n with
  | O => []
  | S n' => z mod 256 :: le_bytes n' (z / 256)
  end.

Fixpoint le_value (l : list Z) : Z :=
  match l with
  | [] => 0
  | c :: l' => c mod 256 + 256 * le_value l'
  end.

Definition le_field (off len : nat) (l : list Z) : Z := le_value (take len (drop off l)).

#[export] Instance raw_zero : FloatZero Z := 0.

#[export] Instance packed_layout : BloomLayout Z := {|
  sizeof_bloom := 52;
  bloom_bytes := fun b =>
    le_bytes 8 (entries b) ++ le_bytes 8 (error b) ++ le_bytes 8 (bits b)
      ++ le_bytes 8 (bytes b) ++ le_bytes 1 (hashes b) ++ le_bytes 8 (bpe b)
      ++ le_bytes 8 (bf b) ++ le_bytes 1 (ready b) ++ le_bytes 1 (major b)
      ++ le_bytes 1 (minor b);
  bloom_of_bytes := fun l =>
    Bloom (le_field 0 8 l) (le_field 8 8 l) (le_field 16 8 l) (le_field 24 8 l)
          (le_field 32 1 l) (le_field 33 8 l) (le_field 41 8 l) (le_field 49 1 l)
          (le_field 50 1 l) (le_field 51 1 l)
|}.


(** A state with files: a single file with a wrong magic, the two files of
    a saved Filter whose buffer file is two bytes short, and a metadata file
    of eight bytes beside an empty buffer file. *)
Definition disk_world : world :=
  World {[ 100 := [0; 0; 0; 0] ]} 101 4096
        {[ "bad.bin" := bytes_of_string "libbloom1";
           "x.blm" := bloom_bytes demo_filter;
           "x.dat" := [66; 8];
           "y.blm" := le_bytes 8 77;
           "y.dat" := [] ]}
        ∅ 65536 [].


(** ** What the loaders leave, by result *)

Section LoadResults.
Context {F : Type} `{FloatZero F} `{BloomLayout F}.

(** After [bloom_load]: on success the metadata of the file with [bf] the
    fresh block, which holds the bytes that follow the metadata. *)
Definition load_post (dest : option (bloom F)) (filename : option string) (w : world)
           (rv : Z) (res : option (bloom F)) (w' : world) : Prop :=
  (rv = 0 ->
   exists content,
     w_files w !! the_filename filename = Some content /\
     res = Some (set_bf (Z.pos (w_brk w)) (file_meta content)) /\
     w_heap w' = <[Z.pos (w_brk w) :=
                     take (Z.to_nat (bytes (file_meta content)))
                          (drop (11 + Z.to_nat sizeof_bloom) content)]> (w_heap w) /\
     w_files w' = w_files w) /\
  (rv = 1 -> res = dest /\ w' = w) /\
  (rv = 2 -> res = None /\ w' = w) /\
  (3 <= rv -> exists b, res = Some b /\ ready b = 0).

(** After [bloom_loadcustom], by the number [cause] of the first cause of
    failure (0 for none). *)
Definition loadcustom_post (b : bloom F) (filename : option string) (w : world)
           (cause rv : Z) (b' : bloom F) (w' : world) : Prop :=
  (cause = 0 ->
   rv = 0 /\ b' = set_bf (Z.pos (w_brk w)) (custom_meta b filename w) /\
   w_heap w' = <[Z.pos (w_brk w) :=
                   take (Z.to_nat (bytes (custom_meta b filename w)))
                        (default [] (dat_content filename w))]> (w_heap w) /\
   w_files w' = w_files w) /\
  (cause <> 0 -> rv = 1 /\ w_heap w' = w_heap w) /\
  (cause = 1 \/ cause = 2 -> b' = b /\ w' = w) /\
  (cause = 4 \/ cause = 5 -> b' = bloom_zero).

End LoadResults.


(** ** Further example states *)

(** A state whose buffer has every bit set. *)
Definition full_world : world :=
  World {[ 100 := [255; 255; 255; 255] ]} 101 4096 ∅ ∅ 65536 [].

(** A state whose allocator has nothing left. *)
Definition exhausted_world : world := World ∅ 1 0 ∅ ∅ 0 [].

(** A state with the files of saved Filters: a single file holding the
    example Filter, its four buffer bytes and two bytes more; a single file
    whose metadata have the flag set and no bit; and the two files of the
    two-file form. *)
Definition saved_world : world :=
  World ∅ 1 4096
        {[ "ok.bin" := bytes_of_string BLOOM_MAGIC ++ u16_bytes 52
                         ++ bloom_bytes demo_filter ++ [1; 0; 66; 0] ++ [9; 9];
           "nobits.bin" := bytes_of_string BLOOM_MAGIC ++ u16_bytes 52
                             ++ bloom_bytes (Bloom 1000 0 0 4 1 0 0 1 2 1)
                             ++ [0; 0; 0; 0];
           "z.blm" := bloom_bytes demo_filter;
           "z.dat" := [1; 0; 66; 0; 7] ]}
        ∅ 65536 [].

(** A state whose file "t.bin" holds 72 bytes, and a state whose device
    accepts 20 bytes more and where "ro.dat" cannot be opened for
    writing. *)
Definition tail_world : world :=
  World {[ 100 := [0; 0; 0; 0] ]} 101 4096 {[ "t.bin" := replicate 72 7 ]} ∅ 65536 [].
Definition cramped_world : world :=
  World {[ 100 := [0; 0; 0; 0] ]} 101 4096 ∅ {[ "ro.dat" ]} 20 [].

(** A state with the single file of a saved Filter and a live buffer at
    address 100. *)
Definition reload_world : world :=
  World {[ 100 := [1; 1; 1; 1] ]} 101 4096
        {[ "ok.bin" := bytes_of_string BLOOM_MAGIC ++ u16_bytes 52
                         ++ bloom_bytes demo_filter ++ [1; 0; 66; 0] ]}
        ∅ 65536 [].

(** ** What a failed load leaves *)

(** After [bloom_load] has returned a result other than 0: the heap, the
    files and the memory of the allocator as before, from result 3 on an
    unready structure, and from result 9 on a NULL buffer. *)
Definition load_failure_post {F : Type} (w : world) (rv : Z) (res : option (bloom F))
           (w' : world) : Prop :=
  rv <> 0 ->
  w_heap w' = w_heap w /\ w_files w' = w_files w /\ w_memfree w' = w_memfree w /\
  (3 <= rv -> exists b, res = Some b /\ ready b = 0 /\ (9 <= rv -> bf b = 0)).

(** * Proofs *)

(** ** Bits of a byte *)

Lemma shiftr3_div8 (x : Z) : Z.shiftr x 3 = x / 8.
Proof. rewrite Z.shiftr_div_pow2 by lia. reflexivity. Qed.

Lemma mask_pow2 (x : Z) : u8 (Z.shiftl 1 (x mod 8)) = 2 ^ (x mod 8).
Proof.
  assert (Hk : 0 <= x mod 8 < 8) by (apply Z.mod_pos_bound; lia).
  rewrite Z.shiftl_1_l. unfold u8, wrap. apply Z.mod_small. split.
  - apply Z.pow_nonneg; lia.
  - change (2 ^ 8) with (2 ^ 8). apply Z.pow_lt_mono_r; lia.
Qed.

Lemma land_pow2_testbit (c k : Z) :
  0 <= k -> (Z.land c (2 ^ k) =? 0) = negb (Z.testbit c k).
Proof.
  intros Hk. destruct (Z.testbit c k) eqn:Hb; simpl.
  - apply Z.eqb_neq. intros Hz.
    assert (Ht : Z.testbit (Z.land c (2 ^ k)) k = true).
    { rewrite Z.land_spec, Hb, Z.pow2_bits_true by lia. reflexivity. }
    rewrite Hz, Z.bits_0 in Ht. discriminate.
  - apply Z.eqb_eq. apply Z.bits_inj'. intros n Hn.
    rewrite Z.land_spec, Z.bits_0.
    destruct (decide (n = k)) as [->|Hne].
    + rewrite Hb. reflexivity.
    + rewrite Z.pow2_bits_false by lia. apply andb_false_r.
Qed.

Lemma lor_pow2_testbit (c k j : Z) :
  0 <= k -> 0 <= j ->
  Z.testbit (Z.lor c (2 ^ k)) j = Z.testbit c j || bool_decide (j = k).
Proof.
  intros Hk Hj. rewrite Z.lor_spec. f_equal.
  case_bool_decide as Hjk.
  - subst. apply Z.pow2_bits_true. lia.
  - apply Z.pow2_bits_false. lia.
Qed.

(** ** Bits of a block *)

Lemma in_block_lookup (blk : list Z) (x : Z) :
  in_block blk x -> exists c, blk !! Z.to_nat (x / 8) = Some c.
Proof.
  intros [H0 H1]. apply lookup_lt_is_Some_2.
  assert (x / 8 < Z.of_nat (length blk)) by (apply Z.div_lt_upper_bound; lia).
  assert (0 <= x / 8) by (apply Z.div_pos; lia). lia.
Qed.

Lemma set_bit_length (blk : list Z) (x : Z) : length (set_bit blk x) = length blk.
Proof.
  unfold set_bit. destruct (blk !! Z.to_nat (x / 8)); [apply length_insert | reflexivity].
Qed.

Lemma in_block_set_bit (blk : list Z) (x y : Z) :
  in_block (set_bit blk x) y <-> in_block blk y.
Proof. unfold in_block. rewrite set_bit_length. reflexivity. Qed.

Lemma bit_is_set_set_bit (blk : list Z) (x y : Z) :
  in_block blk x -> 0 <= y ->
  bit_is_set (set_bit blk x) y = bit_is_set blk y || bool_decide (y = x).
Proof.
  intros Hx Hy. destruct (in_block_lookup blk x Hx) as [c Hc].
  assert (Hx0 : 0 <= x) by apply Hx.
  assert (Hkx : 0 <= x mod 8 < 8) by (apply Z.mod_pos_bound; lia).
  assert (Hky : 0 <= y mod 8 < 8) by (apply Z.mod_pos_bound; lia).
  assert (Hdx : 0 <= x / 8) by (apply Z.div_pos; lia).
  assert (Hdy : 0 <= y / 8) by (apply Z.div_pos; lia).
  unfold bit_is_set, set_bit. rewrite Hc.
  destruct (decide (y / 8 = x / 8)) as [Heq|Hne].
  - rewrite Heq, list_lookup_insert_eq, Hc by (eapply lookup_lt_Some; eauto).
    rewrite lor_pow2_testbit by lia. f_equal.
    apply bool_decide_ext. split; intros Hm.
    + rewrite (Z.div_mod y 8), (Z.div_mod x 8) by lia. congruence.
    + congruence.
  - rewrite list_lookup_insert_ne by lia.
    rewrite (bool_decide_eq_false_2 (y = x)) by congruence.
    rewrite orb_false_r. reflexivity.
Qed.

Lemma bit_is_set_self (blk : list Z) (x : Z) :
  in_block blk x -> bit_is_set (set_bit blk x) x = true.
Proof.
  intros Hx. rewrite bit_is_set_set_bit by (auto; apply Hx).
  rewrite bool_decide_eq_true_2 by reflexivity. apply orb_true_r.
Qed.

Lemma bit_is_set_mono (blk : list Z) (x y : Z) :
  in_block blk x -> 0 <= y ->
  bit_is_set blk y = true -> bit_is_set (set_bit blk x) y = true.
Proof. intros Hx Hy Hs. rewrite bit_is_set_set_bit, Hs by auto. reflexivity. Qed.

(** ** One test, and the rounds of a call *)

Lemma effect_nothing (p : Z) (blk : list Z) (w : world) :
  w_heap w !! p = Some blk -> effect p blk [] w = w.
Proof.
  intros Hp. destruct w as [h br mf fs dn df tr]. unfold effect. simpl in *.
  rewrite insert_id by exact Hp. rewrite app_nil_r. reflexivity.
Qed.

Lemma effect_effect (p : Z) (blk1 blk2 : list Z) (ev1 ev2 : list event) (w : world) :
  effect p blk2 ev2 (effect p blk1 ev1 w) = effect p blk2 (ev1 ++ ev2) w.
Proof.
  unfold effect. simpl. rewrite insert_insert_eq, app_assoc. reflexivity.
Qed.

Lemma effect_heap (p : Z) (blk : list Z) (evs : list event) (w : world) :
  w_heap (effect p blk evs w) !! p = Some blk.
Proof. unfold effect. simpl. apply lookup_insert_eq. Qed.

Lemma test_bit_set_bit_spec (p x add : Z) (blk : list Z) (w : world) :
  w_heap w !! p = Some blk -> in_block blk x ->
  test_bit_set_bit p x add w
  = Done (if bit_is_set blk x then 1 else 0)
         (effect p (round_block add blk x) (round_events p add blk x) w).
Proof.
  intros Hp Hx. destruct (in_block_lookup blk x Hx) as [c Hc].
  assert (Hx0 : 0 <= x) by apply Hx.
  assert (Hk : 0 <= x mod 8 < 8) by (apply Z.mod_pos_bound; lia).
  assert (Hd : 0 <= x / 8) by (apply Z.div_pos; lia).
  assert (Hlt : (Z.to_nat (x / 8) < length blk)%nat) by (eapply lookup_lt_Some; eauto).
  unfold test_bit_set_bit, bind, load, round_block, round_events, bit_is_set, byte_at.
  rewrite shiftr3_div8, mask_pow2, Hp, Hc. simpl.
  rewrite decide_True by lia.
  rewrite land_pow2_testbit by lia. rewrite negb_involutive.
  destruct (Z.testbit c (x mod 8)) eqn:Hb; simpl.
  - unfold ret. f_equal. destruct w; unfold log, effect; simpl in *.
    rewrite insert_id by exact Hp. reflexivity.
  - destruct (add =? 0) eqn:Ha; simpl.
    + unfold ret. f_equal. destruct w; unfold log, effect; simpl in *.
      rewrite insert_id by exact Hp. reflexivity.
    + unfold store, ret. simpl. rewrite Hp.
      rewrite decide_True by lia.
      f_equal. unfold set_bit. rewrite Hc.
      destruct w; unfold log, effect, set_heap; simpl in *.
      rewrite <- app_assoc. reflexivity.
Qed.

Lemma sweep_length (p add : Z) (xs : list Z) :
  forall blk, length (sweep p add xs blk).1.2 = length blk.
Proof.
  induction xs as [|x xs IH]; intros blk; simpl; [reflexivity|].
  destruct (bit_is_set blk x); simpl; [apply IH|].
  destruct (add =? 0); simpl; [reflexivity|].
  rewrite IH. apply set_bit_length.
Qed.

Section Rounds.
Context {hash : Hash64} {F : Type}.
Implicit Types (b : bloom F) (w : world) (blk : list Z).

Lemma bit_index_in_block b a bb i blk :
  0 < bits b -> bits b <= 8 * Z.of_nat (length blk) ->
  in_block blk (bit_index b a bb i).
Proof.
  intros Hpos Hle. unfold in_block, bit_index.
  pose proof (Z.mod_pos_bound (u64 (a + u64 (bb * i))) (bits b) Hpos). lia.
Qed.

Lemma bloom_rounds_spec b a bb add (n : nat) :
  forall i hits w blk,
    w_heap w !! bf b = Some blk ->
    0 < bits b -> bits b <= 8 * Z.of_nat (length blk) ->
    0 <= hits <= i -> i + Z.of_nat n = hashes b -> hashes b <= 255 ->
    let r := sweep (bf b) add (map (bit_index b a bb) (seqZ i (Z.of_nat n))) blk in
    bloom_rounds b a bb add n i hits w
    = Done (if r.1.1 && (hits =? i) then 1 else 0) (effect (bf b) r.1.2 r.2 w).
Proof.
  induction n as [|n IH]; intros i hits w blk Hp Hpos Hle Hh Hn H255; simpl.
  - unfold ret. rewrite effect_nothing by exact Hp.
    replace (hashes b) with i by lia. reflexivity.
  - assert (Hbits : (bits b =? 0) = false) by (apply Z.eqb_neq; lia).
    rewrite Hbits. unfold bind.
    pose proof (bit_index_in_block b a bb i blk Hpos Hle) as Hin.
    rewrite (test_bit_set_bit_spec _ _ _ blk) by assumption.
    rewrite seqZ_cons by lia. simpl map. cbn [sweep].
    replace (Z.pred (Z.of_nat (S n))) with (Z.of_nat n) by lia.
    replace (Z.succ i) with (i + 1) by lia.
    unfold round_block, round_events.
    destruct (bit_is_set blk (bit_index b a bb i)) eqn:Hset; simpl.
    + assert (Hu : u8 (hits + 1) = hits + 1)
        by (unfold u8, wrap; apply Z.mod_small; change (2 ^ 8) with 256; lia).
      rewrite Hu.
      rewrite (IH (i + 1) (hits + 1) _ blk); try lia; [|apply effect_heap].
      rewrite effect_effect. simpl.
      replace (hits + 1 =? i + 1) with (hits =? i); [reflexivity|].
      destruct (Z.eqb_spec hits i), (Z.eqb_spec (hits + 1) (i + 1)); auto; lia.
    + destruct (add =? 0) eqn:Ha; simpl.
      * reflexivity.
      * rewrite (IH (i + 1) hits _ (set_bit blk (bit_index b a bb i)));
          try (rewrite ?set_bit_length; lia); [|apply effect_heap].
        rewrite effect_effect. simpl.
        replace (hits =? i + 1) with false
          by (symmetry; apply Z.eqb_neq; lia).
        rewrite andb_false_r. reflexivity.
Qed.
End Rounds.

(** ** What the rounds compute *)

Lemma sweep_all_hit (p add : Z) (xs : list Z) :
  forall blk, (sweep p add xs blk).1.1 = forallb (bit_is_set blk) xs.
Proof.
  induction xs as [|x xs IH]; intros blk; simpl; [reflexivity|].
  destruct (bit_is_set blk x); simpl; [apply IH|].
  destruct (add =? 0); reflexivity.
Qed.

Lemma sweep_query (p : Z) (xs : list Z) (blk : list Z) :
  (sweep p 0 xs blk).1.2 = blk /\
  (sweep p 0 xs blk).2 = map (fun x => EvLoad p (x / 8)) (tested blk xs).
Proof.
  induction xs as [|x xs IH]; simpl; [auto|].
  destruct (bit_is_set blk x); simpl; [|auto].
  destruct IH as [IH1 IH2]. rewrite IH1, IH2. auto.
Qed.

Lemma sweep_keeps (p add : Z) (xs : list Z) (y : Z) :
  forall blk, Forall (in_block blk) xs -> 0 <= y ->
    bit_is_set blk y = true -> bit_is_set (sweep p add xs blk).1.2 y = true.
Proof.
  induction xs as [|x xs IH]; intros blk Hin Hy Hs; simpl; [exact Hs|].
  inversion Hin as [|? ? Hx Hxs]; subst.
  destruct (bit_is_set blk x); simpl; [apply IH; auto|].
  destruct (add =? 0); simpl; [exact Hs|].
  apply IH; auto.
  - eapply Forall_impl; [exact Hxs|]. intros z Hz. apply in_block_set_bit. exact Hz.
  - apply bit_is_set_mono; auto.
Qed.

Lemma sweep_insert_sets (p add : Z) (xs : list Z) :
  add <> 0 ->
  forall blk, Forall (in_block blk) xs ->
    Forall (fun x => bit_is_set (sweep p add xs blk).1.2 x = true) xs.
Proof.
  intros Hadd. apply Z.eqb_neq in Hadd.
  induction xs as [|x xs IH]; intros blk Hin; simpl; [constructor|].
  inversion Hin as [|? ? Hx Hxs]; subst.
  assert (Hx0 : 0 <= x) by apply Hx.
  destruct (bit_is_set blk x) eqn:Hs; simpl.
  - constructor; [|apply IH; auto]. apply sweep_keeps; auto.
  - rewrite Hadd. simpl.
    assert (Hxs' : Forall (in_block (set_bit blk x)) xs).
    { eapply Forall_impl; [exact Hxs|]. intros z Hz. apply in_block_set_bit. exact Hz. }
    constructor; [|apply IH; auto].
    apply sweep_keeps; auto. apply bit_is_set_self. exact Hx.
Qed.

Lemma sweep_insert_loads (p add : Z) (xs : list Z) :
  add <> 0 ->
  forall blk, loaded (sweep p add xs blk).2 = map (fun x => x / 8) xs.
Proof.
  intros Hadd. apply Z.eqb_neq in Hadd.
  induction xs as [|x xs IH]; intros blk; simpl; [reflexivity|].
  destruct (bit_is_set blk x); simpl; [f_equal; apply IH|].
  rewrite Hadd. simpl. f_equal. apply IH.
Qed.

Lemma forallb_bits_Forall (blk : list Z) (xs : list Z) :
  forallb (bit_is_set blk) xs = true <-> Forall (fun x => bit_is_set blk x = true) xs.
Proof.
  induction xs as [|x xs IH]; simpl.
  - split; [constructor | reflexivity].
  - rewrite andb_true_iff, IH, Forall_cons. reflexivity.
Qed.

Section Calls.
Context {hash : Hash64} {F : Type}.
Implicit Types (b : bloom F) (w : world) (blk : list Z).

Lemma indices_in_block b buffer blk :
  0 < bits b -> bits b <= 8 * Z.of_nat (length blk) ->
  Forall (in_block blk) (indices b buffer).
Proof.
  intros Hpos Hle. unfold indices. apply Forall_map, Forall_true.
  intros i. apply bit_index_in_block; assumption.
Qed.

(** A call on a ready Filter returns; what it returns and what it leaves
    are given by [sweep] on the indices of the byte sequence. *)
Lemma bloom_check_add_spec b buffer add w blk :
  ready_filter b w -> w_heap w !! bf b = Some blk ->
  let r := sweep (bf b) add (indices b buffer) blk in
  bloom_check_add b buffer add w
  = Done (if r.1.1 then 1 else 0) (effect (bf b) r.1.2 r.2 w).
Proof.
  intros (Hr & Hpos & Hle & Hh & blk' & Hp' & Hlen) Hp r.
  assert (blk' = blk) by congruence. subst blk'.
  unfold bloom_check_add.
  replace (ready b =? 0) with false by (symmetry; apply Z.eqb_neq; exact Hr).
  rewrite (bloom_rounds_spec b _ _ add _ 0 0 w blk);
    try assumption; rewrite ?Z2Nat.id; try lia.
  fold (indices b buffer). fold r. rewrite andb_true_r. reflexivity.
Qed.

Lemma ready_filter_effect b w blk blk' evs :
  ready_filter b w -> w_heap w !! bf b = Some blk -> length blk' = length blk ->
  ready_filter b (effect (bf b) blk' evs w).
Proof.
  intros (Hr & Hpos & Hle & Hh & blk0 & Hp0 & Hlen) Hp Hl.
  assert (blk0 = blk) by congruence. subst blk0.
  repeat split; try assumption; try lia.
  exists blk'. split; [apply effect_heap | lia].
Qed.
End Calls.

(** ** Calls on a ready Filter *)

Section Membership.
Context {hash : Hash64} {F : Type}.
Implicit Types (b : bloom F) (w : world) (blk : list Z).

Lemma buffer_of_effect b blk evs w : buffer_of b (effect (bf b) blk evs w) = blk.
Proof. unfold buffer_of. rewrite effect_heap. reflexivity. Qed.

Lemma ready_filter_block b w :
  ready_filter b w ->
  w_heap w !! bf b = Some (buffer_of b w) /\
  Z.of_nat (length (buffer_of b w)) = bytes b.
Proof.
  intros (_ & _ & _ & _ & blk & Hp & Hlen). unfold buffer_of. rewrite Hp. auto.
Qed.

Lemma ready_filter_indices b w buffer :
  ready_filter b w -> Forall (in_block (buffer_of b w)) (indices b buffer).
Proof.
  intros Hr. destruct (ready_filter_block b w Hr) as [_ Hlen].
  destruct Hr as (_ & Hpos & Hle & _). apply indices_in_block; lia.
Qed.

Lemma call_grows b w add buffer :
  ready_filter b w ->
  exists r w', bloom_check_add b buffer add w = Done r w' /\ grows b w w'.
Proof.
  intros Hr. destruct (ready_filter_block b w Hr) as [Hp Hlen].
  rewrite (bloom_check_add_spec b buffer add w _ Hr Hp).
  eexists _, _. split; [reflexivity|]. split.
  - eapply ready_filter_effect; eauto. apply sweep_length.
  - intros y Hy Hs. rewrite buffer_of_effect.
    apply sweep_keeps; auto. apply ready_filter_indices. exact Hr.
Qed.

Lemma run_calls_grows b (cs : list call) :
  forall w, ready_filter b w ->
    exists rs w', run_calls b cs w = Done rs w' /\ grows b w w'.
Proof.
  induction cs as [|c cs IH]; intros w Hr; simpl.
  - exists [], w. split; [reflexivity|]. split; auto.
  - unfold bind.
    assert (Hc : exists r w1,
               match c with
               | CallAdd x => bloom_add b x
               | CallCheck x => bloom_check b x
               end w = Done r w1 /\ grows b w w1).
    { destruct c; apply call_grows; exact Hr. }
    destruct Hc as (r & w1 & -> & Hr1 & Hm1).
    destruct (IH w1 Hr1) as (rs & w2 & -> & Hr2 & Hm2).
    exists (r :: rs), w2. split; [reflexivity|]. split; auto.
Qed.

(** C1. No false negatives: on a ready Filter, [bloom_add] of a byte
    sequence returns, any further calls of [bloom_add] and [bloom_check]
    return, and a [bloom_check] of the byte sequence after them returns
    1. *)
Theorem bloom_no_false_negatives b (buffer : list Z) (cs : list call) w :
  ready_filter b w ->
  exists r w1, bloom_add b buffer w = Done r w1 /\
  exists rs w2, run_calls b cs w1 = Done rs w2 /\
  exists w3, bloom_check b buffer w2 = Done 1 w3.
Proof.
  intros Hr. destruct (ready_filter_block b w Hr) as [Hp Hlen].
  pose proof (ready_filter_indices b w buffer Hr) as Hin.
  unfold bloom_add. rewrite (bloom_check_add_spec b buffer 1 w _ Hr Hp).
  eexists _, _. split; [reflexivity|].
  set (blk1 := (sweep (bf b) 1 (indices b buffer) (buffer_of b w)).1.2).
  set (w1 := effect _ _ _ w).
  assert (Hr1 : ready_filter b w1)
    by (eapply ready_filter_effect; eauto; apply sweep_length).
  destruct (run_calls_grows b cs w1 Hr1) as (rs & w2 & Hrun & Hr2 & Hm).
  exists rs, w2. split; [exact Hrun|].
  destruct (ready_filter_block b w2 Hr2) as [Hp2 Hlen2].
  unfold bloom_check. rewrite (bloom_check_add_spec b buffer 0 w2 _ Hr2 Hp2).
  rewrite sweep_all_hit.
  assert (Hall : forallb (bit_is_set (buffer_of b w2)) (indices b buffer) = true).
  { apply forallb_bits_Forall.
    pose proof (sweep_insert_sets (bf b) 1 (indices b buffer) ltac:(lia) _ Hin) as Hset.
    fold blk1 in Hset. rewrite Forall_forall in Hset |- *.
    rewrite Forall_forall in Hin.
    intros x Hx. apply Hm; [apply (Hin x Hx)|].
    unfold w1. rewrite buffer_of_effect. apply Hset. exact Hx. }
  rewrite Hall. eexists. reflexivity.
Qed.
End Membership.

Lemma demo_filter_ready : ready_filter demo_filter demo_world.
Proof.
  unfold ready_filter, demo_filter, demo_world; simpl.
  repeat split; try lia. exists [0; 0; 0; 0]. split; reflexivity.
Defined.

Lemma bloom_no_false_negatives_witness :
  ready_filter demo_filter demo_world /\
  exists r w1, bloom_add (hash := demo_hash) demo_filter [104; 105] demo_world = Done r w1 /\
  exists rs w2, run_calls (hash := demo_hash) demo_filter
                  [CallAdd [119]; CallCheck [104; 105]; CallAdd [7; 7]] w1
                = Done rs w2 /\
  exists w3, bloom_check (hash := demo_hash) demo_filter [104; 105] w2 = Done 1 w3.
Proof.
  split; [exact demo_filter_ready|].
  apply (bloom_no_false_negatives (hash := demo_hash) demo_filter [104; 105]
           [CallAdd [119]; CallCheck [104; 105]; CallAdd [7; 7]] demo_world).
  exact demo_filter_ready.
Defined.

(** ** Query and insertion *)

Lemma tested_stops (blk : list Z) (xs : list Z) :
  (Forall (fun x => bit_is_set blk x = true) xs /\ tested blk xs = xs) \/
  (exists pre x post,
      xs = pre ++ x :: post /\ Forall (fun x => bit_is_set blk x = true) pre /\
      bit_is_set blk x = false /\ tested blk xs = pre ++ [x]).
Proof.
  induction xs as [|x xs IH]; simpl.
  - left. split; [constructor | reflexivity].
  - destruct (bit_is_set blk x) eqn:Hx.
    + destruct IH as [[Hall Ht] | (pre & y & post & -> & Hpre & Hy & Ht)].
      * left. split; [constructor; assumption | congruence].
      * right. exists (x :: pre), y, post. repeat split; auto.
        simpl. congruence.
    + right. exists [], x, xs. repeat split; auto.
Qed.

Section Query.
Context {hash : Hash64} {F : Type}.
Implicit Types (b : bloom F) (w : world) (blk : list Z).

Lemma bloom_check_unready b buffer add w :
  ready b = 0 -> bloom_check_add b buffer add w = Done (-1) w.
Proof. intros Hr. unfold bloom_check_add. rewrite Hr. reflexivity. Qed.

(** C2. Query: on a ready Filter [bloom_check] returns 1 when the bits of
    all the indices are set, having read the byte of each; otherwise it
    returns 0 having read the bytes of the indices up to the first unset
    bit and no later one.  Neither the heap nor the files change.  On an
    unready structure it returns -1 and the state, its trace of accesses
    included, is the one before the call. *)
Theorem bloom_check_query b (buffer : list Z) w :
  (ready_filter b w ->
   exists r w', bloom_check b buffer w = Done r w' /\
     w_heap w' = w_heap w /\ w_files w' = w_files w /\
     let set x := bit_is_set (buffer_of b w) x = true in
     let read xs := w_trace w' = w_trace w ++ map (fun x => EvLoad (bf b) (x / 8)) xs in
     ((r = 1 /\ Forall set (indices b buffer) /\ read (indices b buffer)) \/
      (r = 0 /\ exists pre x post,
          indices b buffer = pre ++ x :: post /\ Forall set pre /\
          bit_is_set (buffer_of b w) x = false /\ read (pre ++ [x])))) /\
  (ready b = 0 -> bloom_check b buffer w = Done (-1) w).
Proof.
  split; [|apply bloom_check_unready].
  intros Hr. destruct (ready_filter_block b w Hr) as [Hp Hlen].
  unfold bloom_check. rewrite (bloom_check_add_spec b buffer 0 w _ Hr Hp).
  destruct (sweep_query (bf b) (indices b buffer) (buffer_of b w)) as [Hblk Hev].
  rewrite Hblk, Hev, sweep_all_hit.
  eexists _, _. split; [reflexivity|].
  split; [simpl; apply insert_id; exact Hp|]. split; [reflexivity|]. simpl.
  destruct (tested_stops (buffer_of b w) (indices b buffer))
    as [[Hall Ht] | (pre & x & post & Hxs & Hpre & Hx & Ht)]; rewrite Ht.
  - left. apply forallb_bits_Forall in Hall as Hall'. rewrite Hall'. auto.
  - right.
    assert (Hnot : forallb (bit_is_set (buffer_of b w)) (indices b buffer) = false).
    { apply not_true_is_false. intros Hall. apply forallb_bits_Forall in Hall.
      rewrite Hxs in Hall. apply Forall_app in Hall as [_ Hall].
      inversion Hall; subst. congruence. }
    rewrite Hnot. split; [reflexivity|]. exists pre, x, post. auto.
Qed.

(** C3. Insertion: on a ready Filter [bloom_add] returns 1 when the bits
    of all the indices were set before the call and 0 when one was not;
    it reads the byte of every index, in order, whatever it finds; after
    the call the bits of all the indices are set. *)
Theorem bloom_add_insert b (buffer : list Z) w :
  ready_filter b w ->
  exists r w' evs, bloom_add b buffer w = Done r w' /\
    let was_set x := bit_is_set (buffer_of b w) x = true in
    ((r = 1 /\ Forall was_set (indices b buffer)) \/
     (r = 0 /\ ~ Forall was_set (indices b buffer))) /\
    Forall (fun x => bit_is_set (buffer_of b w') x = true) (indices b buffer) /\
    w_trace w' = w_trace w ++ evs /\
    loaded evs = map (fun x => x / 8) (indices b buffer).
Proof.
  intros Hr. destruct (ready_filter_block b w Hr) as [Hp Hlen].
  pose proof (ready_filter_indices b w buffer Hr) as Hin.
  unfold bloom_add. rewrite (bloom_check_add_spec b buffer 1 w _ Hr Hp).
  eexists _, _, _. split; [reflexivity|]. simpl.
  rewrite sweep_all_hit, buffer_of_effect. repeat split.
  - destruct (forallb _ _) eqn:Hall.
    + left. split; [reflexivity|]. apply forallb_bits_Forall. exact Hall.
    + right. split; [reflexivity|]. intros HF.
      apply forallb_bits_Forall in HF. congruence.
  - apply sweep_insert_sets; [lia | exact Hin].
  - apply sweep_insert_loads. lia.
Qed.

(** For the record: with [bits] zero the index computation divides by
    zero, whatever the flag says. *)
Lemma bloom_check_add_zero_bits b buffer add w :
  ready b <> 0 -> bits b = 0 -> 0 < hashes b ->
  bloom_check_add b buffer add w = Undef.
Proof.
  intros Hr Hb Hh. unfold bloom_check_add.
  replace (ready b =? 0) with false by (symmetry; apply Z.eqb_neq; exact Hr).
  destruct (Z.to_nat (hashes b)) eqn:Hn; [lia|]. simpl. rewrite Hb. reflexivity.
Qed.
End Query.

Lemma bloom_check_query_witness :
  ready_filter demo_filter demo_world /\ ready demo_unready = 0 /\
  (exists r w', bloom_check (hash := demo_hash) demo_filter [104; 105] demo_world
                = Done r w' /\ w_heap w' = w_heap demo_world) /\
  bloom_check (hash := demo_hash) demo_unready [104; 105] demo_world = Done (-1) demo_world.
Proof.
  split; [exact demo_filter_ready|]. split; [reflexivity|]. split.
  - destruct (proj1 (bloom_check_query (hash := demo_hash) demo_filter [104; 105] demo_world)
                demo_filter_ready) as (r & w' & Hc & Hh & _).
    exists r, w'. split; assumption.
  - apply (proj2 (bloom_check_query (hash := demo_hash) demo_unready [104; 105] demo_world)).
    reflexivity.
Defined.

Lemma bloom_add_insert_witness :
  ready_filter demo_filter demo_world /\
  exists r w' evs, bloom_add (hash := demo_hash) demo_filter [104; 105] demo_world = Done r w' /\
    ((r = 1 /\ Forall (fun x => bit_is_set (buffer_of demo_filter demo_world) x = true)
                 (indices (hash := demo_hash) demo_filter [104; 105])) \/
     (r = 0 /\ ~ Forall (fun x => bit_is_set (buffer_of demo_filter demo_world) x = true)
                 (indices (hash := demo_hash) demo_filter [104; 105]))) /\
    Forall (fun x => bit_is_set (buffer_of demo_filter w') x = true)
      (indices (hash := demo_hash) demo_filter [104; 105]) /\
    w_trace w' = w_trace demo_world ++ evs /\
    loaded evs = map (fun x => x / 8) (indices (hash := demo_hash) demo_filter [104; 105]).
Proof.
  split; [exact demo_filter_ready|].
  apply (bloom_add_insert (hash := demo_hash) demo_filter [104; 105] demo_world).
  exact demo_filter_ready.
Defined.

(** ** The indexing scheme *)

Lemma sweep_insert_bits (p add : Z) (xs : list Z) (y : Z) :
  add <> 0 -> 0 <= y ->
  forall blk, Forall (in_block blk) xs ->
    bit_is_set (sweep p add xs blk).1.2 y = bit_is_set blk y || bool_decide (y ∈ xs).
Proof.
  intros Hadd Hy. apply Z.eqb_neq in Hadd.
  induction xs as [|x xs IH]; intros blk Hin; cbn [sweep].
  - rewrite bool_decide_eq_false_2 by apply not_elem_of_nil.
    rewrite orb_false_r. reflexivity.
  - inversion Hin as [|? ? Hx Hxs]; subst.
    destruct (bit_is_set blk x) eqn:Hs; cbn [fst snd].
    + rewrite IH by exact Hxs.
      destruct (decide (y = x)) as [->|Hne].
      * rewrite Hs. reflexivity.
      * f_equal. apply bool_decide_ext. rewrite elem_of_cons. tauto.
    + rewrite Hadd. cbn [fst snd].
      rewrite IH
        by (eapply Forall_impl; [exact Hxs|]; intros z Hz; apply in_block_set_bit; exact Hz).
      rewrite bit_is_set_set_bit by assumption.
      rewrite <- orb_assoc. f_equal.
      destruct (decide (y = x)) as [->|Hne].
      * rewrite (bool_decide_eq_true_2 (x = x)) by reflexivity.
        rewrite (bool_decide_eq_true_2 (x ∈ x :: xs)) by apply list_elem_of_here.
        reflexivity.
      * rewrite (bool_decide_eq_false_2 (y = x)) by exact Hne. cbn [orb].
        apply bool_decide_ext. rewrite elem_of_cons. tauto.
Qed.

Section Indexing.
Context {hash : Hash64} {F : Type}.
Implicit Types (b : bloom F) (w : world) (blk : list Z).

Lemma bit_index_formula b a bb i :
  bit_index b a bb i = ((a + bb * i) mod 2 ^ 64) mod bits b.
Proof.
  unfold bit_index, u64, wrap. f_equal. rewrite Zplus_mod_idemp_r. reflexivity.
Qed.

(** C4 as amended. Indexing: with [a = XXH64(data, 0x59f2815b16f81798)]
    and [b = XXH64(data, a)], the index of round [i] is
    [((a + b * i) mod 2^64) mod bits], below [bits]; query and insertion
    on a ready Filter go through these indices for [i] from 0, reading
    byte [x >> 3] for index [x]; their result is 1 exactly when bit
    [x mod 8], counted from the least significant, of that byte is set for
    every index; after an insertion the bits set in the buffer are those
    set before and those of the indices. *)
Theorem bloom_indexing b (buffer : list Z) w :
  ready_filter b w ->
  let a := XXH64 buffer hash_seed in
  let bb := XXH64 buffer a in
  let xs := map (fun i => ((a + bb * i) mod 2 ^ 64) mod bits b) (seqZ 0 (hashes b)) in
  let bit (blk : list Z) (x : Z) :=
    Z.testbit (default 0 (blk !! Z.to_nat (Z.shiftr x 3))) (x mod 8) in
  Forall (fun x => 0 <= x < bits b) xs /\
  (exists w' n,
      bloom_check b buffer w
      = Done (if forallb (bit (buffer_of b w)) xs then 1 else 0) w' /\
      w_trace w' = w_trace w ++ map (fun x => EvLoad (bf b) (Z.shiftr x 3)) (take n xs)) /\
  (exists w' evs,
      bloom_add b buffer w
      = Done (if forallb (bit (buffer_of b w)) xs then 1 else 0) w' /\
      w_trace w' = w_trace w ++ evs /\
      loaded evs = map (fun x => Z.shiftr x 3) xs /\
      forall y, 0 <= y ->
        bit (buffer_of b w') y = bit (buffer_of b w) y || bool_decide (y ∈ xs)).
Proof.
  intros Hr a bb xs bit.
  destruct (ready_filter_block b w Hr) as [Hp Hlen].
  pose proof (ready_filter_indices b w buffer Hr) as Hin.
  assert (Hxs : xs = indices b buffer).
  { unfold xs, indices. apply map_ext. intros i. symmetry. apply bit_index_formula. }
  assert (Hbit : forall blk x, in_block blk x -> bit blk x = bit_is_set blk x).
  { intros blk x Hx. unfold bit, bit_is_set. rewrite shiftr3_div8.
    destruct (in_block_lookup blk x Hx) as [c ->]. reflexivity. }
  assert (Hbit' : forall blk y, 0 <= y -> bit blk y = bit_is_set blk y).
  { intros blk y Hy. unfold bit, bit_is_set. rewrite shiftr3_div8.
    destruct (blk !! Z.to_nat (y / 8)); [reflexivity|]. apply Z.bits_0. }
  assert (Hall : forallb (bit (buffer_of b w)) xs
                 = forallb (bit_is_set (buffer_of b w)) (indices b buffer)).
  { rewrite Hxs. clear -Hin Hbit. induction Hin as [|x l Hx Hl IH]; simpl; [reflexivity|].
    rewrite IH, Hbit by exact Hx. reflexivity. }
  assert (Hsh : forall (l : list Z) (g : Z -> event),
             map (fun x => g (Z.shiftr x 3)) l = map (fun x => g (x / 8)) l).
  { intros l g. apply map_ext. intros x. rewrite shiftr3_div8. reflexivity. }
  split; [|split].
  - rewrite Hxs. unfold indices. apply Forall_map, Forall_true. intros i.
    apply Z.mod_pos_bound. apply Hr.
  - unfold bloom_check. rewrite (bloom_check_add_spec b buffer 0 w _ Hr Hp).
    destruct (sweep_query (bf b) (indices b buffer) (buffer_of b w)) as [Hblk Hev].
    rewrite sweep_all_hit, Hev, Hall.
    eexists _, (length (tested (buffer_of b w) (indices b buffer))).
    split; [reflexivity|]. simpl. f_equal.
    rewrite (Hsh _ (EvLoad (bf b))), Hxs. f_equal.
    generalize (indices b buffer). intros l. induction l as [|x l IH]; simpl; [reflexivity|].
    destruct (bit_is_set (buffer_of b w) x); simpl; [f_equal; exact IH|].
    rewrite take_0. reflexivity.
  - unfold bloom_add. rewrite (bloom_check_add_spec b buffer 1 w _ Hr Hp).
    rewrite sweep_all_hit, Hall.
    eexists _, _. split; [reflexivity|]. split; [reflexivity|]. split.
    + rewrite sweep_insert_loads by lia. rewrite Hxs.
      apply map_ext. intros x. rewrite shiftr3_div8. reflexivity.
    + intros y Hy. rewrite buffer_of_effect, !Hbit' by exact Hy.
      rewrite Hxs. apply sweep_insert_bits; [lia | exact Hy | exact Hin].
Qed.
End Indexing.

Lemma bloom_indexing_witness :
  ready_filter demo_filter demo_world /\
  exists w' evs,
    bloom_add (hash := demo_hash) demo_filter hello demo_world = Done 0 w' /\
    w_trace w' = w_trace demo_world ++ evs /\
    loaded evs = [0; 2; 2].
Proof.
  split; [exact demo_filter_ready|].
  destruct (bloom_indexing (hash := demo_hash) demo_filter hello demo_world
              demo_filter_ready) as (_ & _ & w' & evs & Hadd & Htr & Hld & _).
  exists w', evs. split; [exact Hadd|]. split; [exact Htr | exact Hld].
Defined.

(** C4 as stated fails.  With a = 2^64 - 1 and b = 1 the index of round 1
    is 0, where the sum over the integers gives 2^64 mod 29 = 24.  With the
    example hash, for the bytes of "hello", the index of the second round
    is 17 where the sum over the integers gives 12; an insertion reads
    bytes 0, 2 and 2, and leaves bit 12 unset. *)
Lemma bloom_index_wraps :
  ready_filter demo_filter demo_world /\
  bit_index demo_filter (2 ^ 64 - 1) 1 1 = 0 /\
  ideal_index demo_filter (2 ^ 64 - 1) 1 1 = 24 /\
  bit_index demo_filter (XXH64 (Hash64 := demo_hash) hello hash_seed)
    (XXH64 (Hash64 := demo_hash) hello (XXH64 (Hash64 := demo_hash) hello hash_seed)) 1
  <> ideal_index demo_filter (XXH64 (Hash64 := demo_hash) hello hash_seed)
       (XXH64 (Hash64 := demo_hash) hello (XXH64 (Hash64 := demo_hash) hello hash_seed)) 1 /\
  exists w',
    bloom_add (hash := demo_hash) demo_filter hello demo_world = Done 0 w' /\
    loaded (w_trace w') = [0; 2; 2] /\
    bit_is_set (buffer_of demo_filter w')
      (ideal_index demo_filter (XXH64 (Hash64 := demo_hash) hello hash_seed)
         (XXH64 (Hash64 := demo_hash) hello (XXH64 (Hash64 := demo_hash) hello hash_seed)) 1)
    = false.
Proof.
  split; [exact demo_filter_ready|]. split; [reflexivity|]. split; [reflexivity|].
  split; [vm_compute; discriminate|].
  eexists. split; [vm_compute; reflexivity|]. split; reflexivity.
Qed.

(** ** Reset *)

Lemma bit_is_set_zeros (n : nat) (x : Z) : bit_is_set (replicate n 0) x = false.
Proof.
  unfold bit_is_set. destruct (replicate n 0 !! Z.to_nat (x / 8)) as [c|] eqn:Hc.
  - apply lookup_replicate in Hc as [-> _]. apply Z.bits_0.
  - reflexivity.
Qed.

Section Reset.
Context {hash : Hash64} {F : Type}.
Implicit Types (b : bloom F) (w : world).

(** C10. Reset: on a ready Filter [bloom_reset] returns 0 and leaves, at
    the same address, a buffer of [bytes] zero bytes, the other blocks and
    the files as they were (the structure itself is not written); a
    [bloom_check] of any byte sequence then returns 0.  On an unready
    structure it returns 1 and the state is the one before the call. *)
Theorem bloom_reset_clears b w :
  (ready_filter b w ->
   exists w', bloom_reset b w = Done 0 w' /\
     w_heap w' = <[bf b := replicate (Z.to_nat (bytes b)) 0]> (w_heap w) /\
     w_files w' = w_files w /\
     forall buffer, exists w'', bloom_check b buffer w' = Done 0 w'') /\
  (ready b = 0 -> bloom_reset b w = Done 1 w).
Proof.
  split.
  - intros Hr. destruct (ready_filter_block b w Hr) as [Hp Hlen].
    destruct Hr as (Hrdy & Hpos & Hle & Hh & _).
    unfold bloom_reset, bind, memset0.
    replace (ready b =? 0) with false by (symmetry; apply Z.eqb_neq; exact Hrdy).
    rewrite Hp. rewrite decide_True by lia.
    rewrite drop_ge by lia. rewrite app_nil_r.
    eexists. split; [reflexivity|]. split; [reflexivity|]. split; [reflexivity|].
    intros buffer.
    set (w' := log _ _).
    assert (Hp' : w_heap w' !! bf b = Some (replicate (Z.to_nat (bytes b)) 0))
      by (unfold w'; simpl; apply lookup_insert_eq).
    assert (Hr' : ready_filter b w').
    { repeat split; try assumption; try lia.
      eexists. split; [exact Hp'|]. rewrite length_replicate. lia. }
    unfold bloom_check. rewrite (bloom_check_add_spec b buffer 0 w' _ Hr' Hp').
    rewrite sweep_all_hit. unfold indices.
    rewrite seqZ_cons by lia. simpl. rewrite bit_is_set_zeros. simpl.
    eexists. reflexivity.
  - intros Hr. unfold bloom_reset. rewrite Hr. reflexivity.
Qed.
End Reset.

Lemma bloom_reset_clears_witness :
  ready_filter demo_filter demo_world /\ ready demo_unready = 0 /\
  (exists w', bloom_reset demo_filter demo_world = Done 0 w' /\
     forall buffer, exists w'',
       bloom_check (hash := demo_hash) demo_filter buffer w' = Done 0 w'') /\
  bloom_reset demo_unready demo_world = Done 1 demo_world.
Proof.
  split; [exact demo_filter_ready|]. split; [reflexivity|]. split.
  - destruct (proj1 (bloom_reset_clears (hash := demo_hash) demo_filter demo_world)
                demo_filter_ready) as (w' & Hres & _ & _ & Hchk).
    exists w'. split; assumption.
  - apply (proj2 (bloom_reset_clears (hash := demo_hash) demo_unready demo_world)).
    reflexivity.
Defined.

(** ** Construction *)

Lemma Int_part_bounds (x : R) : (IZR (Int_part x) <= x < IZR (Int_part x) + 1)%R.
Proof. destruct (base_Int_part x). split; lra. Qed.

Lemma Rceil_bounds (x : R) : (x <= IZR (Rceil x) < x + 1)%R.
Proof.
  unfold Rceil. rewrite opp_IZR. destruct (Int_part_bounds (- x)). split; lra.
Qed.

Lemma Int_part_IZR (z : Z) : Int_part (IZR z) = z.
Proof. symmetry. apply Int_part_spec. split; lra. Qed.

Lemma Int_part_range (x : R) (lo hi : Z) :
  (IZR lo <= x < IZR hi)%R -> lo <= Int_part x < hi.
Proof.
  intros [Hlo Hhi]. destruct (Int_part_bounds x) as [H1 H2]. split.
  - assert (IZR lo < IZR (Int_part x) + 1)%R by lra.
    rewrite <- plus_IZR in H. apply lt_IZR in H. lia.
  - apply lt_IZR. lra.
Qed.

Lemma cast_unsigned_ideal (width : Z) (x : R) (w : world) :
  (0 <= x < IZR (2 ^ width))%R ->
  cast_unsigned width x w = Done (Int_part x) w.
Proof.
  intros Hx. unfold cast_unsigned. simpl. unfold Rtrunc.
  destruct (Rle_dec 0 x) as [_|Hn]; [|lra].
  rewrite decide_True; [reflexivity|].
  apply Int_part_range. simpl. lra.
Qed.


Lemma rejected_ideal (n : Z) (err : R) :
  n < 1000 \/ (err <= 0)%R \/ (1 <= err)%R ->
  (n <? 1000) || ld_leb err (ld_of_Z 0) || ld_leb (ld_of_Z 1) err = true.
Proof.
  intros Hbad. simpl.
  destruct (Z.ltb_spec n 1000) as [|Hn]; [reflexivity|]. simpl.
  destruct (Rle_dec err 0) as [|He0]; [reflexivity|]. simpl.
  destruct (Rle_dec 1 err) as [|He1]; [reflexivity|].
  destruct Hbad as [?|[?|?]]; [lia | contradiction | contradiction].
Qed.

Lemma accepted_ideal (n : Z) (err : R) :
  1000 <= n -> (0 < err < 1)%R ->
  (n <? 1000) || ld_leb err (ld_of_Z 0) || ld_leb (ld_of_Z 1) err = false.
Proof.
  intros Hn [He0 He1]. simpl.
  destruct (Z.ltb_spec n 1000); [lia|]. simpl.
  destruct (Rle_dec err 0); [lra|]. simpl.
  destruct (Rle_dec 1 err); [lra|]. reflexivity.
Qed.

(** C9. Rejection: with [entries] below 1000, or [error] at most 0 or at
    least 1, [bloom_init2] and [bloom_dummy] return 1, the structure is
    left with every field zero (unready, no buffer), and the state, its
    heap included, is the one before the call. *)
Theorem bloom_init2_rejects (n : Z) (err : R) (w : world) :
  n < 1000 \/ (err <= 0)%R \/ (err >= 1)%R ->
  bloom_init2 n err w = Done (1, Bloom 0 0%R 0 0 0 0%R 0 0 0 0) w /\
  bloom_dummy n err w = Done (1, Bloom 0 0%R 0 0 0 0%R 0 0 0 0) w.
Proof.
  intros Hbad.
  assert (Hc : (n <? 1000) || ld_leb err (ld_of_Z 0) || ld_leb (ld_of_Z 1) err = true).
  { apply rejected_ideal. destruct Hbad as [?|[?|?]]; auto. right. right. lra. }
  unfold bloom_init2, bloom_dummy. rewrite Hc. split; reflexivity.
Qed.

Lemma bloom_init2_rejects_witness :
  (999 < 1000 \/ (/ 2 <= 0)%R \/ (/ 2 >= 1)%R) /\
  (1000 < 1000 \/ (0 <= 0)%R \/ (0 >= 1)%R) /\
  (1000 < 1000 \/ (1 <= 0)%R \/ (1 >= 1)%R) /\
  bloom_init2 999 (/ 2)%R roomy_world = Done (1, Bloom 0 0%R 0 0 0 0%R 0 0 0 0) roomy_world /\
  bloom_dummy 1000 0%R roomy_world = Done (1, Bloom 0 0%R 0 0 0 0%R 0 0 0 0) roomy_world /\
  bloom_init2 1000 1%R roomy_world = Done (1, Bloom 0 0%R 0 0 0 0%R 0 0 0 0) roomy_world.
Proof.
  assert (H1 : 999 < 1000 \/ (/ 2 <= 0)%R \/ (/ 2 >= 1)%R) by (left; lia).
  assert (H2 : 1000 < 1000 \/ (0 <= 0)%R \/ (0 >= 1)%R) by (right; left; lra).
  assert (H3 : 1000 < 1000 \/ (1 <= 0)%R \/ (1 >= 1)%R) by (right; right; lra).
  split; [exact H1|]. split; [exact H2|]. split; [exact H3|].
  split; [exact (proj1 (bloom_init2_rejects 999 (/ 2)%R roomy_world H1))|].
  split; [exact (proj2 (bloom_init2_rejects 1000 0%R roomy_world H2))|].
  exact (proj1 (bloom_init2_rejects 1000 1%R roomy_world H3)).
Defined.

Lemma bytes_for_bits (nbits : Z) :
  0 <= nbits < 2 ^ 64 ->
  let nbytes := if negb (nbits mod 8 =? 0) then u64 (u64 (nbits / 8) + 1)
                else u64 (nbits / 8) in
  nbytes = (nbits + 7) / 8 /\ 8 * (nbytes - 1) < nbits <= 8 * nbytes.
Proof.
  intros Hb. change (2 ^ 64) with 18446744073709551616 in Hb.
  assert (Hq : 0 <= nbits / 8 < 2305843009213693952)
    by (split; [apply Z.div_pos; lia | apply Z.div_lt_upper_bound; lia]).
  pose proof (Z.div_mod nbits 8 ltac:(lia)) as Hdm.
  pose proof (Z.mod_pos_bound nbits 8 ltac:(lia)) as Hm.
  assert (Hu : u64 (nbits / 8) = nbits / 8)
    by (unfold u64, wrap; apply Z.mod_small; change (2 ^ 64) with 18446744073709551616; lia).
  assert (Hu1 : u64 (nbits / 8 + 1) = nbits / 8 + 1)
    by (unfold u64, wrap; apply Z.mod_small; change (2 ^ 64) with 18446744073709551616; lia).
  simpl. rewrite Hu, Hu1.
  assert (Hc : (nbits + 7) / 8 = if negb (nbits mod 8 =? 0) then nbits / 8 + 1 else nbits / 8).
  { destruct (Z.eqb_spec (nbits mod 8) 0) as [H0|H0]; simpl.
    - symmetry. apply Z.div_unique with (r := 7); lia.
    - symmetry. apply Z.div_unique with (r := nbits mod 8 - 1); lia. }
  rewrite <- Hc. split; [reflexivity|].
  rewrite Hc. destruct (Z.eqb_spec (nbits mod 8) 0); simpl; lia.
Qed.

(** The derivation over the reals, when the two conversions are in
    range. *)
Lemma derive_ideal (n : Z) (err : R) (w : world) :
  1000 <= n -> (0 < err < 1)%R ->
  let density := (- ln err / (480453013918201 / 10 ^ 15))%R in
  (IZR n * density < IZR (2 ^ 64))%R ->
  (693147180559945 / 10 ^ 15 * density <= 255)%R ->
  let nbits := Int_part (IZR n * density) in
  let rounds := Rceil (693147180559945 / 10 ^ 15 * density) in
  derive n err w = Done (Bloom n err nbits ((nbits + 7) / 8) rounds density 0 0 0 0) w /\
  0 <= nbits < 2 ^ 64 /\
  8 * ((nbits + 7) / 8 - 1) < nbits <= 8 * ((nbits + 7) / 8) /\
  1 <= rounds <= 255.
Proof.
  intros Hn Herr density Hbits Hrounds nbits rounds.
  assert (Hln : (ln err < 0)%R).
  { rewrite <- ln_1. apply ln_increasing; lra. }
  assert (Hp15 : (0 < 10 ^ 15)%R) by (apply pow_lt; lra).
  assert (Hd : (0 < density)%R).
  { unfold density. repeat apply Rdiv_lt_0_compat; lra. }
  assert (Hn0 : (1000 <= IZR n)%R) by (apply IZR_le; exact Hn).
  assert (Hall : (0 <= IZR n * density < IZR (2 ^ 64))%R).
  { split; [|exact Hbits]. apply Rmult_le_pos; lra. }
  pose proof (Rceil_bounds (693147180559945 / 10 ^ 15 * density)) as [Hc1 Hc2].
  fold rounds in Hc1, Hc2.
  assert (Hy : (0 < 693147180559945 / 10 ^ 15 * density)%R)
    by (apply Rmult_lt_0_compat; [apply Rdiv_lt_0_compat|]; lra).
  assert (Hceil : 1 <= rounds <= 255).
  { split.
    - assert (H0 : (IZR 0 < IZR rounds)%R) by lra. apply lt_IZR in H0. lia.
    - assert (H0 : (IZR rounds < IZR 256)%R) by lra. apply lt_IZR in H0. lia. }
  pose proof (Int_part_range _ 0 (2 ^ 64) Hall) as Hip. fold nbits in Hip.
  destruct (bytes_for_bits _ Hip) as [Hby1 Hby2]. simpl in Hby1, Hby2.
  split; [|split; [exact Hip|split; [|exact Hceil]]].
  - unfold derive, bind.
    cbn [ld_neg ld_log ld_div ld_mul ld_lit ld_of_Z ld_ceil ideal_arith].
    fold density.
    rewrite cast_unsigned_ideal by exact Hall.
    rewrite cast_unsigned_ideal
      by (split; [apply IZR_le; fold rounds; lia
                 | apply IZR_lt; fold rounds; change (2 ^ 8) with 256; lia]).
    rewrite Int_part_IZR. unfold ret. fold nbits. rewrite Hby1. reflexivity.
  - rewrite <- Hby1. exact Hby2.
Qed.

Lemma bloom_init2_ideal (n : Z) (err : R) (w : world) :
  1000 <= n -> (0 < err < 1)%R ->
  let density := (- ln err / (480453013918201 / 10 ^ 15))%R in
  (IZR n * density < IZR (2 ^ 64))%R ->
  (693147180559945 / 10 ^ 15 * density <= 255)%R ->
  let nbits := Int_part (IZR n * density) in
  let rounds := Rceil (693147180559945 / 10 ^ 15 * density) in
  (nbits + 7) / 8 <= w_memfree w ->
  bloom_init2 n err w
  = Done (0, Bloom n err nbits ((nbits + 7) / 8) rounds density (Z.pos (w_brk w)) 1
                   BLOOM_VERSION_MAJOR BLOOM_VERSION_MINOR)
         (alloc_block ((nbits + 7) / 8) w).
Proof.
  intros Hn Herr density Hbits Hrounds nbits rounds Hmem.
  destruct (derive_ideal n err w Hn Herr Hbits Hrounds) as (Hd & _).
  unfold bloom_init2. rewrite accepted_ideal by assumption.
  unfold bind. fold density in Hd. rewrite Hd.
  cbn [bytes bits entries error hashes bpe]. unfold calloc.
  rewrite decide_True by exact Hmem. reflexivity.
Qed.

(** With at least one bit, what [bloom_init2] builds is a ready Filter. *)
Lemma bloom_init2_ready_filter (n : Z) (err : R) (w : world) :
  1000 <= n -> (0 < err < 1)%R ->
  let density := (- ln err / (480453013918201 / 10 ^ 15))%R in
  (IZR n * density < IZR (2 ^ 64))%R ->
  (693147180559945 / 10 ^ 15 * density <= 255)%R ->
  (Int_part (IZR n * density) + 7) / 8 <= w_memfree w ->
  1 <= Int_part (IZR n * density) ->
  exists b w', bloom_init2 n err w = Done (0, b) w' /\ ready_filter b w'.
Proof.
  intros Hn Herr density Hbits Hrounds Hmem Hone.
  destruct (derive_ideal n err w Hn Herr Hbits Hrounds) as (_ & Hip & Hby & Hceil).
  rewrite (bloom_init2_ideal n err w Hn Herr Hbits Hrounds Hmem).
  eexists _, _. split; [reflexivity|].
  unfold ready_filter. cbn [ready bits bytes hashes bf].
  unfold density in *.
  split; [discriminate|]. split; [lia|]. split; [lia|]. split; [exact Hceil|].
  eexists. split; [unfold alloc_block; cbn [w_heap]; apply lookup_insert_eq|].
  rewrite length_replicate. lia.
Qed.


Lemma ln2_bounds : (/ 2 < ln 2 < 1)%R.
Proof.
  split; [apply ln_lt_2|].
  rewrite <- (ln_exp 1). apply ln_increasing; [lra|].
  pose proof (exp_ineq1 1 ltac:(lra)). lra.
Qed.

Lemma rounds_of_log (l : R) :
  (693147180559945 / 10 ^ 15 * (l / (480453013918201 / 10 ^ 15))
   = l * (693147180559945 / 480453013918201))%R.
Proof. field; lra. Qed.

Lemma bits_of_log (x l : R) :
  (x * (l / (480453013918201 / 10 ^ 15))
   = x * l * (1000000000000000 / 480453013918201))%R.
Proof. field; lra. Qed.




(** ** Loading *)

Lemma first_failure_spec (checks : list bool) :
  forall n, 0 < n ->
    (first_failure n checks = 0 /\ Forall (fun c => c = true) checks) \/
    (exists k, checks !! k = Some false /\ Forall (fun c => c = true) (take k checks) /\
               first_failure n checks = n + Z.of_nat k).
Proof.
  induction checks as [|c cs IH]; intros n Hn; simpl.
  - left. split; [reflexivity | constructor].
  - destruct c.
    + destruct (IH (n + 1) ltac:(lia)) as [[H0 Hall] | (k & Hk & Hall & Hrv)].
      * left. split; [exact H0 | constructor; auto].
      * right. exists (S k). simpl. split; [exact Hk|]. split; [constructor; auto | lia].
    + right. exists 0%nat. simpl. split; [reflexivity|]. split; [constructor | lia].
Qed.

Lemma file_read_spec (n pos : Z) (path : string) (w : world) (content : list Z) :
  w_files w !! path = Some content ->
  file_read n (File path pos) w
  = Done (take (Z.to_nat n) (drop (Z.to_nat pos) content),
          File path (pos + Z.of_nat (length (take (Z.to_nat n)
                                               (drop (Z.to_nat pos) content))))) w.
Proof. intros Hf. unfold file_read. simpl. rewrite Hf. reflexivity. Qed.

Lemma read_full (n : Z) (k : nat) (l : list Z) :
  0 <= n -> (k <= length l)%nat ->
  (Z.of_nat (length (take (Z.to_nat n) (drop k l))) =? n)
  = bool_decide (Z.of_nat k + n <= Z.of_nat (length l)).
Proof.
  intros Hn Hk. rewrite length_take, length_drop.
  case_bool_decide as Hle.
  - apply Z.eqb_eq. lia.
  - apply Z.eqb_neq. lia.
Qed.

Lemma read_full_length (n : Z) (k : nat) (l : list Z) :
  0 <= n -> Z.of_nat k + n <= Z.of_nat (length l) ->
  Z.of_nat (length (take (Z.to_nat n) (drop k l))) = n.
Proof. intros Hn Hle. rewrite length_take, length_drop. lia. Qed.

Lemma file_read_heap_spec (p n pos : Z) (path : string) (w : world)
      (content blk : list Z) :
  w_files w !! path = Some content -> w_heap w !! p = Some blk ->
  0 <= n <= Z.of_nat (length blk) ->
  let got := take (Z.to_nat n) (drop (Z.to_nat pos) content) in
  file_read_heap p n (File path pos) w
  = Done (Z.of_nat (length got), File path (pos + Z.of_nat (length got)))
         (log (EvFill p (Z.of_nat (length got)))
            (set_heap (<[p := got ++ drop (length got) blk]> (w_heap w)) w)).
Proof.
  intros Hf Hp Hn got. unfold file_read_heap, bind.
  rewrite (file_read_spec _ _ _ _ content Hf). cbn [fst snd].
  rewrite Hp. rewrite decide_True by exact Hn. reflexivity.
Qed.

Section Loading.
Context {F : Type} `{FloatZero F} `{BloomLayout F}.
Hypothesis sizeof_pos : 0 < sizeof_bloom.
Hypothesis bytes_unsigned : forall l : list Z, 0 <= bytes (bloom_of_bytes l).

Lemma major_set_bf (p : Z) (b : bloom F) : major (set_bf p b) = major b.
Proof. reflexivity. Qed.

Lemma bytes_set_bf (p : Z) (b : bloom F) : bytes (set_bf p b) = bytes b.
Proof. reflexivity. Qed.

Lemma bloom_load_result (dest : option (bloom F)) (filename : option string) (w : world) :
  let rv := first_failure 1 (load_checks dest filename w) in
  exists res w',
    bloom_load dest filename w = Done (rv, res) w' /\
    load_post dest filename w rv res w'.
Proof.
  intros rv. remember rv as code eqn:Hrv.
  unfold rv, load_checks in Hrv. clear rv.
  unfold bloom_load.
  destruct (no_filename filename) eqn:Hnf; cbn [negb first_failure] in Hrv.
  { subst code. exists dest, w. split; [reflexivity|].
    unfold load_post. repeat split; intros; lia. }
  destruct dest as [b0|];
    [rewrite bool_decide_eq_true_2 in Hrv by eauto
    |rewrite bool_decide_eq_false_2 in Hrv by (intros [? ?]; discriminate)];
    cbn [first_failure] in Hrv.
  2:{ subst code. exists None, w. split; [reflexivity|].
      unfold load_post. repeat split; intros; lia. }
  unfold bind at 1, open_read.
  destruct (w_files w !! the_filename filename) as [content|] eqn:Hf;
    cbn [default from_option id] in Hrv.
  2:{ rewrite bool_decide_eq_false_2 in Hrv by (intros [? ?]; discriminate).
      subst code. eexists _, _. split; [reflexivity|].
      unfold load_post. repeat split; intros; try lia. eauto. }
  rewrite bool_decide_eq_true_2 in Hrv by eauto.
  change (Datatypes.id content) with content in Hrv.
  assert (Hfail : forall k b w0, 3 <= k -> code = k ->
            exists res w',
              load_error k b w0 = Done (code, res) w' /\
              load_post (Some b0) filename w code res w').
  { intros k b w0 Hk ->. eexists _, _. split; [reflexivity|].
    unfold load_post. repeat split; intros; try lia. eauto. }
  (* the magic is read in full *)
  unfold bind at 1. rewrite (file_read_spec _ _ _ _ content Hf). cbn [fst snd f_path f_pos].
  change strlen_magic with 9. change (Z.to_nat 0) with 0%nat.
  rewrite (read_full 9 0 content) by lia.
  replace (bool_decide (Z.of_nat 0 + 9 <= Z.of_nat (length content)))
    with (bool_decide (9 <= Z.of_nat (length content))) by (apply bool_decide_ext; lia).
  case_bool_decide as H4; cbn [negb]; [|apply Hfail; [lia | exact Hrv]].
  (* the magic matches *)
  change (Z.to_nat 9) with 9%nat. change (drop 0 content) with content.
  case_bool_decide as H5; cbn [negb]; [|apply Hfail; [lia | exact Hrv]].
  (* the size field is read in full *)
  assert (L9 : Z.of_nat (length (take 9 content)) = 9) by (rewrite length_take; lia).
  rewrite L9. change (0 + 9) with 9.
  unfold bind at 1. rewrite (file_read_spec _ _ _ _ content Hf). cbn [fst snd f_path f_pos].
  change (Z.to_nat 9) with 9%nat. change (Z.to_nat 2) with 2%nat.
  change 2%nat with (Z.to_nat 2) at 1.
  rewrite (read_full 2 9 content) by lia.
  replace (bool_decide (Z.of_nat 9 + 2 <= Z.of_nat (length content)))
    with (bool_decide (11 <= Z.of_nat (length content))) by (apply bool_decide_ext; lia).
  case_bool_decide as H6; cbn [negb]; [|apply Hfail; [lia | exact Hrv]].
  (* the size field has the expected value *)
  destruct (u16_of_bytes (take 2 (drop 9 content)) =? sizeof_bloom) eqn:H7; cbn [negb];
    [|apply Hfail; [lia | exact Hrv]].
  (* the metadata is read in full *)
  assert (L2 : Z.of_nat (length (take 2 (drop 9 content))) = 2)
    by (rewrite length_take, length_drop; lia).
  rewrite L2. change (9 + 2) with 11.
  unfold bind at 1. rewrite (file_read_spec _ _ _ _ content Hf). cbn [fst snd f_path f_pos].
  change (Z.to_nat 11) with 11%nat.
  rewrite (read_full sizeof_bloom 11 content) by lia.
  replace (bool_decide (Z.of_nat 11 + sizeof_bloom <= Z.of_nat (length content)))
    with (bool_decide (11 + sizeof_bloom <= Z.of_nat (length content)))
    by (apply bool_decide_ext; lia).
  fold (file_meta content).
  case_bool_decide as H8; cbn [negb]; [|apply Hfail; [lia | exact Hrv]].
  (* the major version matches *)
  rewrite !major_set_bf, !bytes_set_bf.
  destruct (major (file_meta content) =? BLOOM_VERSION_MAJOR) eqn:H9; cbn [negb];
    [|apply Hfail; [lia | exact Hrv]].
  (* the allocation succeeds *)
  assert (Hb : 0 <= bytes (file_meta content)) by apply bytes_unsigned.
  unfold bind at 1, malloc, calloc.
  case_bool_decide as H10.
  2:{ rewrite decide_False by exact H10. cbn [Z.eqb]. apply Hfail; [lia | exact Hrv]. }
  rewrite decide_True by exact H10. cbn [Z.eqb].
  (* the buffer is read in full *)
  assert (Ls : Z.of_nat (length (take (Z.to_nat sizeof_bloom) (drop 11 content)))
               = sizeof_bloom) by (rewrite length_take, length_drop; lia).
  rewrite Ls, !bytes_set_bf.
  set (n := bytes (file_meta content)) in *.
  set (p := Z.pos (w_brk w)).
  unfold bind at 1.
  rewrite (file_read_heap_spec p n _ _ (alloc_block n w) content (replicate (Z.to_nat n) 0));
    [| exact Hf | apply lookup_insert_eq | rewrite length_replicate; lia].
  cbn [fst snd].
  replace (Z.to_nat (11 + sizeof_bloom)) with (11 + Z.to_nat sizeof_bloom)%nat by lia.
  rewrite (read_full n (11 + Z.to_nat sizeof_bloom) content) by lia.
  replace (bool_decide (Z.of_nat (11 + Z.to_nat sizeof_bloom) + n
                        <= Z.of_nat (length content)))
    with (bool_decide (11 + sizeof_bloom + n <= Z.of_nat (length content)))
    by (apply bool_decide_ext; lia).
  case_bool_decide as H11; cbn [negb].
  - subst code. eexists _, _. split; [reflexivity|].
    unfold load_post. repeat split; intros; try lia.
    exists content. split; [exact Hf|]. split; [reflexivity|]. split; [|reflexivity].
    cbn [w_heap log set_heap alloc_block]. rewrite insert_insert_eq. f_equal.
    fold n. set (got := take (Z.to_nat n) _).
    assert (Hgot : length got = Z.to_nat n)
      by (unfold got; rewrite length_take, length_drop; lia).
    rewrite Hgot, (drop_ge (replicate (Z.to_nat n) 0))
      by (rewrite length_replicate; lia).
    apply app_nil_r.
  - unfold bind, free. rewrite decide_False by (unfold p; lia).
    cbn [w_heap log set_heap]. rewrite lookup_insert_eq.
    apply Hfail; [lia | exact Hrv].
Qed.

(** C7 as amended. [bloom_load] returns the number of the first of the
    eleven checks, taken in order, that does not hold (file name given,
    pointer not NULL, file opens, magic read in full, magic matches, size
    field read in full, size field equal to [sizeof(struct bloom)], metadata
    read in full, major version matches, allocation succeeds, buffer read in
    full), and 0 when all hold.  With a result from 3 to 11 the structure
    is left with [ready] zero.  With result 1 the structure and the state
    are the ones before the call; with result 2 there is no structure. *)
Theorem bloom_load_checks (dest : option (bloom F)) (filename : option string) (w : world) :
  let checks := load_checks dest filename w in
  exists rv res w',
    bloom_load dest filename w = Done (rv, res) w' /\
    ((rv = 0 /\ Forall (fun c => c = true) checks) \/
     (exists k, checks !! k = Some false /\ Forall (fun c => c = true) (take k checks) /\
                rv = 1 + Z.of_nat k)) /\
    (rv = 1 -> res = dest /\ w' = w) /\
    (rv = 2 -> res = None /\ w' = w) /\
    (3 <= rv -> exists b, res = Some b /\ ready b = 0).
Proof.
  intros checks.
  destruct (bloom_load_result dest filename w) as (res & w' & Hrun & _ & H1 & H2 & H3).
  exists (first_failure 1 checks), res, w'. split; [exact Hrun|].
  split; [apply first_failure_spec; lia|]. auto.
Qed.

Lemma bloom_loadcustom_result (b : bloom F) (filename : option string) (w : world) :
  heap_fresh w ->
  let cause := first_failure 1 (loadcustom_checks b filename w) in
  exists rv b' w',
    bloom_loadcustom b filename w = Done (rv, b') w' /\
    loadcustom_post b filename w cause rv b' w'.
Proof.
  intros Hfresh cause. remember cause as c eqn:Hc.
  unfold cause, loadcustom_checks in Hc. clear cause.
  unfold bloom_loadcustom, loadcustom_post.
  destruct (no_filename filename) eqn:Hnf; cbn [negb first_failure] in Hc.
  { subst c. exists 1, b, w. split; [reflexivity|]. repeat split; intros; try lia; auto. }
  unfold blm_content, dat_content, custom_meta, blm_content in Hc.
  unfold bind at 1, open_read.
  destruct (w_files w !! snprintf68 (the_filename filename) ".blm") as [meta|] eqn:Hblm.
  2:{ rewrite bool_decide_eq_false_2 in Hc by (intros [[? ?] _]; discriminate).
      unfold bind at 1.
      destruct (w_files w !! snprintf68 (the_filename filename) ".dat"); subst c;
        exists 1, b, w; (split; [reflexivity|]); repeat split; intros; try lia; auto. }
  unfold bind at 1.
  destruct (w_files w !! snprintf68 (the_filename filename) ".dat") as [dat|] eqn:Hdat.
  2:{ rewrite bool_decide_eq_false_2 in Hc by (intros [_ [? ?]]; discriminate).
      subst c. exists 1, b, w. split; [reflexivity|]. repeat split; intros; try lia; auto. }
  rewrite bool_decide_eq_true_2 in Hc by (split; eauto).
  cbn [first_failure default from_option id] in Hc.
  change (Datatypes.id meta) with meta in Hc. change (Datatypes.id dat) with dat in Hc.
  (* the metadata read *)
  unfold bind at 1. rewrite (file_read_spec _ _ _ _ meta Hblm). cbn [fst snd].
  change (Z.to_nat 0) with 0%nat.
  rewrite (read_full sizeof_bloom 0 meta) by lia.
  replace (bool_decide (Z.of_nat 0 + sizeof_bloom <= Z.of_nat (length meta)))
    with (bool_decide (sizeof_bloom <= Z.of_nat (length meta)))
    by (apply bool_decide_ext; lia).
  change (drop 0 meta) with meta.
  case_bool_decide as H3; cbn [negb].
  2:{ subst c. eexists 1, _, w. split; [reflexivity|]. repeat split; intros; try lia; auto. }
  (* the allocation *)
  set (m := bloom_store (take (Z.to_nat sizeof_bloom) meta) b) in *.
  assert (Hb : 0 <= bytes m) by apply bytes_unsigned.
  set (n := bytes m) in *. set (p := Z.pos (w_brk w)).
  unfold bind at 1, malloc, calloc.
  case_bool_decide as H4.
  2:{ rewrite decide_False by exact H4. cbn [Z.eqb].
      subst c. eexists 1, _, w. split; [reflexivity|].
      repeat split; intros; try lia; auto. }
  rewrite decide_True by exact H4. cbn [Z.eqb].
  (* the buffer read *)
  rewrite !bytes_set_bf. fold n.
  unfold bind at 1.
  rewrite (file_read_heap_spec p n _ _ (alloc_block n w) dat (replicate (Z.to_nat n) 0));
    [| exact Hdat | apply lookup_insert_eq | rewrite length_replicate; lia].
  cbn [fst snd]. change (Z.to_nat 0) with 0%nat.
  rewrite (read_full n 0 dat) by lia.
  replace (bool_decide (Z.of_nat 0 + n <= Z.of_nat (length dat)))
    with (bool_decide (n <= Z.of_nat (length dat))) by (apply bool_decide_ext; lia).
  case_bool_decide as H5; cbn [negb].
  - subst c. eexists 0, _, _. split; [reflexivity|]. repeat split; intros; try lia.
    + unfold custom_meta, blm_content. rewrite Hblm. reflexivity.
    + unfold custom_meta, blm_content, dat_content. rewrite Hblm, Hdat.
      cbn [default from_option id w_heap log set_heap alloc_block].
      change (Datatypes.id meta) with meta. change (Datatypes.id dat) with dat.
      fold m. fold n. rewrite insert_insert_eq. f_equal.
      set (got := take (Z.to_nat n) _).
      assert (Hgot : length got = Z.to_nat n)
        by (unfold got; rewrite length_take, length_drop; lia).
      rewrite Hgot, (drop_ge (replicate (Z.to_nat n) 0))
        by (rewrite length_replicate; lia).
      apply app_nil_r.
  - unfold bind, free. rewrite decide_False by (unfold p; lia).
    cbn [w_heap log set_heap]. rewrite lookup_insert_eq.
    subst c. eexists 1, _, _. split; [reflexivity|]. cbn [w_heap].
    repeat split; intros; try lia.
    unfold alloc_block. cbn [w_heap].
    rewrite insert_insert_eq. apply delete_insert_id. exact Hfresh.
Qed.

(** C8 as amended. [bloom_loadcustom] returns 0 when none of the five
    causes of failure is there and 1 otherwise, and after a failure the
    heap holds the blocks it held before the call: nothing stays
    allocated.  When the file name is empty or a file is missing the
    structure and the state are the ones before the call.  When the
    allocation fails or the buffer read is short the structure is left with
    every field zero (unready, no buffer). *)
Theorem bloom_loadcustom_failure (b : bloom F) (filename : option string) (w : world) :
  heap_fresh w ->
  let cause := first_failure 1 (loadcustom_checks b filename w) in
  exists rv b' w',
    bloom_loadcustom b filename w = Done (rv, b') w' /\
    (cause = 0 -> rv = 0) /\
    (cause <> 0 -> rv = 1 /\ w_heap w' = w_heap w) /\
    (cause = 1 \/ cause = 2 -> b' = b /\ w' = w) /\
    (cause = 4 \/ cause = 5 -> b' = bloom_zero).
Proof.
  intros Hfresh cause.
  destruct (bloom_loadcustom_result b filename w Hfresh)
    as (rv & b' & w' & Hrun & H0' & H1 & H2 & H3).
  exists rv, b', w'. split; [exact Hrun|]. fold cause in H0', H1, H2, H3.
  split; [intros Hc; apply H0'; exact Hc|]. auto.
Qed.

End Loading.

(** ** The example layout *)

Lemma le_value_nonneg (l : list Z) : 0 <= le_value l.
Proof.
  induction l as [|c l IH]; simpl; [lia|].
  pose proof (Z.mod_pos_bound c 256 ltac:(lia)). lia.
Qed.

Lemma packed_sizeof_pos : 0 < sizeof_bloom (BloomLayout := packed_layout).
Proof. reflexivity. Qed.

Lemma packed_bytes_unsigned (l : list Z) :
  0 <= bytes (bloom_of_bytes (BloomLayout := packed_layout) l).
Proof. apply le_value_nonneg. Qed.

Lemma disk_world_fresh : heap_fresh disk_world.
Proof. reflexivity. Qed.

Lemma bloom_load_checks_witness :
  0 < sizeof_bloom (BloomLayout := packed_layout) /\
  (forall l, 0 <= bytes (bloom_of_bytes (BloomLayout := packed_layout) l)) /\
  exists res w',
    bloom_load (Some demo_filter) (Some "bad.bin"%string) disk_world = Done (5, res) w' /\
    exists b, res = Some b /\ ready b = 0.
Proof.
  split; [exact packed_sizeof_pos|]. split; [exact packed_bytes_unsigned|].
  destruct (bloom_load_checks packed_sizeof_pos packed_bytes_unsigned
              (Some demo_filter) (Some "bad.bin"%string) disk_world)
    as (rv & res & w' & Hrun & _ & _ & _ & H3).
  assert (Hrv : rv = 5).
  { assert (Hc : exists r w0,
               bloom_load (Some demo_filter) (Some "bad.bin"%string) disk_world
               = Done (5, r) w0) by (eexists _, _; vm_compute; reflexivity).
    destruct Hc as (r & w0 & Hc). rewrite Hc in Hrun. congruence. }
  subst rv. exists res, w'. split; [exact Hrun|]. apply H3. lia.
Defined.

(** C7 as stated fails: with an empty file name [bloom_load] returns 1 and
    a ready Filter stays ready. *)
Lemma bloom_load_keeps_ready :
  bloom_load (Some demo_filter) (Some ""%string) disk_world
  = Done (1, Some demo_filter) disk_world /\
  ready demo_filter <> 0.
Proof. split; [reflexivity | discriminate]. Qed.

Lemma bloom_loadcustom_failure_witness :
  0 < sizeof_bloom (BloomLayout := packed_layout) /\
  (forall l, 0 <= bytes (bloom_of_bytes (BloomLayout := packed_layout) l)) /\
  heap_fresh disk_world /\
  exists w',
    bloom_loadcustom demo_filter (Some "x"%string) disk_world
    = Done (1, Bloom 0 0 0 0 0 0 0 0 0 0) w' /\
    w_heap w' = w_heap disk_world.
Proof.
  split; [exact packed_sizeof_pos|]. split; [exact packed_bytes_unsigned|].
  split; [exact disk_world_fresh|].
  destruct (bloom_loadcustom_failure packed_sizeof_pos packed_bytes_unsigned
              demo_filter (Some "x"%string) disk_world disk_world_fresh)
    as (rv & b' & w' & Hrun & _ & H1 & _ & H45).
  assert (Hc : first_failure 1 (loadcustom_checks demo_filter (Some "x"%string) disk_world)
               = 5) by (vm_compute; reflexivity).
  rewrite Hc in H1, H45.
  destruct (H1 ltac:(lia)) as [-> Hheap]. rewrite (H45 ltac:(lia)) in Hrun.
  exists w'. split; [exact Hrun | exact Hheap].
Defined.

(** C8 as stated fails: with an empty file name [bloom_loadcustom] returns
    1 and leaves a ready Filter as it was, ready and not zeroed. *)
Lemma bloom_loadcustom_keeps_filter :
  bloom_loadcustom demo_filter (Some ""%string) disk_world
  = Done (1, demo_filter) disk_world /\
  ready demo_filter <> 0 /\ demo_filter <> bloom_zero.
Proof. split; [reflexivity|]. split; discriminate. Qed.

(** The short metadata read: eight bytes of metadata overwrite [entries]
    and the call returns 1 with the rest of the structure as it was. *)
Lemma bloom_loadcustom_short_metadata :
  bloom_loadcustom demo_filter (Some "y"%string) disk_world
  = Done (1, Bloom 77 (error demo_filter) 29 4 3 (bpe demo_filter) 100 1 2 1) disk_world.
Proof. vm_compute. reflexivity. Qed.

(** ** Saving *)

Lemma file_write_spec (data : list Z) (pos : Z) (path : string) (w : world)
      (old : list Z) :
  w_files w !! path = Some old ->
  let sent := take (Z.to_nat (w_diskfree w)) data in
  file_write data (File path pos) w
  = Done (Z.of_nat (length sent), File path (pos + Z.of_nat (length sent)))
         (set_files (<[path := overwrite pos sent old]> (w_files w))
                    (w_diskfree w - Z.of_nat (length sent)) w).
Proof. intros Hf sent. unfold file_write. simpl. rewrite Hf. reflexivity. Qed.

Section Saving.
Context {F : Type} `{FloatZero F} `{BloomLayout F}.

(** X23. With WIN64 defined [bloom_save] never returns 0, whatever the
    structure, the file name and the state: the count returned by the
    write of the magic is compared with [strlen(BLOOM_MAGIC)] after
    [sizeof(BLOOM_MAGIC)] bytes were asked for, and when the device takes
    just [strlen(BLOOM_MAGIC)] of them the next write is cut short. *)
Lemma bloom_save_win64_never_succeeds (b : bloom F) (filename : option string) (w : world) :
  exists w', bloom_save true b filename w = Done 1 w'.
Proof.
  unfold bloom_save. destruct (no_filename filename); [eexists; reflexivity|].
  unfold bind at 1, fopen_wb.
  destruct (decide (the_filename filename ∈ w_denied w)); [eexists; reflexivity|].
  set (w1 := set_files _ _ w).
  assert (Hf : w_files w1 !! the_filename filename = Some [])
    by (unfold w1; simpl; apply lookup_insert_eq).
  unfold bind at 1. rewrite (file_write_spec _ _ _ _ [] Hf). cbn [fst snd].
  change strlen_magic with 9.
  set (sent := take (Z.to_nat (w_diskfree w1)) _).
  destruct (Z.eqb_spec (Z.of_nat (length sent)) 9) as [H9|H9]; cbn [negb];
    [|eexists; reflexivity].
  set (w2 := set_files _ _ w1).
  assert (Hf2 : w_files w2 !! the_filename filename = Some (overwrite 0 sent []))
    by (unfold w2; simpl; apply lookup_insert_eq).
  unfold bind at 1. rewrite (file_write_spec _ _ _ _ _ Hf2). cbn [fst snd].
  assert (Hd : w_diskfree w2 = 0).
  { unfold w2. simpl. unfold sent in H9 |- *. rewrite length_take in H9 |- *.
    change (length (take (Z.to_nat sizeof_magic) (bytes_of_string BLOOM_MAGIC ++ [0])))
      with 10%nat in *. change (w_diskfree w1) with (w_diskfree w) in *. lia. }
  rewrite Hd. change (Z.to_nat 0) with 0%nat. rewrite take_0. cbn [length Z.of_nat Z.eqb negb].
  eexists. reflexivity.
Qed.

(** C6, the single-file form with WIN64 defined: on a ready Filter
    [bloom_save] returns 1 having written the magic and its terminating
    zero, ten bytes, and [bloom_load] of that file returns 6; no Filter is
    loaded. *)
Theorem bloom_save_win64_fails (b : bloom F) (name : string) (w : world) :
  0 < sizeof_bloom -> (forall l : list Z, 0 <= bytes (bloom_of_bytes l)) ->
  ready_filter b w -> name <> EmptyString -> name ∉ w_denied w -> 10 <= w_diskfree w ->
  exists w1,
    bloom_save true b (Some name) w = Done 1 w1 /\
    w_files w1 !! name = Some (bytes_of_string BLOOM_MAGIC ++ [0]) /\
    forall dest, exists res w2,
      bloom_load (Some dest) (Some name) w1 = Done (6, res) w2.
Proof.
  intros Hsz Hby _ Hname Hden Hdisk.
  unfold bloom_save, no_filename. rewrite bool_decide_eq_false_2 by exact Hname.
  cbn [the_filename]. unfold bind at 1, fopen_wb. rewrite decide_False by exact Hden.
  set (w0 := set_files _ _ w).
  assert (Hf : w_files w0 !! name = Some []) by (unfold w0; simpl; apply lookup_insert_eq).
  unfold bind at 1. rewrite (file_write_spec _ _ _ _ [] Hf). cbn [fst snd].
  assert (Hsent : take (Z.to_nat (w_diskfree w0))
                       (take (Z.to_nat sizeof_magic) (bytes_of_string BLOOM_MAGIC ++ [0]))
                  = bytes_of_string BLOOM_MAGIC ++ [0]).
  { change (take (Z.to_nat sizeof_magic) (bytes_of_string BLOOM_MAGIC ++ [0]))
      with (bytes_of_string BLOOM_MAGIC ++ [0]).
    apply take_ge. change (w_diskfree w0) with (w_diskfree w).
    change (length (bytes_of_string BLOOM_MAGIC ++ [0])) with 10%nat. lia. }
  rewrite Hsent.
  change (Z.of_nat (length (bytes_of_string BLOOM_MAGIC ++ [0])) =? strlen_magic) with false.
  cbn [negb]. eexists. split; [reflexivity|].
  set (w1 := set_files _ _ w0).
  assert (Hf1 : w_files w1 !! name = Some (bytes_of_string BLOOM_MAGIC ++ [0]))
    by (unfold w1; simpl; apply lookup_insert_eq).
  split; [exact Hf1|]. intros dest.
  destruct (bloom_load_result Hsz Hby (Some dest) (Some name) w1) as (res & w2 & Hrun & _).
  assert (Hrv : first_failure 1 (load_checks (Some dest) (Some name) w1) = 6).
  { unfold load_checks, no_filename. cbn [the_filename].
    rewrite bool_decide_eq_false_2 by exact Hname. rewrite Hf1.
    cbn [default from_option id negb first_failure].
    rewrite !bool_decide_eq_true_2 by eauto. reflexivity. }
  rewrite Hrv in Hrun. eauto.
Qed.
End Saving.

Lemma bloom_save_win64_fails_witness :
  0 < sizeof_bloom (BloomLayout := packed_layout) /\
  (forall l, 0 <= bytes (bloom_of_bytes (BloomLayout := packed_layout) l)) /\
  ready_filter demo_filter demo_world /\ ("s.bin"%string <> EmptyString) /\
  ("s.bin"%string ∉ w_denied demo_world) /\ 10 <= w_diskfree demo_world /\
  exists w1,
    bloom_save true demo_filter (Some "s.bin"%string) demo_world = Done 1 w1 /\
    w_files w1 !! "s.bin"%string = Some (bytes_of_string BLOOM_MAGIC ++ [0]) /\
    forall dest, exists res w2,
      bloom_load (Some dest) (Some "s.bin"%string) w1 = Done (6, res) w2.
Proof.
  assert (Hn : "s.bin"%string <> EmptyString) by discriminate.
  assert (Hd : "s.bin"%string ∉ w_denied demo_world) by apply not_elem_of_empty.
  assert (Hq : 10 <= w_diskfree demo_world) by (simpl; lia).
  split; [exact packed_sizeof_pos|]. split; [exact packed_bytes_unsigned|].
  split; [exact demo_filter_ready|]. split; [exact Hn|]. split; [exact Hd|].
  split; [exact Hq|].
  exact (bloom_save_win64_fails demo_filter "s.bin"%string demo_world
           packed_sizeof_pos packed_bytes_unsigned demo_filter_ready Hn Hd Hq).
Defined.

(** ** Round trips *)

Lemma overwrite_after (pos : nat) (data written old : list Z) :
  length written = pos ->
  overwrite (Z.of_nat pos) data (written ++ drop pos old)
  = (written ++ data) ++ drop (pos + length data) old.
Proof.
  intros Hlen. unfold overwrite. rewrite Nat2Z.id.
  rewrite take_app_length' by (symmetry; exact Hlen).
  rewrite drop_app_ge by lia. rewrite drop_drop.
  rewrite <- app_assoc. do 3 f_equal. lia.
Qed.

Lemma file_write_full (data written old : list Z) (pos : nat) (path : string) (w : world) :
  w_files w !! path = Some (written ++ drop pos old) ->
  length written = pos ->
  Z.of_nat (length data) <= w_diskfree w ->
  file_write data (File path (Z.of_nat pos)) w
  = Done (Z.of_nat (length data), File path (Z.of_nat (pos + length data)))
         (set_files (<[path := (written ++ data) ++ drop (pos + length data) old]>
                       (w_files w))
                    (w_diskfree w - Z.of_nat (length data)) w).
Proof.
  intros Hf Hlen Hdisk. rewrite (file_write_spec _ _ _ _ _ Hf). cbn zeta.
  rewrite take_ge by lia. rewrite overwrite_after by exact Hlen.
  rewrite Nat2Z.inj_add. reflexivity.
Qed.

Lemma file_write_heap_full (p n : Z) (blk written old : list Z) (pos : nat)
      (path : string) (w : world) :
  w_heap w !! p = Some blk -> Z.of_nat (length blk) = n ->
  w_files w !! path = Some (written ++ drop pos old) ->
  length written = pos -> n <= w_diskfree w ->
  file_write_heap p n (File path (Z.of_nat pos)) w
  = Done (n, File path (Z.of_nat (pos + length blk)))
         (set_files (<[path := (written ++ blk) ++ drop (pos + length blk) old]>
                       (w_files w))
                    (w_diskfree w - n) (log (EvDump p n) w)).
Proof.
  intros Hp Hn Hf Hlen Hdisk. unfold file_write_heap. rewrite Hp.
  rewrite decide_True by lia. rewrite take_ge by lia.
  rewrite (file_write_full blk written old pos path (log (EvDump p n) w));
    [| exact Hf | exact Hlen | simpl; lia].
  rewrite Hn. reflexivity.
Qed.

Section Roundtrip.
Context {hash : Hash64} {F : Type} `{FloatZero F} `{BloomLayout F}.
Hypothesis sizeof_pos : 0 < sizeof_bloom.
Hypothesis bytes_unsigned : forall l : list Z, 0 <= bytes (bloom_of_bytes l).
Hypothesis image_length : forall b : bloom F, Z.of_nat (length (bloom_bytes b)) = sizeof_bloom.

Lemma bloom_store_image (b b0 : bloom F) :
  bloom_of_bytes (bloom_bytes b) = b ->
  bloom_store (take (Z.to_nat sizeof_bloom) (bloom_bytes b)) b0 = b.
Proof.
  intros Hb. unfold bloom_store.
  pose proof (image_length b) as Hl. pose proof (image_length b0) as Hl0.
  rewrite take_ge by lia. rewrite drop_ge by lia. rewrite app_nil_r. exact Hb.
Qed.

Lemma bloom_savecustom_spec (b : bloom F) (name : string) (w : world) :
  name <> EmptyString ->
  snprintf68 name ".blm" <> snprintf68 name ".dat" ->
  snprintf68 name ".blm" ∉ w_denied w -> snprintf68 name ".dat" ∉ w_denied w ->
  ready_filter b w -> sizeof_bloom + bytes b <= w_diskfree w ->
  exists w1,
    bloom_savecustom b (Some name) w = Done 0 w1 /\
    w_files w1 !! snprintf68 name ".blm" = Some (bloom_bytes b) /\
    w_files w1 !! snprintf68 name ".dat" = Some (buffer_of b w) /\
    w_heap w1 = w_heap w /\ w_brk w1 = w_brk w /\ w_memfree w1 = w_memfree w.
Proof.
  intros Hname Hne Hd1 Hd2 Hr Hdisk.
  destruct (ready_filter_block b w Hr) as [Hp Hlen].
  pose proof (image_length b) as Himg.
  unfold bloom_savecustom, no_filename. rewrite bool_decide_eq_false_2 by exact Hname.
  cbn [the_filename]. set (str := snprintf68 name ".blm") in *.
  set (dat := snprintf68 name ".dat") in *.
  unfold bind at 1, fopen_wb. rewrite decide_False by exact Hd1.
  unfold bind at 1. cbn [w_denied set_files]. rewrite decide_False by exact Hd2.
  set (wa := set_files _ _ (set_files _ _ w)).
  assert (Hfs : w_files wa !! str = Some ([] ++ drop 0 [])).
  { unfold wa. simpl. rewrite lookup_insert_ne by congruence. apply lookup_insert_eq. }
  unfold bind at 1.
  change (File str 0) with (File str (Z.of_nat 0)).
  rewrite (file_write_full (bloom_bytes b) [] [] 0 str wa Hfs eq_refl)
    by (unfold wa; simpl; lia).
  cbn [fst snd]. rewrite Himg, Z.eqb_refl. cbn [negb].
  set (wb := set_files _ _ wa).
  assert (Hfd : w_files wb !! dat = Some ([] ++ drop 0 [])).
  { unfold wb, wa. simpl. rewrite lookup_insert_ne by congruence. apply lookup_insert_eq. }
  unfold bind at 1.
  change (File dat 0) with (File dat (Z.of_nat 0)).
  rewrite (file_write_heap_full (bf b) (bytes b) (buffer_of b w) [] [] 0 dat wb Hp Hlen Hfd eq_refl)
    by (unfold wb, wa; simpl; lia).
  cbn [fst snd]. rewrite Z.eqb_refl. cbn [negb].
  eexists. split; [reflexivity|]. simpl.
  rewrite !drop_nil, !app_nil_r.
  split; [rewrite lookup_insert_ne by congruence; apply lookup_insert_eq|].
  split; [apply lookup_insert_eq|]. auto.
Qed.

(** A structure with the same fields and a buffer with the same bytes
    answers queries alike. *)
Lemma bloom_check_transfer (b : bloom F) (w w2 : world) (p : Z) :
  ready_filter b w -> w_heap w2 !! p = Some (buffer_of b w) ->
  ready_filter (set_bf p b) w2 /\
  forall buffer, exists r wa wb,
    bloom_check b buffer w = Done r wa /\
    bloom_check (set_bf p b) buffer w2 = Done r wb.
Proof.
  intros Hr Hp2. destruct (ready_filter_block b w Hr) as [Hp Hlen].
  assert (Hr2 : ready_filter (set_bf p b) w2).
  { destruct Hr as (Hrdy & Hpos & Hle & Hh & _).
    split; [exact Hrdy|]. split; [exact Hpos|]. split; [exact Hle|]. split; [exact Hh|].
    exists (buffer_of b w). split; assumption. }
  split; [exact Hr2|]. intros buffer. unfold bloom_check.
  rewrite (bloom_check_add_spec b buffer 0 w _ Hr Hp).
  rewrite (bloom_check_add_spec (set_bf p b) buffer 0 w2 _ Hr2 Hp2).
  rewrite !sweep_all_hit. eexists _, _, _. split; reflexivity.
Qed.

(** X16. The two-file form round-trips: after [bloom_savecustom],
    [bloom_loadcustom] gives the saved fields with a fresh buffer that
    holds the saved bytes, and queries answer as before. *)
Theorem bloom_custom_roundtrip (b b0 : bloom F) (name : string) (w : world) :
  ready_filter b w -> heap_fresh w ->
  bloom_of_bytes (bloom_bytes b) = b ->
  name <> EmptyString ->
  snprintf68 name ".blm" <> snprintf68 name ".dat" ->
  snprintf68 name ".blm" ∉ w_denied w -> snprintf68 name ".dat" ∉ w_denied w ->
  sizeof_bloom + bytes b <= w_diskfree w -> bytes b <= w_memfree w ->
  exists w1 w2,
    bloom_savecustom b (Some name) w = Done 0 w1 /\
    bloom_loadcustom b0 (Some name) w1 = Done (0, set_bf (Z.pos (w_brk w)) b) w2 /\
    buffer_of (set_bf (Z.pos (w_brk w)) b) w2 = buffer_of b w /\
    forall buffer, exists r wa wb,
      bloom_check b buffer w = Done r wa /\
      bloom_check (set_bf (Z.pos (w_brk w)) b) buffer w2 = Done r wb.
Proof.
  intros Hr Hfresh Himg Hname Hne Hd1 Hd2 Hdisk Hmem.
  destruct (ready_filter_block b w Hr) as [Hp Hlen].
  destruct (bloom_savecustom_spec b name w Hname Hne Hd1 Hd2 Hr Hdisk)
    as (w1 & Hsave & Hstr & Hdat & Hheap & Hbrk & Hmf).
  assert (Hfresh1 : heap_fresh w1) by (unfold heap_fresh; rewrite Hheap, Hbrk; exact Hfresh).
  destruct (bloom_loadcustom_result sizeof_pos bytes_unsigned b0 (Some name) w1 Hfresh1)
    as (rv & b' & w2 & Hload & Hok & _).
  assert (Hmeta : custom_meta b0 (Some name) w1 = b).
  { unfold custom_meta, blm_content. cbn [the_filename]. rewrite Hstr.
    apply bloom_store_image. exact Himg. }
  assert (Hcause : first_failure 1 (loadcustom_checks b0 (Some name) w1) = 0).
  { unfold loadcustom_checks. rewrite Hmeta. unfold blm_content, dat_content, no_filename.
    cbn [the_filename]. rewrite Hstr, Hdat. cbn [default from_option id].
    pose proof (image_length b) as Hl.
    rewrite (bool_decide_eq_false_2 (name = EmptyString)) by exact Hname.
    rewrite !bool_decide_eq_true_2; [reflexivity | | | |];
      unfold Datatypes.id; try lia; eauto. }
  destruct (Hok Hcause) as (-> & -> & Hheap2 & _).
  rewrite Hmeta, Hbrk in Hload, Hheap2.
  unfold dat_content in Hheap2. cbn [the_filename] in Hheap2. rewrite Hdat in Hheap2.
  cbn [default from_option id] in Hheap2. unfold Datatypes.id in Hheap2.
  rewrite take_ge in Hheap2 by lia.
  assert (Hp2 : w_heap w2 !! Z.pos (w_brk w) = Some (buffer_of b w))
    by (rewrite Hheap2; apply lookup_insert_eq).
  exists w1, w2. split; [exact Hsave|]. split; [exact Hload|]. split.
  - unfold buffer_of at 1. cbn [bf set_bf]. rewrite Hp2. reflexivity.
  - apply (bloom_check_transfer b w w2 _ Hr Hp2).
Qed.

Lemma open_wronly_creat_spec (name : string) (w : world) :
  name ∉ w_denied w ->
  exists w0,
    open_wronly_creat name w = Done (Some (File name 0)) w0 /\
    w_files w0 !! name = Some (default [] (w_files w !! name)) /\
    w_heap w0 = w_heap w /\ w_brk w0 = w_brk w /\ w_memfree w0 = w_memfree w /\
    w_diskfree w0 = w_diskfree w.
Proof.
  intros Hd. unfold open_wronly_creat. rewrite decide_False by exact Hd.
  destruct (w_files w !! name) as [old|] eqn:Hf.
  - exists w. rewrite Hf. simpl. auto 10.
  - eexists. split; [reflexivity|]. simpl. rewrite lookup_insert_eq. auto 10.
Qed.

Lemma u16_bytes_value (z : Z) : 0 <= z < 65536 -> u16_of_bytes (u16_bytes (u16 z)) = z.
Proof.
  intros Hz. unfold u16, wrap. change (2 ^ 16) with 65536.
  rewrite (Z.mod_small z 65536) by lia. unfold u16_bytes, u16_of_bytes.
  rewrite (Z.mod_small (z / 256) 256)
    by (split; [apply Z.div_pos; lia | apply Z.div_lt_upper_bound; lia]).
  pose proof (Z.div_mod z 256 ltac:(lia)). lia.
Qed.

(** The file [bloom_save] leaves when built without WIN64: the magic, the
    size field, the metadata and the buffer, then what the file held
    beyond them. *)
Lemma bloom_save_posix_spec (b : bloom F) (name : string) (w : world) :
  name <> EmptyString -> name ∉ w_denied w -> ready_filter b w ->
  11 + sizeof_bloom + bytes b <= w_diskfree w ->
  exists w1 rest,
    bloom_save false b (Some name) w = Done 0 w1 /\
    w_files w1 !! name
    = Some (bytes_of_string BLOOM_MAGIC
              ++ u16_bytes (u16 sizeof_bloom) ++ bloom_bytes b ++ buffer_of b w ++ rest) /\
    w_heap w1 = w_heap w /\ w_brk w1 = w_brk w /\ w_memfree w1 = w_memfree w.
Proof.
  intros Hname Hden Hr Hdisk.
  destruct (ready_filter_block b w Hr) as [Hp Hlen].
  pose proof (image_length b) as Himg.
  destruct (open_wronly_creat_spec name w Hden) as (w0 & Hopen & Hf0 & Hh0 & Hb0 & Hm0 & Hd0).
  set (old := default [] (w_files w !! name)) in *.
  unfold bloom_save, no_filename. rewrite bool_decide_eq_false_2 by exact Hname.
  cbn [the_filename]. unfold bind at 1. rewrite Hopen.
  (* the magic *)
  unfold bind at 1. change (File name 0) with (File name (Z.of_nat 0)).
  rewrite (file_write_full _ [] old 0 name w0 Hf0 eq_refl)
    by (change (Z.of_nat (length _)) with 9; lia).
  cbn [fst snd]. change (Z.to_nat strlen_magic) with 9%nat.
  change (take 9 (bytes_of_string BLOOM_MAGIC)) with (bytes_of_string BLOOM_MAGIC).
  change (Z.of_nat (length (bytes_of_string BLOOM_MAGIC)) =? strlen_magic) with true.
  cbn [negb].
  (* the size field *)
  set (wa := set_files _ _ w0).
  assert (Hfa : w_files wa !! name
                = Some (([] ++ bytes_of_string BLOOM_MAGIC) ++ drop 9 old))
    by (unfold wa; simpl; apply lookup_insert_eq).
  unfold bind at 1.
  rewrite (file_write_full _ _ old 9 name wa Hfa eq_refl)
    by (unfold wa; simpl; lia).
  cbn [fst snd]. change (Z.of_nat (length (u16_bytes (u16 sizeof_bloom))) =? 2) with true.
  cbn [negb].
  (* the metadata *)
  set (wb := set_files _ _ wa).
  assert (Hfb : w_files wb !! name
                = Some ((([] ++ bytes_of_string BLOOM_MAGIC) ++ u16_bytes (u16 sizeof_bloom))
                          ++ drop 11 old))
    by (unfold wb; simpl; apply lookup_insert_eq).
  unfold bind at 1.
  rewrite (file_write_full (bloom_bytes b) _ old 11 name wb Hfb eq_refl)
    by (unfold wb, wa; simpl; lia).
  cbn [fst snd]. rewrite Himg, Z.eqb_refl. cbn [negb].
  (* the buffer *)
  set (wc := set_files _ _ wb).
  assert (Hfc : w_files wc !! name
                = Some (((([] ++ bytes_of_string BLOOM_MAGIC) ++ u16_bytes (u16 sizeof_bloom))
                           ++ bloom_bytes b)
                          ++ drop (11 + length (bloom_bytes b)) old))
    by (unfold wc; simpl; apply lookup_insert_eq).
  assert (Hpc : w_heap wc !! bf b = Some (buffer_of b w))
    by (unfold wc, wb, wa; simpl; rewrite Hh0; exact Hp).
  unfold bind at 1.
  rewrite (file_write_heap_full (bf b) (bytes b) (buffer_of b w) _ old
             (11 + length (bloom_bytes b)) name wc Hpc Hlen Hfc)
    by (rewrite ?length_app; simpl; unfold wc, wb, wa; simpl; lia).
  cbn [fst snd]. rewrite Z.eqb_refl. cbn [negb].
  eexists _, _. split; [reflexivity|]. simpl.
  rewrite lookup_insert_eq. split; [|auto].
  rewrite <- !app_assoc. reflexivity.
Qed.

(** X17. The single-file form built without WIN64 round-trips: after
    [bloom_save], [bloom_load] gives the saved fields with a fresh buffer
    that holds the saved bytes, and queries answer as before. *)
Theorem bloom_posix_roundtrip (b dest : bloom F) (name : string) (w : world) :
  ready_filter b w -> heap_fresh w ->
  bloom_of_bytes (bloom_bytes b) = b -> major b = BLOOM_VERSION_MAJOR ->
  sizeof_bloom < 65536 ->
  name <> EmptyString -> name ∉ w_denied w ->
  11 + sizeof_bloom + bytes b <= w_diskfree w -> bytes b <= w_memfree w ->
  exists w1 w2,
    bloom_save false b (Some name) w = Done 0 w1 /\
    bloom_load (Some dest) (Some name) w1
    = Done (0, Some (set_bf (Z.pos (w_brk w)) b)) w2 /\
    buffer_of (set_bf (Z.pos (w_brk w)) b) w2 = buffer_of b w /\
    forall buffer, exists r wa wb,
      bloom_check b buffer w = Done r wa /\
      bloom_check (set_bf (Z.pos (w_brk w)) b) buffer w2 = Done r wb.
Proof.
  intros Hr Hfresh Himg Hmaj Hsz Hname Hden Hdisk Hmem.
  destruct (ready_filter_block b w Hr) as [Hp Hlen].
  pose proof (image_length b) as Hl.
  destruct (bloom_save_posix_spec b name w Hname Hden Hr Hdisk)
    as (w1 & rest & Hsave & Hfile & Hheap & Hbrk & Hmf).
  set (magic := bytes_of_string BLOOM_MAGIC) in *.
  set (sz := u16_bytes (u16 sizeof_bloom)) in *.
  set (blk := buffer_of b w) in *.
  set (content := magic ++ sz ++ bloom_bytes b ++ blk ++ rest) in *.
  assert (Lc : Z.of_nat (length content)
               = 11 + sizeof_bloom + bytes b + Z.of_nat (length rest)).
  { unfold content. rewrite !length_app. change (length magic) with 9%nat.
    change (length sz) with 2%nat. lia. }
  assert (T9 : take 9 content = magic) by (apply take_app_length'; reflexivity).
  assert (D9 : drop 9 content = sz ++ bloom_bytes b ++ blk ++ rest)
    by (apply drop_app_length'; reflexivity).
  assert (T2 : take 2 (drop 9 content) = sz)
    by (rewrite D9; apply take_app_length'; reflexivity).
  assert (D11 : drop 11 content = bloom_bytes b ++ blk ++ rest).
  { change 11%nat with (9 + 2)%nat. rewrite <- drop_drop, D9.
    apply drop_app_length'. reflexivity. }
  assert (Hmeta : file_meta content = b).
  { unfold file_meta. rewrite D11. rewrite take_app_length' by lia.
    unfold bloom_store. pose proof (image_length bloom_zero) as Hl0.
    rewrite drop_ge by lia. rewrite app_nil_r. exact Himg. }
  assert (Dn : take (Z.to_nat (bytes b)) (drop (11 + Z.to_nat sizeof_bloom) content) = blk).
  { rewrite <- drop_drop, D11. rewrite drop_app_length' by lia.
    apply take_app_length'. lia. }
  destruct (bloom_load_result sizeof_pos bytes_unsigned (Some dest) (Some name) w1)
    as (res & w2 & Hload & Hok & _).
  assert (Hrv : first_failure 1 (load_checks (Some dest) (Some name) w1) = 0).
  { unfold load_checks, no_filename. cbn [the_filename]. rewrite Hfile.
    cbn [default from_option id]. unfold Datatypes.id.
    rewrite (bool_decide_eq_false_2 (name = EmptyString)) by exact Hname.
    rewrite T9, T2, Hmeta, Hmaj, Z.eqb_refl.
    unfold sz. rewrite u16_bytes_value by lia. rewrite Z.eqb_refl.
    rewrite !bool_decide_eq_true_2; [reflexivity | ..]; try lia; eauto. }
  rewrite Hrv in Hload, Hok.
  destruct (Hok eq_refl) as (content' & Hf' & -> & Hheap2 & _).
  cbn [the_filename] in Hf'. rewrite Hfile in Hf'. injection Hf' as <-.
  rewrite Hmeta, Dn, Hbrk in Hheap2. rewrite Hmeta, Hbrk in Hload.
  assert (Hp2 : w_heap w2 !! Z.pos (w_brk w) = Some blk)
    by (rewrite Hheap2; apply lookup_insert_eq).
  exists w1, w2. split; [exact Hsave|]. split; [exact Hload|]. split.
  - unfold buffer_of at 1. cbn [bf set_bf]. rewrite Hp2. reflexivity.
  - apply (bloom_check_transfer b w w2 _ Hr Hp2).
Qed.
End Roundtrip.

(** The example layout meets the assumptions of the round trips, which
    hold on the example Filter. *)
Lemma packed_image_length (b : bloom Z) :
  Z.of_nat (length (bloom_bytes (BloomLayout := packed_layout) b)) = sizeof_bloom.
Proof. reflexivity. Qed.

Lemma bloom_custom_roundtrip_demo :
  exists w1 w2,
    bloom_savecustom demo_filter (Some "s"%string) demo_world = Done 0 w1 /\
    bloom_loadcustom demo_unready (Some "s"%string) w1
    = Done (0, set_bf 101 demo_filter) w2 /\
    buffer_of (set_bf 101 demo_filter) w2 = buffer_of demo_filter demo_world.
Proof.
  destruct (bloom_custom_roundtrip (hash := demo_hash)
              packed_sizeof_pos packed_bytes_unsigned packed_image_length
              demo_filter demo_unready "s" demo_world)
    as (w1 & w2 & Hs & Hl & Hb & _);
    try exact demo_filter_ready; try reflexivity; try discriminate;
    try apply not_elem_of_empty; try (simpl; lia).
  exists w1, w2. auto.
Defined.

Lemma bloom_posix_roundtrip_demo :
  exists w1 w2,
    bloom_save false demo_filter (Some "s.bin"%string) demo_world = Done 0 w1 /\
    bloom_load (Some demo_unready) (Some "s.bin"%string) w1
    = Done (0, Some (set_bf 101 demo_filter)) w2 /\
    buffer_of (set_bf 101 demo_filter) w2 = buffer_of demo_filter demo_world.
Proof.
  destruct (bloom_posix_roundtrip (hash := demo_hash)
              packed_sizeof_pos packed_bytes_unsigned packed_image_length
              demo_filter demo_unready "s.bin" demo_world)
    as (w1 & w2 & Hs & Hl & Hb & _);
    try exact demo_filter_ready; try reflexivity; try discriminate;
    try apply not_elem_of_empty; try (simpl; lia).
  exists w1, w2. auto.
Defined.

(** A base name of 66 characters or more gives the two files of the
    two-file form the same path. *)
Lemma snprintf68_collision :
  snprintf68 "aaaaaaaaaaaaaaaaaaaaaaaaaaaaaaaaaaaaaaaaaaaaaaaaaaaaaaaaaaaaaaaaaa" ".blm"
  = snprintf68 "aaaaaaaaaaaaaaaaaaaaaaaaaaaaaaaaaaaaaaaaaaaaaaaaaaaaaaaaaaaaaaaaaa" ".dat".
Proof. reflexivity. Qed.

(** For the record: [entries] = 1000 and [error] = exp(-1/10000), about
    0.9999, are accepted and give a structure with the flag set, one round
    and no bit; [bloom_add] and [bloom_check] on it divide by zero. *)
Lemma bloom_init2_zero_bits :
  exists b w',
    bloom_init2 1000 (exp (- / 10000))%R roomy_world = Done (0, b) w' /\
    ready b = 1 /\ bits b = 0 /\ bytes b = 0 /\ hashes b = 1 /\
    forall (hash : Hash64) (buffer : list Z) (add : Z),
      bloom_check_add b buffer add w' = Undef.
Proof.
  assert (Herr : (0 < exp (- / 10000) < 1)%R).
  { split; [apply exp_pos|]. rewrite <- exp_0. apply exp_increasing.
    assert (0 < / 10000)%R by (apply Rinv_0_lt_compat; lra). lra. }
  assert (Hbits : (IZR 1000 * (- ln (exp (- / 10000)) / (480453013918201 / 10 ^ 15))
                   = 100000000000000 / 480453013918201)%R)
    by (rewrite ln_exp; field; lra).
  assert (Hrounds : (693147180559945 / 10 ^ 15
                     * (- ln (exp (- / 10000)) / (480453013918201 / 10 ^ 15))
                     = 693147180559945 / 4804530139182010000)%R)
    by (rewrite ln_exp; field; lra).
  assert (Hnb : Int_part (IZR 1000 * (- ln (exp (- / 10000))
                                        / (480453013918201 / 10 ^ 15))) = 0).
  { symmetry. apply Int_part_spec. rewrite Hbits. split; lra. }
  assert (Hnr : Rceil (693147180559945 / 10 ^ 15
                       * (- ln (exp (- / 10000)) / (480453013918201 / 10 ^ 15))) = 1).
  { unfold Rceil. rewrite Hrounds.
    rewrite <- (Int_part_spec (- (693147180559945 / 4804530139182010000)) (-1));
      [reflexivity | split; lra]. }
  rewrite (bloom_init2_ideal 1000 _ roomy_world ltac:(lia) Herr);
    [| rewrite Hbits; change (2 ^ 64) with 18446744073709551616; lra
     | rewrite Hrounds; lra
     | rewrite Hnb; vm_compute; discriminate].
  rewrite Hnb, Hnr. eexists _, _. split; [reflexivity|].
  split; [reflexivity|]. split; [reflexivity|]. split; [reflexivity|].
  split; [reflexivity|]. intros hash buffer add.
  apply bloom_check_add_zero_bits; [discriminate | reflexivity | reflexivity].
Qed.

(** ** Sequences of calls *)

Lemma sweep_all_set (p add : Z) (xs : list Z) :
  forall blk, forallb (bit_is_set blk) xs = true ->
    (sweep p add xs blk).1.2 = blk /\
    (sweep p add xs blk).2 = map (fun x => EvLoad p (x / 8)) xs.
Proof.
  induction xs as [|x xs IH]; intros blk Hall; cbn [sweep]; [auto|].
  cbn [forallb] in Hall. apply andb_true_iff in Hall as [Hx Hxs].
  rewrite Hx. cbn [fst snd]. destruct (IH blk Hxs) as [-> ->]. auto.
Qed.

Section Sequences.
Context {hash : Hash64} {F : Type}.
Implicit Types (b : bloom F) (w : world) (blk : list Z).

(** The answer of a query, as a function of the buffer. *)
Lemma bloom_check_answer b buffer w :
  ready_filter b w ->
  exists w', bloom_check b buffer w
             = Done (if forallb (bit_is_set (buffer_of b w)) (indices b buffer)
                     then 1 else 0) w' /\
             ready_filter b w' /\ buffer_of b w' = buffer_of b w.
Proof.
  intros Hr. destruct (ready_filter_block b w Hr) as [Hp Hlen].
  unfold bloom_check. rewrite (bloom_check_add_spec b buffer 0 w _ Hr Hp).
  destruct (sweep_query (bf b) (indices b buffer) (buffer_of b w)) as [Hblk _].
  rewrite sweep_all_hit, Hblk. eexists. split; [reflexivity|]. split.
  - eapply ready_filter_effect; eauto.
  - apply buffer_of_effect.
Qed.

(** What an insertion leaves, as a function of the buffer. *)
Lemma bloom_add_answer b buffer w :
  ready_filter b w ->
  exists w', bloom_add b buffer w
             = Done (if forallb (bit_is_set (buffer_of b w)) (indices b buffer)
                     then 1 else 0) w' /\
             ready_filter b w' /\
             forall y, 0 <= y ->
               bit_is_set (buffer_of b w') y
               = bit_is_set (buffer_of b w) y || bool_decide (y ∈ indices b buffer).
Proof.
  intros Hr. destruct (ready_filter_block b w Hr) as [Hp Hlen].
  pose proof (ready_filter_indices b w buffer Hr) as Hin.
  unfold bloom_add. rewrite (bloom_check_add_spec b buffer 1 w _ Hr Hp).
  rewrite sweep_all_hit. eexists. split; [reflexivity|]. split.
  - eapply ready_filter_effect; eauto. apply sweep_length.
  - intros y Hy. rewrite buffer_of_effect.
    apply sweep_insert_bits; [lia | exact Hy | exact Hin].
Qed.

Lemma forallb_bits_ext blk1 blk2 (xs : list Z) :
  Forall (fun x => 0 <= x) xs ->
  (forall y, 0 <= y -> bit_is_set blk1 y = bit_is_set blk2 y) ->
  forallb (bit_is_set blk1) xs = forallb (bit_is_set blk2) xs.
Proof.
  intros Hxs Hext. induction Hxs as [|x xs Hx _ IH]; cbn [forallb]; [reflexivity|].
  rewrite IH, (Hext x Hx). reflexivity.
Qed.

Lemma indices_nonneg b w buffer :
  ready_filter b w -> Forall (fun x => 0 <= x) (indices b buffer).
Proof.
  intros Hr. eapply Forall_impl; [apply (ready_filter_indices b w buffer Hr)|].
  intros x Hx. apply Hx.
Qed.

(** X1. A positive answer is stable: once [bloom_check] has returned 1 for
    a byte sequence on a ready Filter, it returns 1 for it after any
    further calls of [bloom_add] and [bloom_check]. *)
Theorem bloom_check_positive_stable b (buffer : list Z) (cs : list call) w w0 :
  ready_filter b w ->
  bloom_check b buffer w = Done 1 w0 ->
  exists rs w1, run_calls b cs w0 = Done rs w1 /\
  exists w2, bloom_check b buffer w1 = Done 1 w2.
Proof.
  intros Hr Hchk.
  destruct (bloom_check_answer b buffer w Hr) as (w' & Hrun & Hr0 & Hbuf).
  rewrite Hrun in Hchk.
  destruct (forallb (bit_is_set (buffer_of b w)) (indices b buffer)) eqn:Hall;
    [|discriminate].
  assert (w' = w0) by congruence. subst w'.
  destruct (run_calls_grows b cs w0 Hr0) as (rs & w1 & Hcalls & Hr1 & Hm).
  exists rs, w1. split; [exact Hcalls|].
  destruct (bloom_check_answer b buffer w1 Hr1) as (w2 & Hrun2 & _).
  exists w2. rewrite Hrun2.
  replace (forallb (bit_is_set (buffer_of b w1)) (indices b buffer)) with true;
    [reflexivity|].
  symmetry. apply forallb_bits_Forall. apply forallb_bits_Forall in Hall.
  pose proof (indices_nonneg b w buffer Hr) as Hnn.
  rewrite Forall_forall in Hall, Hnn |- *. intros x Hx.
  apply Hm; [apply (Hnn x Hx)|]. rewrite Hbuf. apply (Hall x Hx).
Qed.

(** X2. Insertion is idempotent: after [bloom_add] of a byte sequence on a
    ready Filter, a second [bloom_add] of it returns 1, reads the byte of
    every index and writes nothing. *)
Theorem bloom_add_idempotent b (buffer : list Z) w :
  ready_filter b w ->
  exists r w1, bloom_add b buffer w = Done r w1 /\
  exists w2, bloom_add b buffer w1 = Done 1 w2 /\
    w_heap w2 = w_heap w1 /\
    w_trace w2 = w_trace w1 ++ map (fun x => EvLoad (bf b) (x / 8)) (indices b buffer).
Proof.
  intros Hr.
  destruct (bloom_add_answer b buffer w Hr) as (w1 & Hrun & Hr1 & Hbits).
  eexists _, w1. split; [exact Hrun|].
  destruct (ready_filter_block b w1 Hr1) as [Hp1 Hlen1].
  assert (Hall : forallb (bit_is_set (buffer_of b w1)) (indices b buffer) = true).
  { apply forallb_bits_Forall.
    pose proof (indices_nonneg b w buffer Hr) as Hnn.
    rewrite Forall_forall in Hnn |- *. intros x Hx.
    rewrite Hbits by apply (Hnn x Hx).
    rewrite (bool_decide_eq_true_2 _ Hx). apply orb_true_r. }
  unfold bloom_add. rewrite (bloom_check_add_spec b buffer 1 w1 _ Hr1 Hp1).
  destruct (sweep_all_set (bf b) 1 (indices b buffer) _ Hall) as [Hblk Hev].
  rewrite sweep_all_hit, Hall, Hblk, Hev.
  eexists. split; [reflexivity|]. split; [|reflexivity].
  cbn [effect w_heap]. apply insert_id. exact Hp1.
Qed.

(** X3. Insertions commute: two byte sequences inserted in either order
    leave the same bits set, and any query after them has the same
    answer. *)
Theorem bloom_add_commutes b (x y z : list Z) w :
  ready_filter b w ->
  exists r1 r2 r3 r4 r w1 w2,
    run_calls b [CallAdd x; CallAdd y; CallCheck z] w = Done [r1; r2; r] w1 /\
    run_calls b [CallAdd y; CallAdd x; CallCheck z] w = Done [r3; r4; r] w2 /\
    forall i, 0 <= i ->
      bit_is_set (buffer_of b w1) i = bit_is_set (buffer_of b w2) i.
Proof.
  intros Hr.
  destruct (bloom_add_answer b x w Hr) as (wx & Hx & Hrx & Hbx).
  destruct (bloom_add_answer b y wx Hrx) as (wxy & Hxy & Hrxy & Hbxy).
  destruct (bloom_add_answer b y w Hr) as (wy & Hy & Hry & Hby).
  destruct (bloom_add_answer b x wy Hry) as (wyx & Hyx & Hryx & Hbyx).
  destruct (bloom_check_answer b z wxy Hrxy) as (w1 & Hc1 & _ & Hb1).
  destruct (bloom_check_answer b z wyx Hryx) as (w2 & Hc2 & _ & Hb2).
  assert (Hsame : forall i, 0 <= i ->
            bit_is_set (buffer_of b wxy) i = bit_is_set (buffer_of b wyx) i).
  { intros i Hi. rewrite Hbxy, Hbx, Hbyx, Hby by exact Hi.
    destruct (bit_is_set (buffer_of b w) i), (bool_decide (i ∈ indices b x)),
      (bool_decide (i ∈ indices b y)); reflexivity. }
  assert (Hans : forallb (bit_is_set (buffer_of b wxy)) (indices b z)
                 = forallb (bit_is_set (buffer_of b wyx)) (indices b z)).
  { apply forallb_bits_ext; [apply (indices_nonneg b w z Hr) | exact Hsame]. }
  rewrite <- Hans in Hc2.
  eexists _, _, _, _, _, w1, w2. cbn [run_calls]. unfold bind.
  rewrite Hx, Hxy, Hc1, Hy, Hyx, Hc2. unfold ret.
  split; [reflexivity|]. split; [reflexivity|].
  intros i Hi. rewrite Hb1, Hb2. apply Hsame. exact Hi.
Qed.

(** X4. The calls on a ready Filter touch nothing but its buffer:
    [bloom_add], [bloom_check] and [bloom_reset] return, the heap after
    the call is the heap before it with the buffer block replaced by a
    block of the same length, the files and the allocator are as before,
    and the Filter is still ready. *)
Theorem bloom_calls_frame b (buffer : list Z) w :
  ready_filter b w ->
  let framed (w' : world) :=
    (exists blk, w_heap w' = <[bf b := blk]> (w_heap w) /\
                 length blk = length (buffer_of b w)) /\
    w_files w' = w_files w /\ w_brk w' = w_brk w /\ w_memfree w' = w_memfree w /\
    w_diskfree w' = w_diskfree w /\ ready_filter b w' in
  (exists r w', bloom_add b buffer w = Done r w' /\ framed w') /\
  (exists r w', bloom_check b buffer w = Done r w' /\ framed w') /\
  (exists w', bloom_reset b w = Done 0 w' /\ framed w').
Proof.
  intros Hr framed. destruct (ready_filter_block b w Hr) as [Hp Hlen].
  assert (Hcall : forall add, exists r w',
             bloom_check_add b buffer add w = Done r w' /\ framed w').
  { intros add. rewrite (bloom_check_add_spec b buffer add w _ Hr Hp).
    eexists _, _. split; [reflexivity|]. unfold framed. cbn [effect w_heap w_files w_brk
      w_memfree w_diskfree].
    split; [eexists; split; [reflexivity | apply sweep_length]|].
    do 4 (split; [reflexivity|]).
    eapply ready_filter_effect; eauto. apply sweep_length. }
  split; [apply (Hcall 1)|]. split; [apply (Hcall 0)|].
  destruct Hr as (Hrdy & Hpos & Hle & Hh & _).
  unfold bloom_reset, bind, memset0.
  replace (ready b =? 0) with false by (symmetry; apply Z.eqb_neq; exact Hrdy).
  rewrite Hp. rewrite decide_True by lia.
  rewrite drop_ge by lia. rewrite app_nil_r.
  eexists. split; [reflexivity|]. unfold framed.
  cbn [log set_heap w_heap w_files w_brk w_memfree w_diskfree].
  split; [eexists; split; [reflexivity | rewrite length_replicate; lia]|].
  do 4 (split; [reflexivity|]).
  repeat split; try assumption; try lia.
  eexists. split; [apply lookup_insert_eq | rewrite length_replicate; lia].
Qed.
End Sequences.

Lemma full_world_ready : ready_filter demo_filter full_world.
Proof.
  unfold ready_filter, demo_filter, full_world; simpl.
  repeat split; try lia. exists [255; 255; 255; 255]. split; reflexivity.
Defined.

Lemma bloom_check_positive_stable_witness :
  ready_filter demo_filter full_world /\
  exists w0, bloom_check (hash := demo_hash) demo_filter hello full_world = Done 1 w0 /\
  exists rs w1, run_calls (hash := demo_hash) demo_filter
                  [CallAdd [119]; CallCheck [7; 7]] w0 = Done rs w1 /\
  exists w2, bloom_check (hash := demo_hash) demo_filter hello w1 = Done 1 w2.
Proof.
  split; [exact full_world_ready|].
  eexists. split; [vm_compute; reflexivity|].
  eapply (bloom_check_positive_stable (hash := demo_hash) demo_filter hello
            [CallAdd [119]; CallCheck [7; 7]] full_world).
  - exact full_world_ready.
  - vm_compute. reflexivity.
Defined.

Lemma bloom_add_idempotent_witness :
  ready_filter demo_filter demo_world /\
  exists r w1, bloom_add (hash := demo_hash) demo_filter hello demo_world = Done r w1 /\
  exists w2, bloom_add (hash := demo_hash) demo_filter hello w1 = Done 1 w2 /\
    w_heap w2 = w_heap w1.
Proof.
  split; [exact demo_filter_ready|].
  destruct (bloom_add_idempotent (hash := demo_hash) demo_filter hello demo_world
              demo_filter_ready) as (r & w1 & Hadd & w2 & Hadd2 & Hheap & _).
  exists r, w1. split; [exact Hadd|]. exists w2. split; assumption.
Defined.

Lemma bloom_add_commutes_witness :
  ready_filter demo_filter demo_world /\
  exists r1 r2 r3 r4 r w1 w2,
    run_calls (hash := demo_hash) demo_filter
      [CallAdd hello; CallAdd [119]; CallCheck [7; 7]] demo_world = Done [r1; r2; r] w1 /\
    run_calls (hash := demo_hash) demo_filter
      [CallAdd [119]; CallAdd hello; CallCheck [7; 7]] demo_world = Done [r3; r4; r] w2.
Proof.
  split; [exact demo_filter_ready|].
  destruct (bloom_add_commutes (hash := demo_hash) demo_filter hello [119] [7; 7]
              demo_world demo_filter_ready)
    as (r1 & r2 & r3 & r4 & r & w1 & w2 & H1 & H2 & _).
  exists r1, r2, r3, r4, r, w1, w2. split; assumption.
Defined.

Lemma bloom_calls_frame_witness :
  ready_filter demo_filter demo_world /\
  (exists r w', bloom_add (hash := demo_hash) demo_filter hello demo_world = Done r w' /\
                w_files w' = w_files demo_world /\ ready_filter demo_filter w') /\
  (exists w', bloom_reset demo_filter demo_world = Done 0 w' /\
              w_files w' = w_files demo_world /\ ready_filter demo_filter w').
Proof.
  split; [exact demo_filter_ready|].
  destruct (bloom_calls_frame (hash := demo_hash) demo_filter hello demo_world
              demo_filter_ready)
    as ((r & w1 & Hadd & _ & Hf1 & _ & _ & _ & Hr1) & _ & (w2 & Hres & _ & Hf2 & _ & _ & _ & Hr2)).
  split; [exists r, w1; auto | exists w2; auto].
Defined.

(** ** Construction, whatever the floating-point arithmetic *)

Section Sizing.
Context {F : Type} `{FloatZero F} `{LongDouble F}.

Lemma cast_unsigned_cases (width : Z) (x : F) (w : world) :
  cast_unsigned width x w = Undef \/
  exists z, 0 <= z < 2 ^ width /\ cast_unsigned width x w = Done z w.
Proof.
  unfold cast_unsigned. destruct (ld_trunc x) as [z|]; [|left; reflexivity].
  destruct (decide (0 <= z < 2 ^ width)) as [Hz|]; [|left; reflexivity].
  right. exists z. split; [exact Hz | reflexivity].
Qed.

(** The derivation changes nothing in the state, and what it stores fits
    the fields: [bits] a [uint64_t], [hashes] a [uint8_t], and [bytes] the
    least number of bytes that hold [bits] bits. *)
Lemma derive_cases (n : Z) (err : F) (w : world) :
  derive n err w = Undef \/
  exists nbits rounds density,
    0 <= nbits < 2 ^ 64 /\ 0 <= rounds < 2 ^ 8 /\
    derive n err w
    = Done (Bloom n err nbits ((nbits + 7) / 8) rounds density 0 0 0 0) w.
Proof.
  unfold derive, bind.
  destruct (cast_unsigned_cases 64
              (ld_mul (ld_of_Z n) (ld_div (ld_neg (ld_log err)) (ld_lit 480453013918201 15))) w)
    as [->|(nbits & Hb & ->)]; [left; reflexivity|].
  destruct (cast_unsigned_cases 8
              (ld_ceil (ld_mul (ld_lit 693147180559945 15)
                          (ld_div (ld_neg (ld_log err)) (ld_lit 480453013918201 15)))) w)
    as [->|(rounds & Hh & ->)]; [left; reflexivity|].
  right. exists nbits, rounds, (ld_div (ld_neg (ld_log err)) (ld_lit 480453013918201 15)).
  split; [exact Hb|]. split; [exact Hh|].
  destruct (bytes_for_bits nbits Hb) as [Hby _]. cbn zeta in Hby.
  unfold ret. rewrite Hby. reflexivity.
Qed.

Lemma bloom_init2_cases (n : Z) (err : F) (w : world) :
  bloom_init2 n err w = Undef \/
  bloom_init2 n err w = Done (1, bloom_zero) w \/
  exists d,
    1000 <= n /\ derive n err w = Done d w /\
    ((w_memfree w < bytes d /\ bloom_init2 n err w = Done (1, d) w) \/
     (bytes d <= w_memfree w /\
      bloom_init2 n err w
      = Done (0, Bloom (entries d) (error d) (bits d) (bytes d) (hashes d) (bpe d)
                       (Z.pos (w_brk w)) 1 BLOOM_VERSION_MAJOR BLOOM_VERSION_MINOR)
             (alloc_block (bytes d) w))).
Proof.
  unfold bloom_init2.
  destruct ((n <? 1000) || ld_leb err (ld_of_Z 0) || ld_leb (ld_of_Z 1) err) eqn:Hg;
    [right; left; reflexivity|].
  assert (Hn : 1000 <= n).
  { apply orb_false_iff in Hg as [Hg _]. apply orb_false_iff in Hg as [Hg _].
    apply Z.ltb_ge in Hg. exact Hg. }
  unfold bind, calloc.
  destruct (derive_cases n err w) as [->|(nbits & rounds & density & Hb & Hh & Hd)];
    [left; reflexivity|].
  rewrite Hd. right. right. eexists. split; [exact Hn|]. split; [reflexivity|].
  cbn [bytes bits entries error hashes bpe].
  destruct (decide ((nbits + 7) / 8 <= w_memfree w)) as [Hm|Hm].
  - right. split; [exact Hm | reflexivity].
  - left. split; [lia | reflexivity].
Qed.

Lemma bloom_dummy_cases (n : Z) (err : F) (w : world) :
  bloom_dummy n err w = Undef \/
  bloom_dummy n err w = Done (1, bloom_zero) w \/
  exists d, 1000 <= n /\ derive n err w = Done d w /\ bloom_dummy n err w = Done (0, d) w.
Proof.
  unfold bloom_dummy.
  destruct ((n <? 1000) || ld_leb err (ld_of_Z 0) || ld_leb (ld_of_Z 1) err) eqn:Hg;
    [right; left; reflexivity|].
  assert (Hn : 1000 <= n).
  { apply orb_false_iff in Hg as [Hg _]. apply orb_false_iff in Hg as [Hg _].
    apply Z.ltb_ge in Hg. exact Hg. }
  unfold bind.
  destruct (derive_cases n err w) as [->|(nbits & rounds & density & Hb & Hh & Hd)];
    [left; reflexivity|].
  rewrite Hd. right. right. eexists. split; [exact Hn|]. split; reflexivity.
Qed.

(** What [bloom_init2] returned 0 for: the structure and the state. *)
Lemma bloom_init2_done (n : Z) (err : F) (w w' : world) (b : bloom F) :
  bloom_init2 n err w = Done (0, b) w' ->
  exists nbits rounds density,
    1000 <= n /\ 0 <= nbits < 2 ^ 64 /\ 0 <= rounds < 2 ^ 8 /\
    b = Bloom n err nbits ((nbits + 7) / 8) rounds density (Z.pos (w_brk w)) 1
              BLOOM_VERSION_MAJOR BLOOM_VERSION_MINOR /\
    w' = alloc_block ((nbits + 7) / 8) w.
Proof.
  intros Hrun.
  destruct (bloom_init2_cases n err w) as [Hu|[Hz|(d & Hn & Hd & [[_ Hf]|[_ Hs]])]];
    rewrite ?Hu, ?Hz, ?Hf, ?Hs in Hrun; try discriminate.
  destruct (derive_cases n err w) as [Hu|(nbits & rounds & density & Hb & Hh & Hd')];
    rewrite Hd in *; [discriminate|].
  injection Hd' as ->. injection Hrun as <- <-.
  exists nbits, rounds, density. auto.
Qed.

(** X5. Whatever the floating-point arithmetic, a structure for which
    [bloom_init2] returned 0 has: [entries] and [error] as given,
    [entries] at least 1000, [bits] below 2^64, [bytes] the least number
    of bytes that hold [bits] bits, [hashes] below 256, the flag set,
    version 2.1, and for buffer a new block of [bytes] zero bytes taken
    from the allocator; files and the other blocks are as before. *)
Theorem bloom_init2_success (n : Z) (err : F) (w w' : world) (b : bloom F) :
  bloom_init2 n err w = Done (0, b) w' ->
  1000 <= n /\ entries b = n /\ error b = err /\
  0 <= bits b < 2 ^ 64 /\ bytes b = (bits b + 7) / 8 /\
  0 <= hashes b < 256 /\
  ready b = 1 /\ major b = 2 /\ minor b = 1 /\
  bf b = Z.pos (w_brk w) /\
  w_heap w' = <[bf b := replicate (Z.to_nat (bytes b)) 0]> (w_heap w) /\
  w_memfree w' = w_memfree w - bytes b /\
  w_files w' = w_files w /\ w_trace w' = w_trace w.
Proof.
  intros Hrun.
  destruct (bloom_init2_done n err w w' b Hrun)
    as (nbits & rounds & density & Hn & Hb & Hh & -> & ->).
  cbn [entries error bits bytes hashes ready major minor bf bpe].
  change (2 ^ 8) with 256 in Hh.
  repeat split; try lia.
Qed.

(** X6. A new Filter holds nothing: when [bloom_init2] returned 0 with at
    least one bit and one round, the structure is a ready Filter and
    [bloom_check] returns 0 for every byte sequence. *)
Theorem bloom_init2_empty {hash : Hash64} (n : Z) (err : F) (w w' : world) (b : bloom F) :
  bloom_init2 n err w = Done (0, b) w' ->
  1 <= bits b -> 1 <= hashes b ->
  ready_filter b w' /\
  forall buffer, exists w'', bloom_check b buffer w' = Done 0 w''.
Proof.
  intros Hrun Hbits Hrounds.
  destruct (bloom_init2_done n err w w' b Hrun)
    as (nbits & rounds & density & _ & Hb & Hh & -> & ->).
  cbn [bits hashes] in Hbits, Hrounds. change (2 ^ 8) with 256 in Hh.
  set (b := Bloom _ _ _ _ _ _ _ _ _ _). set (w' := alloc_block _ w).
  assert (Hp : w_heap w' !! bf b = Some (replicate (Z.to_nat (bytes b)) 0))
    by apply lookup_insert_eq.
  assert (Hq : nbits <= 8 * ((nbits + 7) / 8) /\ 0 <= (nbits + 7) / 8).
  { pose proof (Z.div_mod (nbits + 7) 8 ltac:(lia)).
    pose proof (Z.mod_pos_bound (nbits + 7) 8 ltac:(lia)). lia. }
  assert (Hr : ready_filter b w').
  { unfold ready_filter, b. cbn [ready bits bytes hashes bf].
    split; [lia|]. split; [lia|]. split; [lia|]. split; [lia|].
    eexists. split; [exact Hp|]. rewrite length_replicate.
    change (bytes b) with ((nbits + 7) / 8). lia. }
  split; [exact Hr|]. intros buffer.
  unfold bloom_check. rewrite (bloom_check_add_spec b buffer 0 w' _ Hr Hp).
  rewrite sweep_all_hit. unfold indices.
  rewrite seqZ_cons by (change (hashes b) with rounds; lia).
  cbn [map forallb]. rewrite bit_is_set_zeros. cbn [andb].
  eexists. reflexivity.
Qed.

(** X7. Whenever [bloom_init2] returns a result other than 0, the result
    is 1, nothing is allocated and the state is the one before the call;
    the structure is unready with a NULL buffer, so [bloom_check] and
    [bloom_add] on it return -1 and [bloom_free] releases nothing. *)
Theorem bloom_init2_failure {hash : Hash64} (n : Z) (err : F) (w w' : world)
        (r : Z) (b : bloom F) :
  bloom_init2 n err w = Done (r, b) w' -> r <> 0 ->
  r = 1 /\ w' = w /\ ready b = 0 /\ bf b = 0 /\
  (forall buffer, bloom_check b buffer w' = Done (-1) w' /\
                  bloom_add b buffer w' = Done (-1) w') /\
  bloom_free b w' = Done b w'.
Proof.
  intros Hrun Hr.
  assert (Hres : r = 1 /\ w' = w /\ ready b = 0 /\ bf b = 0).
  { destruct (bloom_init2_cases n err w) as [Hu|[Hz|(d & Hn & Hd & [[_ Hf]|[_ Hs]])]];
      rewrite ?Hu, ?Hz, ?Hf, ?Hs in Hrun; try discriminate.
    - injection Hrun as <- <- <-. auto.
    - destruct (derive_cases n err w) as [Hu|(nbits & rounds & density & _ & _ & Hd')];
        rewrite Hd in *; [discriminate|].
      injection Hd' as ->. injection Hrun as <- <- <-. auto.
    - injection Hrun as <- _ _. contradiction. }
  destruct Hres as (-> & -> & Hrdy & Hbf). repeat split; try assumption.
  - apply bloom_check_unready. exact Hrdy.
  - apply bloom_check_unready. exact Hrdy.
  - unfold bloom_free, bind. rewrite Hrdy. cbn [Z.eqb negb]. unfold ret.
    destruct b; cbn in *. subst. reflexivity.
Qed.

(** X8. [bloom_dummy] sizes without allocating: it never changes the
    state; when it returns 0 the structure holds the parameters with the
    flag clear and no buffer, and [bloom_init2] on the same arguments
    returns 0 with the same [bits], [bytes], [hashes] and [bpe] when
    [bytes] is not zero and the allocator can serve as many bytes, and 1
    when it cannot. *)
Theorem bloom_dummy_sizes (n : Z) (err : F) (w w' : world) (r : Z) (d : bloom F) :
  bloom_dummy n err w = Done (r, d) w' ->
  w' = w /\ ready d = 0 /\ bf d = 0 /\ (r = 0 \/ r = 1) /\
  (r = 0 ->
   bytes d = (bits d + 7) / 8 /\
   (0 < bytes d -> bytes d <= w_memfree w ->
    exists w2,
      bloom_init2 n err w
      = Done (0, Bloom n err (bits d) (bytes d) (hashes d) (bpe d)
                       (Z.pos (w_brk w)) 1 2 1) w2) /\
   (w_memfree w < bytes d -> bloom_init2 n err w = Done (1, d) w)).
Proof.
  intros Hrun.
  destruct (bloom_dummy_cases n err w) as [Hu|[Hz|(d0 & Hn & Hd & Hs)]];
    rewrite ?Hu, ?Hz, ?Hs in Hrun; try discriminate.
  - injection Hrun as <- <- <-. repeat split; auto. all: intros; discriminate.
  - injection Hrun as <- <- <-.
    destruct (derive_cases n err w) as [Hu|(nbits & rounds & density & Hb & Hh & Hd')];
      rewrite Hd in *; [discriminate|].
    injection Hd' as ->. cbn [ready bf bits bytes hashes bpe].
    split; [reflexivity|]. split; [reflexivity|]. split; [reflexivity|].
    split; [left; reflexivity|]. intros _. split; [reflexivity|].
    unfold bloom_init2, bloom_dummy in *.
    destruct ((n <? 1000) || ld_leb err (ld_of_Z 0) || ld_leb (ld_of_Z 1) err);
      [discriminate|].
    unfold bind, calloc. rewrite Hd.
    cbn [bytes bits entries error hashes bpe]. split.
    + intros _ Hm. rewrite decide_True by exact Hm. eexists. reflexivity.
    + intros Hm. rewrite decide_False by lia. reflexivity.
Qed.
End Sizing.

(** The example arguments: 1000 entries, error rate 1/2. *)
Lemma half_sizing :
  (0 < / 2 < 1)%R /\
  (IZR 1000 * (- ln (/ 2) / (480453013918201 / 10 ^ 15)) < IZR (2 ^ 64))%R /\
  (693147180559945 / 10 ^ 15 * (- ln (/ 2) / (480453013918201 / 10 ^ 15)) <= 255)%R /\
  1 <= Int_part (IZR 1000 * (- ln (/ 2) / (480453013918201 / 10 ^ 15))) < 2 ^ 64.
Proof.
  pose proof ln2_bounds as Hl2.
  assert (Hln : ln (/ 2) = (- ln 2)%R) by (apply ln_Rinv; lra).
  assert (H3 : (IZR 1000 * (- ln (/ 2) / (480453013918201 / 10 ^ 15)) < IZR (2 ^ 64))%R).
  { rewrite Hln, bits_of_log. change (2 ^ 64) with 18446744073709551616. lra. }
  split; [lra|]. split; [exact H3|]. split.
  - rewrite Hln, rounds_of_log. lra.
  - apply Int_part_range. split; [|exact H3]. rewrite Hln, bits_of_log. lra.
Qed.

Lemma bloom_init2_half :
  exists b w',
    bloom_init2 1000 (/ 2)%R roomy_world = Done (0, b) w' /\
    1 <= bits b /\ 1 <= hashes b.
Proof.
  destruct half_sizing as (Herr & Hbits & Hrounds & Hn).
  destruct (derive_ideal 1000 (/ 2)%R roomy_world ltac:(lia) Herr Hbits Hrounds)
    as (_ & _ & _ & Hceil).
  rewrite (bloom_init2_ideal 1000 (/ 2)%R roomy_world ltac:(lia) Herr Hbits Hrounds).
  - eexists _, _. split; [reflexivity|]. cbn [bits hashes]. split; [lia | apply Hceil].
  - change (w_memfree roomy_world) with 18446744073709551616.
    change (2 ^ 64) with 18446744073709551616 in Hn.
    apply Z.div_le_upper_bound; lia.
Qed.

Lemma bloom_dummy_half :
  exists d, bloom_dummy 1000 (/ 2)%R roomy_world = Done (0, d) roomy_world.
Proof.
  destruct half_sizing as (Herr & Hbits & Hrounds & Hn).
  destruct (derive_ideal 1000 (/ 2)%R roomy_world ltac:(lia) Herr Hbits Hrounds)
    as (Hd & _).
  unfold bloom_dummy. rewrite accepted_ideal by (lia || exact Herr).
  unfold bind. rewrite Hd. eexists. reflexivity.
Qed.

Lemma bloom_init2_half_exhausted :
  exists b, bloom_init2 1000 (/ 2)%R exhausted_world = Done (1, b) exhausted_world.
Proof.
  destruct half_sizing as (Herr & Hbits & Hrounds & Hn).
  destruct (derive_ideal 1000 (/ 2)%R exhausted_world ltac:(lia) Herr Hbits Hrounds)
    as (Hd & _).
  unfold bloom_init2. rewrite accepted_ideal by (lia || exact Herr).
  unfold bind, calloc. rewrite Hd. cbn [bytes]. rewrite decide_False.
  - eexists. reflexivity.
  - change (w_memfree exhausted_world) with 0.
    assert (1 <= (Int_part (IZR 1000 * (- ln (/ 2) / (480453013918201 / 10 ^ 15))) + 7) / 8)
      by (apply Z.div_le_lower_bound; lia).
    lia.
Qed.

Lemma bloom_init2_success_witness :
  exists b w',
    bloom_init2 1000 (/ 2)%R roomy_world = Done (0, b) w' /\
    ready b = 1 /\ bytes b = (bits b + 7) / 8 /\
    w_heap w' = <[bf b := replicate (Z.to_nat (bytes b)) 0]> (w_heap roomy_world).
Proof.
  destruct bloom_init2_half as (b & w' & Hrun & _).
  exists b, w'. split; [exact Hrun|].
  destruct (bloom_init2_success 1000 (/ 2)%R roomy_world w' b Hrun)
    as (_ & _ & _ & _ & Hby & _ & Hrdy & _ & _ & _ & Hheap & _).
  auto.
Defined.

Lemma bloom_init2_empty_witness :
  exists b w',
    bloom_init2 1000 (/ 2)%R roomy_world = Done (0, b) w' /\
    1 <= bits b /\ 1 <= hashes b /\
    ready_filter b w' /\
    forall buffer, exists w'', bloom_check (hash := demo_hash) b buffer w' = Done 0 w''.
Proof.
  destruct bloom_init2_half as (b & w' & Hrun & Hbits & Hrounds).
  exists b, w'. split; [exact Hrun|]. split; [exact Hbits|]. split; [exact Hrounds|].
  exact (bloom_init2_empty (hash := demo_hash) 1000 (/ 2)%R roomy_world w' b
           Hrun Hbits Hrounds).
Defined.

Lemma bloom_init2_failure_witness :
  exists b,
    bloom_init2 1000 (/ 2)%R exhausted_world = Done (1, b) exhausted_world /\
    1 <> 0 /\ ready b = 0 /\ bf b = 0 /\
    bloom_free b exhausted_world = Done b exhausted_world.
Proof.
  destruct bloom_init2_half_exhausted as (b & Hrun).
  assert (H1 : 1 <> 0) by discriminate.
  exists b. split; [exact Hrun|]. split; [exact H1|].
  destruct (bloom_init2_failure (hash := demo_hash) 1000 (/ 2)%R exhausted_world
              exhausted_world 1 b Hrun H1) as (_ & _ & Hrdy & Hbf & _ & Hfree).
  auto.
Defined.

Lemma bloom_dummy_sizes_witness :
  exists d,
    bloom_dummy 1000 (/ 2)%R roomy_world = Done (0, d) roomy_world /\
    ready d = 0 /\ bf d = 0 /\ bytes d = (bits d + 7) / 8.
Proof.
  destruct bloom_dummy_half as (d & Hrun).
  exists d. split; [exact Hrun|].
  destruct (bloom_dummy_sizes 1000 (/ 2)%R roomy_world roomy_world 0 d Hrun)
    as (_ & Hrdy & Hbf & _ & Hok).
  destruct (Hok eq_refl) as (Hby & _). auto.
Defined.

(** ** Release *)

Section Release.
Context {hash : Hash64} {F : Type}.
Implicit Types (b : bloom F) (w : world).

Lemma set_ready_id b : ready b = 0 -> set_ready 0 b = b.
Proof. intros Hr. destruct b. cbn in *. subst. reflexivity. Qed.

Lemma bloom_free_unready b w : ready b = 0 -> bloom_free b w = Done b w.
Proof.
  intros Hr. unfold bloom_free, bind. rewrite Hr. cbn [Z.eqb negb]. unfold ret.
  rewrite set_ready_id by exact Hr. reflexivity.
Qed.

(** X9. [bloom_free] on a ready Filter releases the buffer and clears the
    flag, leaving the other fields, the pointer included, as they were.
    The structure is then refused by [bloom_check] and [bloom_add] (-1)
    and by [bloom_reset] (1), none of which touches the state, and a
    second [bloom_free] releases nothing. *)
Theorem bloom_free_releases b w :
  ready_filter b w -> bf b <> 0 ->
  exists w',
    bloom_free b w = Done (set_ready 0 b) w' /\
    w_heap w' = delete (bf b) (w_heap w) /\
    w_memfree w' = w_memfree w + bytes b /\
    w_files w' = w_files w /\
    (forall buffer, bloom_check (set_ready 0 b) buffer w' = Done (-1) w' /\
                    bloom_add (set_ready 0 b) buffer w' = Done (-1) w') /\
    bloom_reset (set_ready 0 b) w' = Done 1 w' /\
    bloom_free (set_ready 0 b) w' = Done (set_ready 0 b) w'.
Proof.
  intros Hr Hbf. destruct (ready_filter_block b w Hr) as [Hp Hlen].
  destruct Hr as (Hrdy & _).
  unfold bloom_free at 1. unfold bind, free.
  replace (ready b =? 0) with false by (symmetry; apply Z.eqb_neq; exact Hrdy).
  cbn [negb]. rewrite decide_False by exact Hbf. rewrite Hp.
  eexists. split; [reflexivity|]. cbn [w_heap w_memfree w_files].
  split; [reflexivity|]. split; [lia|]. split; [reflexivity|].
  split; [|split].
  - intros buffer. split; apply bloom_check_unready; reflexivity.
  - reflexivity.
  - apply bloom_free_unready. reflexivity.
Qed.
End Release.

Section Reclaim.
Context {F : Type} `{FloatZero F} `{LongDouble F}.

(** X10. Construction and release leave nothing allocated: after
    [bloom_init2] has returned 0, [bloom_free] gives back the block, and
    the heap and the memory left to the allocator are the ones before
    [bloom_init2]. *)
Theorem bloom_init2_free (n : Z) (err : F) (w w' : world) (b : bloom F) :
  heap_fresh w ->
  bloom_init2 n err w = Done (0, b) w' ->
  exists w'',
    bloom_free b w' = Done (set_ready 0 b) w'' /\
    w_heap w'' = w_heap w /\ w_memfree w'' = w_memfree w /\ w_files w'' = w_files w.
Proof.
  intros Hfresh Hrun.
  destruct (bloom_init2_done n err w w' b Hrun)
    as (nbits & rounds & density & _ & Hb & _ & -> & ->).
  assert (Hn : 0 <= (nbits + 7) / 8) by (apply Z.div_pos; lia).
  unfold bloom_free, bind, free. cbn [ready bf Z.eqb negb].
  rewrite decide_False by lia.
  cbn [alloc_block w_heap]. rewrite lookup_insert_eq.
  eexists. split; [reflexivity|]. cbn [alloc_block w_heap w_memfree w_files].
  rewrite length_replicate. split; [|split; [lia | reflexivity]].
  apply delete_insert_id. exact Hfresh.
Qed.
End Reclaim.

Lemma bloom_free_releases_witness :
  ready_filter demo_filter demo_world /\ bf demo_filter <> 0 /\
  exists w',
    bloom_free demo_filter demo_world = Done (set_ready 0 demo_filter) w' /\
    w_heap w' = ∅ /\
    bloom_check (hash := demo_hash) (set_ready 0 demo_filter) hello w' = Done (-1) w'.
Proof.
  assert (Hbf : bf demo_filter <> 0) by discriminate.
  split; [exact demo_filter_ready|]. split; [exact Hbf|].
  destruct (bloom_free_releases (hash := demo_hash) demo_filter demo_world
              demo_filter_ready Hbf) as (w' & Hrun & Hheap & _ & _ & Hcalls & _).
  exists w'. split; [exact Hrun|]. split.
  - rewrite Hheap. apply delete_singleton_eq.
  - apply Hcalls.
Defined.

Lemma roomy_world_fresh : heap_fresh roomy_world.
Proof. reflexivity. Qed.

Lemma bloom_init2_free_witness :
  heap_fresh roomy_world /\
  exists b w' w'',
    bloom_init2 1000 (/ 2)%R roomy_world = Done (0, b) w' /\
    bloom_free b w' = Done (set_ready 0 b) w'' /\
    w_heap w'' = w_heap roomy_world /\ w_memfree w'' = w_memfree roomy_world.
Proof.
  split; [exact roomy_world_fresh|].
  destruct bloom_init2_half as (b & w' & Hrun & _).
  destruct (bloom_init2_free 1000 (/ 2)%R roomy_world w' b roomy_world_fresh Hrun)
    as (w'' & Hfree & Hheap & Hmem & _).
  exists b, w', w''. auto.
Defined.

(** ** What the loaders leave behind *)

Section Loaded.
Context {F : Type} `{FloatZero F} `{BloomLayout F}.
Hypothesis sizeof_pos : 0 < sizeof_bloom.
Hypothesis bytes_unsigned : forall l : list Z, 0 <= bytes (bloom_of_bytes l).

Lemma load_error_post (w w0 : world) (k : Z) (b : bloom F) :
  w_heap w0 = w_heap w -> w_files w0 = w_files w -> w_memfree w0 = w_memfree w ->
  (9 <= k -> bf b = 0) ->
  exists rv res w',
    load_error k b w0 = Done (rv, res) w' /\ load_failure_post w rv res w'.
Proof.
  intros Hh Hf Hm Hbf. eexists k, _, w0. split; [reflexivity|].
  intros _. repeat split; try assumption. intros _. eexists. split; [reflexivity|].
  split; [reflexivity | exact Hbf].
Qed.

Lemma bloom_load_failure_state (dest : option (bloom F)) (filename : option string)
      (w : world) :
  heap_fresh w ->
  exists rv res w',
    bloom_load dest filename w = Done (rv, res) w' /\ load_failure_post w rv res w'.
Proof.
  intros Hfresh. unfold bloom_load.
  destruct (no_filename filename).
  { exists 1, dest, w. split; [reflexivity|]. intros _. repeat split. intros; lia. }
  destruct dest as [b0|].
  2:{ exists 2, None, w. split; [reflexivity|]. intros _. repeat split. intros; lia. }
  unfold bind at 1, open_read.
  destruct (w_files w !! the_filename filename) as [content|] eqn:Hf.
  2:{ eexists 3, _, w. split; [reflexivity|]. intros _. repeat split. intros _.
      eexists. split; [reflexivity|]. split; [reflexivity | intros; lia]. }
  unfold bind at 1. rewrite (file_read_spec _ _ _ _ content Hf). cbn [fst snd].
  match goal with |- context [if ?c then load_error 4 _ else _] => destruct c end;
    [apply load_error_post; auto; intros; lia|].
  match goal with |- context [if ?c then load_error 5 _ else _] => destruct c end;
    [apply load_error_post; auto; intros; lia|].
  unfold bind at 1. rewrite (file_read_spec _ _ _ _ content Hf). cbn [fst snd].
  match goal with |- context [if ?c then load_error 6 _ else _] => destruct c end;
    [apply load_error_post; auto; intros; lia|].
  match goal with |- context [if ?c then load_error 7 _ else _] => destruct c end;
    [apply load_error_post; auto; intros; lia|].
  unfold bind at 1. rewrite (file_read_spec _ _ _ _ content Hf). cbn [fst snd].
  match goal with |- context [if ?c then load_error 8 _ else _] => destruct c end;
    [apply load_error_post; auto; intros; lia|].
  match goal with |- context [if ?c then load_error 9 _ else _] => destruct c end;
    [apply load_error_post; auto|].
  rewrite !bytes_set_bf.
  match goal with |- context [malloc ?k] => set (n := k) end.
  assert (Hn : 0 <= n) by apply bytes_unsigned.
  unfold bind at 1, malloc, calloc.
  destruct (decide (n <= w_memfree w)) as [Hmem|Hmem]; cbn [Z.eqb];
    [|apply load_error_post; auto].
  set (p := Z.pos (w_brk w)).
  rewrite !bytes_set_bf. fold n.
  unfold bind at 1.
  match goal with |- context [file_read_heap p n (File ?path ?pos)] =>
    rewrite (file_read_heap_spec p n pos path (alloc_block n w) content
               (replicate (Z.to_nat n) 0));
      [| exact Hf | apply lookup_insert_eq | rewrite length_replicate; lia]
  end.
  cbn [fst snd].
  match goal with |- context [take (Z.to_nat n) ?l] => set (got := take (Z.to_nat n) l) end.
  assert (Hgot : (length got <= Z.to_nat n)%nat) by (unfold got; rewrite length_take; lia).
  match goal with |- context [if ?c then _ else ret (0, _)] => destruct c end.
  - unfold bind, free. rewrite decide_False by (unfold p; lia).
    cbn [w_heap log set_heap]. rewrite lookup_insert_eq.
    apply load_error_post; cbn [w_heap w_files w_memfree alloc_block]; auto.
    + rewrite insert_insert_eq. apply delete_insert_id. exact Hfresh.
    + rewrite length_app, length_drop, length_replicate.
      cbn [w_memfree log set_heap alloc_block]. lia.
  - eexists 0, _, _. split; [reflexivity|]. intros Hne. contradiction.
Qed.

(** X11. A failed [bloom_load] leaks nothing: whatever the result other
    than 0, the heap, the files and the memory left to the allocator are
    the ones before the call.  From result 3 on the structure is unready,
    so [bloom_free] on it releases nothing, and from result 9 on its
    buffer pointer is NULL. *)
Theorem bloom_load_no_leak (dest : option (bloom F)) (filename : option string)
        (w : world) :
  heap_fresh w ->
  exists rv res w',
    bloom_load dest filename w = Done (rv, res) w' /\
    (rv <> 0 ->
     w_heap w' = w_heap w /\ w_files w' = w_files w /\ w_memfree w' = w_memfree w) /\
    (3 <= rv ->
     exists b, res = Some b /\ (9 <= rv -> bf b = 0) /\ bloom_free b w' = Done b w').
Proof.
  intros Hfresh.
  destruct (bloom_load_failure_state dest filename w Hfresh)
    as (rv & res & w' & Hrun & Hpost).
  exists rv, res, w'. split; [exact Hrun|]. split.
  - intros Hrv. destruct (Hpost Hrv) as (Hh & Hf & Hm & _). auto.
  - intros Hrv. destruct (Hpost ltac:(lia)) as (_ & _ & _ & Hb).
    destruct (Hb Hrv) as (b & -> & Hrdy & Hbf).
    exists b. split; [reflexivity|]. split; [exact Hbf|].
    apply bloom_free_unready. exact Hrdy.
Qed.

Lemma load_checks_pass (dest : bloom F) (name : string) (w : world) (content : list Z) :
  name <> EmptyString ->
  w_files w !! name = Some content ->
  take 9 content = bytes_of_string BLOOM_MAGIC ->
  u16_of_bytes (take 2 (drop 9 content)) = sizeof_bloom ->
  major (file_meta content) = BLOOM_VERSION_MAJOR ->
  bytes (file_meta content) <= w_memfree w ->
  11 + sizeof_bloom + bytes (file_meta content) <= Z.of_nat (length content) ->
  first_failure 1 (load_checks (Some dest) (Some name) w) = 0.
Proof.
  intros Hname Hf Hmagic Hsize Hmajor Hmem Hlen.
  pose proof (bytes_unsigned (take (Z.to_nat sizeof_bloom) (drop 11 content)
                                ++ drop (length (take (Z.to_nat sizeof_bloom)
                                                   (drop 11 content)))
                                     (bloom_bytes bloom_zero))) as Hb.
  change (0 <= bytes (file_meta content)) in Hb.
  unfold load_checks, no_filename. cbn [the_filename]. rewrite Hf.
  cbn [default from_option id]. unfold Datatypes.id.
  rewrite (bool_decide_eq_false_2 (name = EmptyString)) by exact Hname.
  rewrite Hmagic, Hsize, Hmajor, !Z.eqb_refl.
  rewrite !bool_decide_eq_true_2; [reflexivity | ..]; try lia; eauto.
Qed.

(** X12. What a successful [bloom_load] gives.  When the file holds the
    magic, a size field equal to [sizeof(struct bloom)], metadata with
    major version 2 and [bytes] not zero, and at least [bytes] further
    bytes, and the allocator can serve [bytes] bytes, [bloom_load] returns
    0; the structure is the
    metadata of the file with, for buffer, a new block holding the [bytes]
    bytes that follow the metadata.  What the structure held before, the
    buffer pointer stored in the file and any bytes after the buffer play
    no part; the files are not changed. *)
Theorem bloom_load_success (dest : bloom F) (name : string) (w : world)
        (content : list Z) :
  name <> EmptyString ->
  w_files w !! name = Some content ->
  take 9 content = bytes_of_string BLOOM_MAGIC ->
  u16_of_bytes (take 2 (drop 9 content)) = sizeof_bloom ->
  major (file_meta content) = BLOOM_VERSION_MAJOR ->
  0 < bytes (file_meta content) <= w_memfree w ->
  11 + sizeof_bloom + bytes (file_meta content) <= Z.of_nat (length content) ->
  exists w',
    bloom_load (Some dest) (Some name) w
    = Done (0, Some (set_bf (Z.pos (w_brk w)) (file_meta content))) w' /\
    w_heap w' = <[Z.pos (w_brk w) :=
                    take (Z.to_nat (bytes (file_meta content)))
                         (drop (11 + Z.to_nat sizeof_bloom) content)]> (w_heap w) /\
    w_files w' = w_files w.
Proof.
  intros Hname Hf Hmagic Hsize Hmajor [_ Hmem] Hlen.
  destruct (bloom_load_result sizeof_pos bytes_unsigned (Some dest) (Some name) w)
    as (res & w' & Hrun & Hok & _).
  rewrite (load_checks_pass dest name w content) in Hrun, Hok by assumption.
  destruct (Hok eq_refl) as (content' & Hf' & -> & Hheap & Hfiles).
  cbn [the_filename] in Hf'. rewrite Hf in Hf'. injection Hf' as <-.
  exists w'. auto.
Qed.

(** X13. [bloom_load] does not examine [bits]: a file that passes the
    checks and whose metadata have the flag set, [bits] zero and at least
    one round is loaded with result 0, and [bloom_check] and [bloom_add]
    on the loaded structure divide by zero. *)
Theorem bloom_load_zero_bits {hash : Hash64} (dest : bloom F) (name : string) (w : world)
        (content : list Z) :
  name <> EmptyString ->
  w_files w !! name = Some content ->
  take 9 content = bytes_of_string BLOOM_MAGIC ->
  u16_of_bytes (take 2 (drop 9 content)) = sizeof_bloom ->
  major (file_meta content) = BLOOM_VERSION_MAJOR ->
  0 < bytes (file_meta content) <= w_memfree w ->
  11 + sizeof_bloom + bytes (file_meta content) <= Z.of_nat (length content) ->
  ready (file_meta content) <> 0 -> bits (file_meta content) = 0 ->
  0 < hashes (file_meta content) ->
  exists b w',
    bloom_load (Some dest) (Some name) w = Done (0, Some b) w' /\
    forall buffer, bloom_check b buffer w' = Undef /\ bloom_add b buffer w' = Undef.
Proof.
  intros Hname Hf Hmagic Hsize Hmajor [_ Hmem] Hlen Hrdy Hbits Hrounds.
  destruct (bloom_load_result sizeof_pos bytes_unsigned (Some dest) (Some name) w)
    as (res & w' & Hrun & Hok & _).
  rewrite (load_checks_pass dest name w content) in Hrun, Hok by assumption.
  destruct (Hok eq_refl) as (content' & Hf' & -> & _).
  cbn [the_filename] in Hf'. rewrite Hf in Hf'. injection Hf' as <-.
  eexists _, w'. split; [exact Hrun|].
  intros buffer. split; apply bloom_check_add_zero_bits; assumption.
Qed.

(** X14. What a successful [bloom_loadcustom] gives.  When the two files
    exist, the metadata file holds at least [sizeof(struct bloom)] bytes
    with [bytes] not zero, and the buffer file at least [bytes] bytes,
    which the allocator can serve, [bloom_loadcustom] returns 0; the structure is the first
    [sizeof(struct bloom)] bytes of the metadata file with, for buffer, a
    new block holding the first [bytes] bytes of the buffer file.  No
    magic, size or version is looked at; the files are not changed. *)
Theorem bloom_loadcustom_success (b : bloom F) (name : string) (w : world)
        (meta dat : list Z) :
  heap_fresh w -> name <> EmptyString ->
  w_files w !! snprintf68 name ".blm" = Some meta ->
  w_files w !! snprintf68 name ".dat" = Some dat ->
  sizeof_bloom <= Z.of_nat (length meta) ->
  0 < bytes (bloom_store (take (Z.to_nat sizeof_bloom) meta) b) <= w_memfree w ->
  bytes (bloom_store (take (Z.to_nat sizeof_bloom) meta) b) <= Z.of_nat (length dat) ->
  exists w',
    bloom_loadcustom b (Some name) w
    = Done (0, set_bf (Z.pos (w_brk w))
                 (bloom_store (take (Z.to_nat sizeof_bloom) meta) b)) w' /\
    w_heap w' = <[Z.pos (w_brk w) :=
                    take (Z.to_nat (bytes (bloom_store (take (Z.to_nat sizeof_bloom) meta) b)))
                         dat]> (w_heap w) /\
    w_files w' = w_files w.
Proof.
  intros Hfresh Hname Hblm Hdat Hlen [_ Hmem] Hbuf.
  destruct (bloom_loadcustom_result sizeof_pos bytes_unsigned b (Some name) w Hfresh)
    as (rv & b' & w' & Hrun & Hok & _).
  assert (Hmeta : custom_meta b (Some name) w
                  = bloom_store (take (Z.to_nat sizeof_bloom) meta) b).
  { unfold custom_meta, blm_content. cbn [the_filename]. rewrite Hblm. reflexivity. }
  assert (Hcause : first_failure 1 (loadcustom_checks b (Some name) w) = 0).
  { unfold loadcustom_checks. rewrite Hmeta. unfold blm_content, dat_content, no_filename.
    cbn [the_filename]. rewrite Hblm, Hdat. cbn [default from_option id].
    unfold Datatypes.id.
    rewrite (bool_decide_eq_false_2 (name = EmptyString)) by exact Hname.
    rewrite !bool_decide_eq_true_2; [reflexivity | ..]; try lia; eauto. }
  destruct (Hok Hcause) as (-> & -> & Hheap & Hfiles).
  rewrite Hmeta in Hrun, Hheap.
  unfold dat_content in Hheap. cbn [the_filename] in Hheap. rewrite Hdat in Hheap.
  exists w'. auto.
Qed.

(** X15. The short metadata read of [bloom_loadcustom]: when the metadata
    file holds fewer than [sizeof(struct bloom)] bytes, the call returns 1
    having copied these bytes over the beginning of the structure; the
    rest of the structure is as it was, nothing is allocated and the state
    is the one before the call. *)
Theorem bloom_loadcustom_short (b : bloom F) (name : string) (w : world)
        (meta dat : list Z) :
  name <> EmptyString ->
  w_files w !! snprintf68 name ".blm" = Some meta ->
  w_files w !! snprintf68 name ".dat" = Some dat ->
  Z.of_nat (length meta) < sizeof_bloom ->
  bloom_loadcustom b (Some name) w = Done (1, bloom_store meta b) w.
Proof.
  clear sizeof_pos bytes_unsigned. intros Hname Hblm Hdat Hlen.
  unfold bloom_loadcustom, no_filename. rewrite bool_decide_eq_false_2 by exact Hname.
  cbn [the_filename]. unfold bind at 1, open_read. rewrite Hblm.
  unfold bind at 1. rewrite Hdat.
  unfold bind at 1. rewrite (file_read_spec _ _ _ _ meta Hblm). cbn [fst snd].
  change (Z.to_nat 0) with 0%nat. change (drop 0 meta) with meta.
  rewrite take_ge by lia.
  replace (Z.of_nat (length meta) =? sizeof_bloom) with false
    by (symmetry; apply Z.eqb_neq; lia).
  reflexivity.
Qed.

(** X24. The loaders never free the buffer the structure had: after
    [bloom_load] or [bloom_loadcustom] on a structure whose buffer is a
    live block, whatever the result, that block is still allocated with
    its contents; when the load succeeds the structure points to the new
    block, and the old one stays allocated. *)
Theorem loaders_keep_old_buffer (dest : bloom F) (filename : option string) (w : world)
        (blk : list Z) :
  heap_fresh w -> w_heap w !! bf dest = Some blk ->
  (exists rv res w',
      bloom_load (Some dest) filename w = Done (rv, res) w' /\
      w_heap w' !! bf dest = Some blk /\
      (rv = 0 -> exists b, res = Some b /\ bf b <> bf dest)) /\
  (exists rv b' w',
      bloom_loadcustom dest filename w = Done (rv, b') w' /\
      w_heap w' !! bf dest = Some blk /\
      (rv = 0 -> bf b' <> bf dest)).
Proof.
  intros Hfresh Hblk.
  assert (Hne : bf dest <> Z.pos (w_brk w)).
  { intros Heq. unfold heap_fresh in Hfresh. rewrite <- Heq, Hblk in Hfresh.
    discriminate. }
  split.
  - destruct (bloom_load_result sizeof_pos bytes_unsigned (Some dest) filename w)
      as (res & w' & Hrun & Hok & _).
    destruct (bloom_load_failure_state (Some dest) filename w Hfresh)
      as (rv2 & res2 & w2 & Hrun2 & Hbad).
    rewrite Hrun in Hrun2. injection Hrun2 as <- <- <-.
    eexists _, res, w'. split; [exact Hrun|].
    destruct (decide (first_failure 1 (load_checks (Some dest) filename w) = 0))
      as [Hz0|Hz0].
    + destruct (Hok Hz0) as (content & _ & -> & Hheap & _). split.
      * rewrite Hheap, lookup_insert_ne by congruence. exact Hblk.
      * intros _. eexists. split; [reflexivity|]. cbn [bf set_bf]. congruence.
    + destruct (Hbad Hz0) as (Hheap & _). split.
      * rewrite Hheap. exact Hblk.
      * intros Hz. contradiction.
  - destruct (bloom_loadcustom_result sizeof_pos bytes_unsigned dest filename w Hfresh)
      as (rv & b' & w' & Hrun & Hok & Hbad & _).
    exists rv, b', w'. split; [exact Hrun|].
    destruct (decide (first_failure 1 (loadcustom_checks dest filename w) = 0))
      as [Hz0|Hz0].
    + destruct (Hok Hz0) as (_ & -> & Hheap & _). split.
      * rewrite Hheap, lookup_insert_ne by congruence. exact Hblk.
      * intros _. cbn [bf set_bf]. congruence.
    + destruct (Hbad Hz0) as (-> & Hheap). split.
      * rewrite Hheap. exact Hblk.
      * intros Hz. discriminate Hz.
Qed.
End Loaded.

Lemma saved_world_fresh : heap_fresh saved_world.
Proof. reflexivity. Qed.

Lemma bloom_load_no_leak_witness :
  (forall l, 0 <= bytes (bloom_of_bytes (BloomLayout := packed_layout) l)) /\
  heap_fresh disk_world /\
  exists res w',
    bloom_load (Some demo_filter) (Some "bad.bin"%string) disk_world = Done (5, res) w' /\
    w_heap w' = w_heap disk_world.
Proof.
  split; [exact packed_bytes_unsigned|].
  split; [exact disk_world_fresh|].
  destruct (bloom_load_no_leak packed_bytes_unsigned
              (Some demo_filter) (Some "bad.bin"%string) disk_world disk_world_fresh)
    as (rv & res & w' & Hrun & Hkeep & _).
  assert (Hrv : rv = 5).
  { assert (Hc : exists r w0,
               bloom_load (Some demo_filter) (Some "bad.bin"%string) disk_world
               = Done (5, r) w0) by (eexists _, _; vm_compute; reflexivity).
    destruct Hc as (r & w0 & Hc). rewrite Hc in Hrun. congruence. }
  subst rv. exists res, w'. split; [exact Hrun|]. apply Hkeep. lia.
Defined.


Lemma bloom_load_success_witness :
  exists w',
    bloom_load (Some demo_unready) (Some "ok.bin"%string) saved_world
    = Done (0, Some (set_bf 1 demo_filter)) w' /\
    w_heap w' = {[ 1 := [1; 0; 66; 0] ]}.
Proof.
  assert (Hname : "ok.bin"%string <> EmptyString) by discriminate.
  pose (content := bytes_of_string BLOOM_MAGIC ++ u16_bytes 52
                     ++ bloom_bytes demo_filter ++ [1; 0; 66; 0] ++ [9; 9]).
  assert (Hf : w_files saved_world !! "ok.bin"%string = Some content)
    by (vm_compute; reflexivity).
  assert (Hmagic : take 9 content = bytes_of_string BLOOM_MAGIC)
    by (vm_compute; reflexivity).
  assert (Hsize : u16_of_bytes (take 2 (drop 9 content)) = sizeof_bloom)
    by (vm_compute; reflexivity).
  assert (Hmajor : major (file_meta content) = BLOOM_VERSION_MAJOR)
    by (vm_compute; reflexivity).
  assert (Hmem : 0 < bytes (file_meta content) <= w_memfree saved_world)
    by (vm_compute; split; [reflexivity | discriminate]).
  assert (Hlen : 11 + sizeof_bloom + bytes (file_meta content) <= Z.of_nat (length content))
    by (vm_compute; discriminate).
  destruct (bloom_load_success packed_sizeof_pos packed_bytes_unsigned
              demo_unready "ok.bin" saved_world content
              Hname Hf Hmagic Hsize Hmajor Hmem Hlen)
    as (w' & Hrun & Hheap & _).
  exists w'. split.
  - etransitivity; [exact Hrun|]. vm_compute. reflexivity.
  - rewrite Hheap. vm_compute. reflexivity.
Defined.

Lemma bloom_load_zero_bits_witness :
  exists b w',
    bloom_load (Some demo_unready) (Some "nobits.bin"%string) saved_world
    = Done (0, Some b) w' /\
    bloom_check (hash := demo_hash) b hello w' = Undef.
Proof.
  assert (Hname : "nobits.bin"%string <> EmptyString) by discriminate.
  pose (content := bytes_of_string BLOOM_MAGIC ++ u16_bytes 52
                     ++ bloom_bytes (Bloom 1000 0 0 4 1 0 0 1 2 1) ++ [0; 0; 0; 0]).
  assert (Hf : w_files saved_world !! "nobits.bin"%string = Some content)
    by (vm_compute; reflexivity).
  assert (Hmagic : take 9 content = bytes_of_string BLOOM_MAGIC)
    by (vm_compute; reflexivity).
  assert (Hsize : u16_of_bytes (take 2 (drop 9 content)) = sizeof_bloom)
    by (vm_compute; reflexivity).
  assert (Hmajor : major (file_meta content) = BLOOM_VERSION_MAJOR)
    by (vm_compute; reflexivity).
  assert (Hmem : 0 < bytes (file_meta content) <= w_memfree saved_world)
    by (vm_compute; split; [reflexivity | discriminate]).
  assert (Hlen : 11 + sizeof_bloom + bytes (file_meta content) <= Z.of_nat (length content))
    by (vm_compute; discriminate).
  assert (Hrdy : ready (file_meta content) <> 0) by (vm_compute; discriminate).
  assert (Hbits : bits (file_meta content) = 0) by (vm_compute; reflexivity).
  assert (Hrounds : 0 < hashes (file_meta content)) by (vm_compute; reflexivity).
  destruct (bloom_load_zero_bits (hash := demo_hash) packed_sizeof_pos packed_bytes_unsigned
              demo_unready "nobits.bin" saved_world content
              Hname Hf Hmagic Hsize Hmajor Hmem Hlen Hrdy Hbits Hrounds)
    as (b & w' & Hrun & Hundef).
  exists b, w'. split; [exact Hrun | apply Hundef].
Defined.

Lemma bloom_loadcustom_success_witness :
  exists w',
    bloom_loadcustom demo_unready (Some "z"%string) saved_world
    = Done (0, set_bf 1 demo_filter) w' /\
    w_heap w' = {[ 1 := [1; 0; 66; 0] ]}.
Proof.
  assert (Hname : "z"%string <> EmptyString) by discriminate.
  assert (Hblm : w_files saved_world !! snprintf68 "z" ".blm" = Some (bloom_bytes demo_filter))
    by (vm_compute; reflexivity).
  assert (Hdat : w_files saved_world !! snprintf68 "z" ".dat" = Some [1; 0; 66; 0; 7])
    by (vm_compute; reflexivity).
  assert (Hlen : sizeof_bloom <= Z.of_nat (length (bloom_bytes demo_filter)))
    by (vm_compute; discriminate).
  assert (Hmem : 0 < bytes (bloom_store (take (Z.to_nat sizeof_bloom)
                                  (bloom_bytes demo_filter)) demo_unready)
                 <= w_memfree saved_world)
    by (vm_compute; split; [reflexivity | discriminate]).
  assert (Hbuf : bytes (bloom_store (take (Z.to_nat sizeof_bloom) (bloom_bytes demo_filter))
                          demo_unready) <= Z.of_nat (length [1; 0; 66; 0; 7]))
    by (vm_compute; discriminate).
  destruct (bloom_loadcustom_success packed_sizeof_pos packed_bytes_unsigned
              demo_unready "z" saved_world (bloom_bytes demo_filter) [1; 0; 66; 0; 7]
              saved_world_fresh Hname Hblm Hdat Hlen Hmem Hbuf)
    as (w' & Hrun & Hheap & _).
  exists w'. split.
  - etransitivity; [exact Hrun|]. vm_compute. reflexivity.
  - rewrite Hheap. vm_compute. reflexivity.
Defined.

Lemma loaders_keep_old_buffer_witness :
  exists w',
    bloom_load (Some demo_filter) (Some "ok.bin"%string) reload_world
    = Done (0, Some (set_bf 101 demo_filter)) w' /\
    w_heap w' !! 100 = Some [1; 1; 1; 1] /\
    w_heap w' !! 101 = Some [1; 0; 66; 0].
Proof.
  assert (Hfresh : heap_fresh reload_world) by reflexivity.
  assert (Hblk : w_heap reload_world !! bf demo_filter = Some [1; 1; 1; 1])
    by reflexivity.
  destruct (loaders_keep_old_buffer packed_sizeof_pos packed_bytes_unsigned
              demo_filter (Some "ok.bin"%string) reload_world [1; 1; 1; 1] Hfresh Hblk)
    as ((rv & res & w' & Hrun & Hold & _) & _).
  assert (Hc : exists w0,
             bloom_load (Some demo_filter) (Some "ok.bin"%string) reload_world
             = Done (0, Some (set_bf 101 demo_filter)) w0
             /\ w_heap w0 !! 101 = Some [1; 0; 66; 0])
    by (eexists; split; vm_compute; reflexivity).
  destruct Hc as (w0 & Hc & Hnew). rewrite Hc in Hrun.
  injection Hrun as <- <- <-.
  exists w0. split; [exact Hc|]. split; [exact Hold | exact Hnew].
Defined.

Lemma bloom_loadcustom_short_witness :
  bloom_loadcustom demo_filter (Some "y"%string) disk_world
  = Done (1, Bloom 77 (error demo_filter) 29 4 3 (bpe demo_filter) 100 1 2 1) disk_world.
Proof.
  assert (Hname : "y"%string <> EmptyString) by discriminate.
  assert (Hblm : w_files disk_world !! snprintf68 "y" ".blm" = Some (le_bytes 8 77))
    by (vm_compute; reflexivity).
  assert (Hdat : w_files disk_world !! snprintf68 "y" ".dat" = Some [])
    by (vm_compute; reflexivity).
  assert (Hlen : Z.of_nat (length (le_bytes 8 77)) < sizeof_bloom)
    by (vm_compute; reflexivity).
  etransitivity;
    [exact (bloom_loadcustom_short demo_filter "y" disk_world (le_bytes 8 77) []
              Hname Hblm Hdat Hlen)|].
  vm_compute. reflexivity.
Defined.

(** ** Writes that the device cuts short *)

Lemma file_write_short (data old : list Z) (pos len : Z) (path : string) (w : world) :
  w_files w !! path = Some old ->
  len = Z.of_nat (length data) -> 0 < len -> w_diskfree w < len ->
  exists k f w',
    file_write data (File path pos) w = Done (k, f) w' /\
    (k =? len) = false /\ w_heap w' = w_heap w.
Proof.
  intros Hf -> Hpos Hdisk. rewrite (file_write_spec _ _ _ _ _ Hf). cbn zeta.
  eexists _, _, _. split; [reflexivity|]. split; [|reflexivity].
  apply Z.eqb_neq. rewrite length_take. lia.
Qed.

Lemma file_write_heap_short (p n pos : Z) (blk old : list Z) (path : string) (w : world) :
  w_heap w !! p = Some blk -> Z.of_nat (length blk) = n ->
  w_files w !! path = Some old -> 0 < n -> w_diskfree w < n ->
  exists k f w',
    file_write_heap p n (File path pos) w = Done (k, f) w' /\
    (k =? n) = false /\ w_heap w' = w_heap w.
Proof.
  intros Hp Hn Hf Hpos Hdisk. unfold file_write_heap. rewrite Hp.
  rewrite decide_True by lia. rewrite take_ge by lia.
  destruct (file_write_short blk old pos n path (log (EvDump p n) w) Hf (eq_sym Hn)
              Hpos Hdisk)
    as (k & f & w' & Hrun & Hk & Hh).
  exists k, f, w'. auto.
Qed.

Section Written.
Context {F : Type} `{FloatZero F} `{BloomLayout F}.
Hypothesis sizeof_pos : 0 < sizeof_bloom.
Hypothesis image_length : forall b : bloom F, Z.of_nat (length (bloom_bytes b)) = sizeof_bloom.

(** The single-file form built without WIN64, write by write: the result
    is 0 when the device accepts all the bytes and 1 when it cuts one of
    the four writes short; the file is not truncated when opened. *)
Lemma bloom_save_posix_cases (b : bloom F) (name : string) (w : world) :
  name <> EmptyString -> name ∉ w_denied w -> ready_filter b w ->
  let old := default [] (w_files w !! name) in
  let image := bytes_of_string BLOOM_MAGIC
                 ++ u16_bytes (u16 sizeof_bloom) ++ bloom_bytes b ++ buffer_of b w in
  exists w1,
    bloom_save false b (Some name) w
    = Done (if decide (11 + sizeof_bloom + bytes b <= w_diskfree w) then 0 else 1) w1 /\
    w_heap w1 = w_heap w /\
    (11 + sizeof_bloom + bytes b <= w_diskfree w ->
     w_files w1 !! name = Some (image ++ drop (length image) old)).
Proof.
  intros Hname Hden Hr old image.
  destruct (ready_filter_block b w Hr) as [Hp Hlen].
  pose proof (image_length b) as Himg.
  assert (Hby : 0 < bytes b) by (destruct Hr as (_ & ? & ? & _); lia).
  destruct (open_wronly_creat_spec name w Hden) as (w0 & Hopen & Hf0 & Hh0 & Hb0 & Hm0 & Hd0).
  fold old in Hf0.
  unfold bloom_save, no_filename. rewrite bool_decide_eq_false_2 by exact Hname.
  cbn [the_filename]. unfold bind at 1. rewrite Hopen.
  change (Z.to_nat strlen_magic) with 9%nat.
  change (take 9 (bytes_of_string BLOOM_MAGIC)) with (bytes_of_string BLOOM_MAGIC).
  (* the magic *)
  unfold bind at 1.
  destruct (decide (9 <= w_diskfree w0)) as [H9|H9].
  2:{ destruct (file_write_short (bytes_of_string BLOOM_MAGIC) old 0 strlen_magic name w0
                  Hf0 eq_refl ltac:(reflexivity) ltac:(change strlen_magic with 9; lia))
        as (k & f & w' & Hw & Hk & Hh).
      rewrite Hw. cbn [fst snd]. rewrite Hk. cbn [negb]. rewrite decide_False by lia.
      exists w'. split; [reflexivity|]. split; [congruence | intros; lia]. }
  change (File name 0) with (File name (Z.of_nat 0)).
  rewrite (file_write_full _ [] old 0 name w0 Hf0 eq_refl)
    by (change (Z.of_nat (length _)) with 9; lia).
  cbn [fst snd].
  change (Z.of_nat (length (bytes_of_string BLOOM_MAGIC)) =? strlen_magic) with true.
  cbn [negb].
  (* the size field *)
  set (wa := set_files _ _ w0).
  assert (Hfa : w_files wa !! name
                = Some (([] ++ bytes_of_string BLOOM_MAGIC) ++ drop 9 old))
    by (unfold wa; simpl; apply lookup_insert_eq).
  assert (Hda : w_diskfree wa = w_diskfree w - 9) by (unfold wa; simpl; lia).
  unfold bind at 1.
  destruct (decide (2 <= w_diskfree wa)) as [H2|H2].
  2:{ match goal with |- context [file_write _ (File _ ?pos) wa] =>
        destruct (file_write_short (u16_bytes (u16 sizeof_bloom)) _ pos 2 name wa
                    Hfa eq_refl ltac:(lia) ltac:(lia))
          as (k & f & w' & Hw & Hk & Hh)
      end.
      rewrite Hw. cbn [fst snd]. rewrite Hk. cbn [negb]. rewrite decide_False by lia.
      exists w'. split; [reflexivity|]. split; [rewrite Hh; exact Hh0 | intros; lia]. }
  rewrite (file_write_full _ _ old 9 name wa Hfa eq_refl)
    by (change (Z.of_nat (length (u16_bytes _))) with 2; lia).
  cbn [fst snd]. change (Z.of_nat (length (u16_bytes (u16 sizeof_bloom))) =? 2) with true.
  cbn [negb].
  (* the metadata *)
  set (wb := set_files _ _ wa).
  assert (Hfb : w_files wb !! name
                = Some ((([] ++ bytes_of_string BLOOM_MAGIC) ++ u16_bytes (u16 sizeof_bloom))
                          ++ drop 11 old))
    by (unfold wb; simpl; apply lookup_insert_eq).
  assert (Hdb : w_diskfree wb = w_diskfree w - 11) by (unfold wb; simpl; lia).
  unfold bind at 1.
  destruct (decide (sizeof_bloom <= w_diskfree wb)) as [Hs|Hs].
  2:{ match goal with |- context [file_write _ (File _ ?pos) wb] =>
        destruct (file_write_short (bloom_bytes b) _ pos sizeof_bloom name wb
                    Hfb (eq_sym Himg) ltac:(lia) ltac:(lia))
          as (k & f & w' & Hw & Hk & Hh)
      end.
      rewrite Hw. cbn [fst snd]. rewrite Hk. cbn [negb]. rewrite decide_False by lia.
      exists w'. split; [reflexivity|]. split; [rewrite Hh; exact Hh0 | intros; lia]. }
  rewrite (file_write_full (bloom_bytes b) _ old 11 name wb Hfb eq_refl) by lia.
  cbn [fst snd]. rewrite Himg, Z.eqb_refl. cbn [negb].
  (* the buffer *)
  set (wc := set_files _ _ wb).
  assert (Hfc : w_files wc !! name
                = Some (((([] ++ bytes_of_string BLOOM_MAGIC) ++ u16_bytes (u16 sizeof_bloom))
                           ++ bloom_bytes b)
                          ++ drop (11 + length (bloom_bytes b)) old))
    by (unfold wc; simpl; apply lookup_insert_eq).
  assert (Hdc : w_diskfree wc = w_diskfree w - 11 - sizeof_bloom)
    by (unfold wc; simpl; lia).
  assert (Hpc : w_heap wc !! bf b = Some (buffer_of b w))
    by (unfold wc, wb, wa; simpl; rewrite Hh0; exact Hp).
  assert (Hhc : w_heap wc = w_heap w) by (unfold wc, wb, wa; simpl; exact Hh0).
  unfold bind at 1.
  destruct (decide (bytes b <= w_diskfree wc)) as [Hn|Hn].
  2:{ match goal with |- context [file_write_heap _ _ (File _ ?pos) wc] =>
        destruct (file_write_heap_short (bf b) (bytes b) pos
                    (buffer_of b w) _ name wc Hpc Hlen Hfc ltac:(lia) ltac:(lia))
          as (k & f & w' & Hw & Hk & Hh)
      end.
      rewrite Hw. cbn [fst snd]. rewrite Hk. cbn [negb]. rewrite decide_False by lia.
      exists w'. split; [reflexivity|]. split; [congruence | intros; lia]. }
  rewrite (file_write_heap_full (bf b) (bytes b) (buffer_of b w) _ old
             (11 + length (bloom_bytes b)) name wc Hpc Hlen Hfc)
    by (rewrite ?length_app; simpl; lia).
  cbn [fst snd]. rewrite Z.eqb_refl. cbn [negb].
  rewrite decide_True by lia.
  eexists. split; [reflexivity|]. split; [exact Hhc|]. intros _.
  cbn [w_files set_files log]. rewrite lookup_insert_eq. f_equal.
  unfold image. rewrite <- !app_assoc. cbn [app]. do 4 f_equal.
  rewrite !length_app. reflexivity.
Qed.

(** X18. The single-file form built without WIN64 does not truncate:
    after a successful [bloom_save] the file holds the magic, the size
    field, the metadata and the buffer, followed by whatever the file held
    beyond them before the call (nothing when the file was missing or
    shorter). *)
Theorem bloom_save_keeps_tail (b : bloom F) (name : string) (w : world) :
  name <> EmptyString -> name ∉ w_denied w -> ready_filter b w ->
  11 + sizeof_bloom + bytes b <= w_diskfree w ->
  let old := default [] (w_files w !! name) in
  let image := bytes_of_string BLOOM_MAGIC
                 ++ u16_bytes (u16 sizeof_bloom) ++ bloom_bytes b ++ buffer_of b w in
  exists w1,
    bloom_save false b (Some name) w = Done 0 w1 /\
    w_files w1 !! name = Some (image ++ drop (length image) old) /\
    w_heap w1 = w_heap w.
Proof.
  intros Hname Hden Hr Hdisk old image.
  destruct (bloom_save_posix_cases b name w Hname Hden Hr) as (w1 & Hrun & Hheap & Hfile).
  rewrite decide_True in Hrun by exact Hdisk.
  exists w1. split; [exact Hrun|]. split; [apply Hfile; exact Hdisk | exact Hheap].
Qed.

(** X19. A short write in the single-file form built without WIN64: when
    the device accepts fewer bytes than the magic, the size field, the
    metadata and the buffer take, [bloom_save] returns 1; the heap is not
    changed. *)
Theorem bloom_save_short_write (b : bloom F) (name : string) (w : world) :
  name <> EmptyString -> name ∉ w_denied w -> ready_filter b w ->
  w_diskfree w < 11 + sizeof_bloom + bytes b ->
  exists w1, bloom_save false b (Some name) w = Done 1 w1 /\ w_heap w1 = w_heap w.
Proof.
  intros Hname Hden Hr Hdisk.
  destruct (bloom_save_posix_cases b name w Hname Hden Hr) as (w1 & Hrun & Hheap & _).
  rewrite decide_False in Hrun by lia.
  exists w1. split; [exact Hrun | exact Hheap].
Qed.


(** X21. The two files are opened before either is looked at: when one
    of them cannot be opened for writing [bloom_savecustom] returns 1, and
    the one that could be opened is left empty. *)
Theorem bloom_savecustom_open_fails (b : bloom F) (name : string) (w : world) :
  name <> EmptyString ->
  snprintf68 name ".blm" ∈ w_denied w \/ snprintf68 name ".dat" ∈ w_denied w ->
  exists w',
    bloom_savecustom b (Some name) w = Done 1 w' /\
    w_heap w' = w_heap w /\
    (snprintf68 name ".blm" ∉ w_denied w ->
     w_files w' !! snprintf68 name ".blm" = Some []) /\
    (snprintf68 name ".dat" ∉ w_denied w ->
     w_files w' !! snprintf68 name ".dat" = Some []).
Proof.
  clear sizeof_pos image_length. intros Hname Hden.
  unfold bloom_savecustom, no_filename. rewrite bool_decide_eq_false_2 by exact Hname.
  cbn [the_filename]. set (str := snprintf68 name ".blm") in *.
  set (dat := snprintf68 name ".dat") in *.
  unfold bind at 1, fopen_wb.
  destruct (decide (str ∈ w_denied w)) as [Hs|Hs]; unfold bind at 1;
    cbn [w_denied set_files];
    destruct (decide (dat ∈ w_denied w)) as [Hd|Hd].
  - exists w. split; [reflexivity|]. split; [reflexivity|]. split; intros; contradiction.
  - eexists. split; [reflexivity|]. split; [reflexivity|]. split; [intros; contradiction|].
    intros _. cbn [w_files]. apply lookup_insert_eq.
  - eexists. split; [reflexivity|]. split; [reflexivity|]. split; [|intros; contradiction].
    intros _. cbn [w_files]. apply lookup_insert_eq.
  - destruct Hden; contradiction.
Qed.
End Written.

(** ** The paths of the two-file form *)

Lemma append_cons (c : Ascii.ascii) (s t : string) : String c s +:+ t = String c (s +:+ t).
Proof. reflexivity. Qed.

Lemma append_nil (t : string) : EmptyString +:+ t = t.
Proof. reflexivity. Qed.

Lemma substring_0_app (s t : string) :
  forall n, (String.length s <= n)%nat ->
    String.substring 0 n (s +:+ t) = s +:+ String.substring 0 (n - String.length s) t.
Proof.
  induction s as [|c s IH]; intros n Hn; cbn [String.length] in *;
    rewrite ?append_cons, ?append_nil.
  - rewrite Nat.sub_0_r. reflexivity.
  - destruct n as [|n]; [lia|]. cbn [String.substring Nat.sub]. rewrite IH by lia.
    reflexivity.
Qed.

Lemma substring_0_short (s t : string) :
  forall n, (n <= String.length s)%nat ->
    String.substring 0 n (s +:+ t) = String.substring 0 n s.
Proof.
  induction s as [|c s IH]; intros n Hn; cbn [String.length] in *;
    rewrite ?append_cons, ?append_nil.
  - replace n with 0%nat by lia. destruct t; reflexivity.
  - destruct n as [|n]; [reflexivity|]. cbn [String.substring]. rewrite IH by lia.
    reflexivity.
Qed.

Lemma append_inj_r (s t u : string) : s +:+ t = s +:+ u -> t = u.
Proof.
  induction s as [|c s IH]; rewrite ?append_cons, ?append_nil; intros Heq; [exact Heq|].
  injection Heq as Heq. apply IH. exact Heq.
Qed.

(** X22. The paths of the two-file form, [snprintf(buf, 68, "%s.blm",
    filename)] and the same with ".dat": for a base name of at most 63
    characters they are the name with the extension; the two paths differ
    exactly when the base name has at most 65 characters, and from 66
    characters on both functions are given one path for the two files. *)
Theorem snprintf68_paths (name : string) :
  ((String.length name <= 63)%nat ->
   snprintf68 name ".blm" = name +:+ ".blm" /\ snprintf68 name ".dat" = name +:+ ".dat") /\
  ((String.length name <= 65)%nat -> snprintf68 name ".blm" <> snprintf68 name ".dat") /\
  ((66 <= String.length name)%nat -> snprintf68 name ".blm" = snprintf68 name ".dat").
Proof.
  unfold snprintf68. split; [|split].
  - intros Hlen. rewrite !substring_0_app by lia.
    remember (67 - String.length name)%nat as k eqn:Hk.
    do 4 (destruct k as [|k]; [lia|]). split; destruct k; reflexivity.
  - intros Hlen. rewrite !substring_0_app by lia. intros Heq.
    apply append_inj_r in Heq.
    remember (67 - String.length name)%nat as k eqn:Hk.
    do 2 (destruct k as [|k]; [lia|]). discriminate Heq.
  - intros Hlen. destruct (decide (67 <= String.length name)%nat) as [Hge|Hlt].
    + rewrite !substring_0_short by exact Hge. reflexivity.
    + rewrite !substring_0_app by lia.
      replace (67 - String.length name)%nat with 1%nat by lia. reflexivity.
Qed.

(** ** Examples *)

Lemma cramped_world_allows (path : string) :
  path <> "ro.dat"%string -> path ∉ w_denied cramped_world.
Proof.
  intros Hne Hin. cbn [w_denied cramped_world] in Hin.
  apply elem_of_singleton in Hin. contradiction.
Qed.

Lemma bloom_save_keeps_tail_witness :
  exists w1,
    bloom_save false demo_filter (Some "t.bin"%string) tail_world = Done 0 w1 /\
    w_files w1 !! "t.bin"%string
    = Some (bytes_of_string BLOOM_MAGIC ++ u16_bytes 52 ++ bloom_bytes demo_filter
              ++ [0; 0; 0; 0] ++ [7; 7; 7; 7; 7]).
Proof.
  assert (Hname : "t.bin"%string <> EmptyString) by discriminate.
  assert (Hden : "t.bin"%string ∉ w_denied tail_world) by apply not_elem_of_empty.
  assert (Hr : ready_filter demo_filter tail_world).
  { unfold ready_filter, demo_filter, tail_world; simpl.
    repeat split; try lia. exists [0; 0; 0; 0]. split; reflexivity. }
  assert (Hdisk : 11 + sizeof_bloom + bytes demo_filter <= w_diskfree tail_world)
    by (vm_compute; discriminate).
  destruct (bloom_save_keeps_tail packed_sizeof_pos packed_image_length
              demo_filter "t.bin" tail_world Hname Hden Hr Hdisk)
    as (w1 & Hrun & Hfile & _).
  exists w1. split; [exact Hrun|]. rewrite Hfile. vm_compute. reflexivity.
Defined.

Lemma bloom_save_short_write_witness :
  exists w1,
    bloom_save false demo_filter (Some "t.bin"%string) cramped_world = Done 1 w1 /\
    w_heap w1 = w_heap cramped_world.
Proof.
  assert (Hname : "t.bin"%string <> EmptyString) by discriminate.
  assert (Hden : "t.bin"%string ∉ w_denied cramped_world)
    by (apply cramped_world_allows; discriminate).
  assert (Hr : ready_filter demo_filter cramped_world).
  { unfold ready_filter, demo_filter, cramped_world; simpl.
    repeat split; try lia. exists [0; 0; 0; 0]. split; reflexivity. }
  assert (Hdisk : w_diskfree cramped_world < 11 + sizeof_bloom + bytes demo_filter)
    by (vm_compute; reflexivity).
  exact (bloom_save_short_write packed_sizeof_pos packed_image_length
           demo_filter "t.bin" cramped_world Hname Hden Hr Hdisk).
Defined.


Lemma bloom_savecustom_open_fails_witness :
  exists w',
    bloom_savecustom demo_filter (Some "ro"%string) cramped_world = Done 1 w' /\
    w_files w' !! "ro.blm"%string = Some [].
Proof.
  assert (Hname : "ro"%string <> EmptyString) by discriminate.
  assert (Hden : snprintf68 "ro" ".blm" ∈ w_denied cramped_world
                 \/ snprintf68 "ro" ".dat" ∈ w_denied cramped_world)
    by (right; cbn [w_denied cramped_world]; apply elem_of_singleton_2; reflexivity).
  destruct (bloom_savecustom_open_fails demo_filter "ro" cramped_world Hname Hden)
    as (w' & Hrun & _ & Hblm & _).
  exists w'. split; [exact Hrun|]. apply Hblm.
  apply cramped_world_allows. discriminate.
Defined.

Lemma snprintf68_paths_witness :
  snprintf68 "s" ".blm" = "s.blm"%string /\ snprintf68 "s" ".dat" = "s.dat"%string.
Proof.
  apply (proj1 (snprintf68_paths "s")). cbn. lia.
Defined.
